(** * Mailer client: a shallow embedding of [mailer-client.go]

    The package is one constructor, [NewClient], and one method, [Send].
    [Send] marshals an [EmailReq] with [encoding/json], posts it with the
    client's [http.Client], decodes the reply into an [EmailRes] with a
    [json.Decoder] and maps the outcome to a Go [error].

    Go strings and byte slices are sequences of bytes: they are modelled
    as [string], whose characters are the 8-bit [ascii] values.  The parts
    of the Go standard library that [Send] runs deterministically
    ([unicode/utf8], [unicode/utf16], [encoding/json]) are modelled as
    executable functions; the network behind the [Post] method of [http.Client]
    is a parameter. *)

From Stdlib Require Import String Ascii List NArith ZArith Bool Lia.
Import ListNotations.

Local Open Scope string_scope.
Local Open Scope N_scope.

(** ** Results and bytes *)

Inductive result (E A : Type) : Type :=
| Ok (a : A)
| Err (e : E).
Arguments Ok {E A} a.
Arguments Err {E A} e.

Definition is_ok {E A} (r : result E A) : bool :=
  match r with Ok _ => true | Err _ => false end.

Definition byte := ascii.

(** The numeric value of a byte, and the byte of a number below 256. *)
Definition b2n (b : byte) : N := N_of_ascii b.
Definition n2b (n : N) : byte := ascii_of_N (n mod 256).

(** The double quote and the backslash. *)
Definition dquote : byte := "034"%char.
Definition bslash : byte := "092"%char.

(** [quoted s] is [s] between two double quotes. *)
Definition quoted (s : string) : string := String dquote (s ++ String dquote "").

(** [js s] is [s] with every apostrophe replaced by a double quote; JSON
    texts are written with it, as in [js "{'success': true}"]. *)
Fixpoint js (s : string) : string :=
  match s with
  | "" => ""
  | String c r => String (if Ascii.eqb c "'"%char then dquote else c) (js r)
  end.

(** ** unicode/utf8 and unicode/utf16 *)

Module utf8.

Definition RuneError : N := 0xFFFD.
Definition RuneSelf : N := 0x80.
Definition MaxRune : N := 0x10FFFF.

(** The i-th byte of [p] as a number. *)
Definition at_ (p : string) (i : nat) : option N :=
  option_map b2n (String.get i p).

Definition cont (b : N) : bool := (0x80 <=? b) && (b <=? 0xBF).

(** The size of the sequence a first byte announces and the range its
    second byte must lie in (the [first] and [acceptRanges] tables);
    [None] for a byte that starts no sequence. *)
Definition first (p0 : N) : option (nat * N * N) :=
  if p0 <? 0xC2 then None
  else if p0 <=? 0xDF then Some (2%nat, 0x80, 0xBF)
  else if p0 =? 0xE0 then Some (3%nat, 0xA0, 0xBF)
  else if p0 <=? 0xEC then Some (3%nat, 0x80, 0xBF)
  else if p0 =? 0xED then Some (3%nat, 0x80, 0x9F)
  else if p0 <=? 0xEF then Some (3%nat, 0x80, 0xBF)
  else if p0 =? 0xF0 then Some (4%nat, 0x90, 0xBF)
  else if p0 <=? 0xF3 then Some (4%nat, 0x80, 0xBF)
  else if p0 =? 0xF4 then Some (4%nat, 0x80, 0x8F)
  else None.

(** [utf8.DecodeRune]: the first rune of [p] and its width in bytes;
    [(RuneError, 1)] for an invalid encoding, [(RuneError, 0)] for the
    empty input. *)
Definition DecodeRune (p : string) : N * nat :=
  match at_ p 0 with
  | None => (RuneError, 0%nat)
  | Some p0 =>
    if p0 <? RuneSelf then (p0, 1%nat)
    else
      match first p0 with
      | None => (RuneError, 1%nat)
      | Some (sz, lo, hi) =>
        if (String.length p <? sz)%nat then (RuneError, 1%nat)
        else
          match at_ p 1 with
          | None => (RuneError, 1%nat)
          | Some b1 =>
            if (b1 <? lo) || (hi <? b1) then (RuneError, 1%nat)
            else if (sz <=? 2)%nat
            then (N.lor (N.shiftl (N.land p0 0x1F) 6) (N.land b1 0x3F), 2%nat)
            else
              match at_ p 2 with
              | None => (RuneError, 1%nat)
              | Some b2 =>
                if negb (cont b2) then (RuneError, 1%nat)
                else if (sz <=? 3)%nat
                then (N.lor (N.shiftl (N.land p0 0x0F) 12)
                        (N.lor (N.shiftl (N.land b1 0x3F) 6) (N.land b2 0x3F)),
                      3%nat)
                else
                  match at_ p 3 with
                  | None => (RuneError, 1%nat)
                  | Some b3 =>
                    if negb (cont b3) then (RuneError, 1%nat)
                    else (N.lor (N.shiftl (N.land p0 0x07) 18)
                            (N.lor (N.shiftl (N.land b1 0x3F) 12)
                               (N.lor (N.shiftl (N.land b2 0x3F) 6)
                                  (N.land b3 0x3F))),
                          4%nat)
                  end
              end
          end
      end
  end.

Definition surrogate (r : N) : bool := (0xD800 <=? r) && (r <=? 0xDFFF).

(** [utf8.EncodeRune]: the UTF-8 bytes of [r]; a surrogate half or a value
    above [MaxRune] is written as [RuneError]. *)
Definition EncodeRune (r : N) : string :=
  let three x :=
    String (n2b (N.lor 0xE0 (N.shiftr x 12)))
      (String (n2b (N.lor 0x80 (N.land (N.shiftr x 6) 0x3F)))
         (String (n2b (N.lor 0x80 (N.land x 0x3F))) "")) in
  if r <=? 0x7F then String (n2b r) ""
  else if r <=? 0x7FF then
    String (n2b (N.lor 0xC0 (N.shiftr r 6)))
      (String (n2b (N.lor 0x80 (N.land r 0x3F))) "")
  else if (MaxRune <? r) || surrogate r then three RuneError
  else if r <=? 0xFFFF then three r
  else
    String (n2b (N.lor 0xF0 (N.shiftr r 18)))
      (String (n2b (N.lor 0x80 (N.land (N.shiftr r 12) 0x3F)))
         (String (n2b (N.lor 0x80 (N.land (N.shiftr r 6) 0x3F)))
            (String (n2b (N.lor 0x80 (N.land r 0x3F))) ""))).

(** [utf8.ValidString]: every rune of [s] is well formed.  [skip] counts
    the bytes of the current rune still to pass. *)
Fixpoint validFrom (skip : nat) (s : string) : bool :=
  match s with
  | "" => true
  | String b r =>
    match skip with
    | S k => validFrom k r
    | O =>
      let (c, size) := DecodeRune s in
      if (c =? RuneError) && (size =? 1)%nat then false
      else validFrom (size - 1) r
    end
  end.

Definition ValidString (s : string) : bool := validFrom 0 s.

End utf8.

Module utf16.

Definition IsSurrogate (r : N) : bool := (0xD800 <=? r) && (r <? 0xE000).

(** [utf16.DecodeRune]: the rune of a surrogate pair, U+FFFD when the two
    halves are no pair.  The second half is [None] where Go passes -1. *)
Definition DecodeRune (r1 : N) (r2 : option N) : N :=
  match r2 with
  | Some r2 =>
    if (0xD800 <=? r1) && (r1 <? 0xDC00) && (0xDC00 <=? r2) && (r2 <? 0xE000)
    then N.lor (N.shiftl (r1 - 0xD800) 10) (r2 - 0xDC00) + 0x10000
    else 0xFFFD
  | None => 0xFFFD
  end.

End utf16.

(** ** Monadic helpers over [result] and lists *)

Section ListHelpers.
Context {E A B : Type}.
Variable f : A -> result E B.

(** Apply [f] to every element, left to right, stopping at the first
    error. *)
Fixpoint mapM (l : list A) : result E (list B) :=
  match l with
  | [] => Ok []
  | x :: r =>
    match f x with
    | Err e => Err e
    | Ok y =>
      match mapM r with
      | Err e => Err e
      | Ok ys => Ok (y :: ys)
      end
    end
  end.
End ListHelpers.

(** The elements that are present, in order. *)
Fixpoint somes {A} (l : list (option A)) : list A :=
  match l with
  | [] => []
  | Some x :: r => x :: somes r
  | None :: r => somes r
  end.

(** [join sep l]: the strings of [l] with [sep] between neighbours. *)
Fixpoint join (sep : string) (l : list string) : string :=
  match l with
  | [] => ""
  | [x] => x
  | x :: r => x ++ sep ++ join sep r
  end.

(** A Go slice: [None] is the nil slice, [Some l] a slice with elements
    [l] (possibly none). *)
Definition slice (A : Type) : Type := option (list A).

Definition len {A} (s : slice A) : nat :=
  match s with None => 0%nat | Some l => List.length l end.

(** ** encoding/json: the encoder *)

Module json.

Definition hex (n : N) : byte :=
  if n <? 10 then n2b (48 + n) else n2b (87 + n).

(** [htmlSafeSet]: the ASCII bytes [appendString] copies unescaped when
    [escapeHTML] is set, as [json.Marshal] sets it. *)
Definition htmlSafeSet (b : N) : bool :=
  (0x20 <=? b) && (b <? 0x80)
  && negb ((b =? 34) || (b =? 38) || (b =? 60) || (b =? 62) || (b =? 92)).

(** What [appendString] writes for an ASCII byte outside [htmlSafeSet]
    (the short forms for backspace and form feed are those of Go 1.22 and
    later; before, they were written as [\u0008] and [\u000c]). *)
Definition escapeByte (b : N) : string :=
  if (b =? 92) || (b =? 34) then String bslash (String (n2b b) "")
  else if b =? 8 then "\b"
  else if b =? 12 then "\f"
  else if b =? 10 then "\n"
  else if b =? 13 then "\r"
  else if b =? 9 then "\t"
  else "\u00" ++ String (hex (N.shiftr b 4)) (String (hex (N.land b 0xF)) "").

(** The loop of [appendString].  [skip] counts the bytes of the current
    multi-byte rune still to pass; [keep] says whether they are copied
    (a valid rune) or were replaced by an escape (U+2028, U+2029). *)
Fixpoint appendBody (skip : nat) (keep : bool) (src : string) : string :=
  match src with
  | "" => ""
  | String b rest =>
    match skip with
    | S k =>
      if keep then String b (appendBody k keep rest)
      else appendBody k keep rest
    | O =>
      if b2n b <? utf8.RuneSelf then
        if htmlSafeSet (b2n b) then String b (appendBody 0 true rest)
        else escapeByte (b2n b) ++ appendBody 0 true rest
      else
        let (c, size) := utf8.DecodeRune src in
        if (c =? utf8.RuneError) && (size =? 1)%nat
        then "\ufffd" ++ appendBody 0 true rest
        else if (c =? 0x2028) || (c =? 0x2029)
        then "\u202" ++ String (hex (N.land c 0xF)) (appendBody (size - 1) false rest)
        else String b (appendBody (size - 1) true rest)
    end
  end.

(** [appendString]: a Go string as a JSON string literal. *)
Definition appendString (src : string) : string :=
  quoted (appendBody 0 true src).

(** A struct field as the encoder sees it: the key its tag names and the
    [omitempty] option. *)
Record field : Type := { name : string; omitEmpty : bool }.

(** The Go values the encoder is run on, by [reflect.Kind]: the kinds of
    this package's structs, and two kinds the encoder refuses. *)
#[warnings="-register-all"]
Inductive Value : Type :=
| VBool (b : bool)
| VString (s : string)
| VSlice (elems : slice Value)
| VStruct (fields : list (field * Value))
| VChan
| VFunc.

(** [isEmptyValue], which [omitempty] consults. *)
Definition isEmptyValue (v : Value) : bool :=
  match v with
  | VBool b => negb b
  | VString s => (String.length s =? 0)%nat
  | VSlice s => (len s =? 0)%nat
  | VStruct _ | VChan | VFunc => false
  end.

Inductive MarshalError : Type :=
| UnsupportedTypeError (kind : string).

(** The key of a struct field as written: its name in quotes and a colon.
    (The names of this package are letters and underscores, which
    [HTMLEscape] leaves as they are.) *)
Definition nameEscHTML (f : field) : string := quoted (name f) ++ ":".

(** The encoders [typeEncoder] selects by kind: [boolEncoder],
    [stringEncoder], [sliceEncoder] over [arrayEncoder], [structEncoder],
    [unsupportedTypeEncoder]. *)
Fixpoint encode (v : Value) : result MarshalError string :=
  match v with
  | VBool b => Ok (if b then "true" else "false")
  | VString s => Ok (appendString s)
  | VSlice None => Ok "null"
  | VSlice (Some l) =>
    match mapM encode l with
    | Err e => Err e
    | Ok elems => Ok ("[" ++ join "," elems ++ "]")
    end
  | VStruct fs =>
    match mapM (fun fv : field * Value =>
                  if omitEmpty (fst fv) && isEmptyValue (snd fv) then Ok None
                  else match encode (snd fv) with
                       | Err e => Err e
                       | Ok s => Ok (Some (nameEscHTML (fst fv) ++ s))
                       end) fs with
    | Err e => Err e
    | Ok members => Ok ("{" ++ join "," (somes members) ++ "}")
    end
  | VChan => Err (UnsupportedTypeError "chan")
  | VFunc => Err (UnsupportedTypeError "func")
  end.

(** The values made of kinds the encoder supports: no channel and no
    function anywhere inside. *)
Fixpoint supported (v : Value) : bool :=
  match v with
  | VBool _ | VString _ | VSlice None => true
  | VSlice (Some l) => forallb supported l
  | VStruct fs => forallb (fun fv : field * Value => supported (snd fv)) fs
  | VChan | VFunc => false
  end.

(** Induction on values that reaches the elements of a slice and the
    fields of a struct. *)
Section ValueInduction.
Variable P : Value -> Prop.
Hypothesis HBool : forall b, P (VBool b).
Hypothesis HString : forall s, P (VString s).
Hypothesis HNil : P (VSlice None).
Hypothesis HSlice : forall l, Forall P l -> P (VSlice (Some l)).
Hypothesis HStruct :
  forall fs, Forall (fun fv : field * Value => P (snd fv)) fs -> P (VStruct fs).
Hypothesis HChan : P VChan.
Hypothesis HFunc : P VFunc.

Fixpoint Value_nested_ind (v : Value) : P v :=
  match v with
  | VBool b => HBool b
  | VString s => HString s
  | VSlice None => HNil
  | VSlice (Some l) =>
    HSlice l
      ((fix elems (l : list Value) : Forall P l :=
          match l with
          | [] => Forall_nil P
          | x :: r => Forall_cons x (Value_nested_ind x) (elems r)
          end) l)
  | VStruct fs =>
    HStruct fs
      ((fix members (fs : list (field * Value))
          : Forall (fun fv : field * Value => P (snd fv)) fs :=
          match fs with
          | [] => Forall_nil _
          | fv :: r =>
            Forall_cons (P := fun fv : field * Value => P (snd fv)) fv
              (Value_nested_ind (snd fv)) (members r)
          end) fs)
  | VChan => HChan
  | VFunc => HFunc
  end.
End ValueInduction.

End json.

(** ** The package's types *)

(** [Creds]: the authentication data of the mailer backend. *)
Record Creds : Type := mkCreds {
  Email : string;   (* `json:"email"` *)
  Pwd : string      (* `json:"pwd"` *)
}.

(** [EmailReq]: the request body.  The field [Creds] of the source is
    [Creds_] here, since the record type has that name. *)
Record EmailReq : Type := mkEmailReq {
  Creds_ : Creds;           (* `json:"creds"` *)
  ToList : slice string;    (* `json:"to_list"` *)
  Subject : string;         (* `json:"subject"` *)
  Body : string;            (* `json:"body"` *)
  Html : bool;              (* `json:"html"` *)
  FromName : string         (* `json:"from_name"` *)
}.

(** [EmailRes]: the reply of the mailer API. *)
Record EmailRes : Type := mkEmailRes {
  Success : bool;     (* `json:"success"` *)
  Message : string    (* `json:"message"` *)
}.

(** The struct tags of the source name a key and no option. *)
Definition tag (key : string) : json.field :=
  {| json.name := key; json.omitEmpty := false |}.

(** The two structs as the encoder's reflection walks them: the fields in
    the order of declaration, each under the key of its tag. *)
Definition reflect_Creds (c : Creds) : json.Value :=
  json.VStruct
    [ (tag "email", json.VString (Email c));
      (tag "pwd", json.VString (Pwd c)) ].

Definition reflect_EmailReq (r : EmailReq) : json.Value :=
  json.VStruct
    [ (tag "creds", reflect_Creds (Creds_ r));
      (tag "to_list", json.VSlice (option_map (map json.VString) (ToList r)));
      (tag "subject", json.VString (Subject r));
      (tag "body", json.VString (Body r));
      (tag "html", json.VBool (Html r));
      (tag "from_name", json.VString (FromName r)) ].

(** [json.Marshal(req)] for [req] of type [EmailReq]. *)
Definition Marshal (req : EmailReq) : result json.MarshalError string :=
  json.encode (reflect_EmailReq req).

(** ** encoding/json: the scanner and the decoder *)

Module jsondec.

(** One element of a scanned string literal: a byte taken as it stands, the
    byte a two-character escape denotes, or the code unit of a [\uXXXX]
    escape. *)
Inductive item : Type :=
| Lit (b : byte)
| Esc (b : byte)
| EscU (n : N).

(** A JSON value as the scanner delimits it.  String literals and keys are
    kept as scanned and unquoted when they are stored, as the decoder
    does. *)
#[warnings="-register-all"]
Inductive JSON : Type :=
| JNull
| JBool (b : bool)
| JNumber (lit : string)
| JString (s : list item)
| JArray (elems : list JSON)
| JObject (members : list (list item * JSON)).

(** The entries of the scanner's [parseState] stack, each with what has
    been read of its container so far. *)
Inductive parse : Type :=
| parseObjectKey (done : list (list item * JSON))
| parseObjectValue (done : list (list item * JSON)) (key : list item)
| parseArrayValue (done : list JSON).

(** The scanner's step functions.  [stateEndValue] holds the value just
    completed; the literal states [stateT] ... [stateNul] are one state
    holding the letters still expected. *)
Inductive state : Type :=
| stateBeginValue
| stateBeginValueOrEmpty
| stateBeginStringOrEmpty
| stateBeginString
| stateEndValue (v : JSON)
| stateInString (acc : list item)
| stateInStringEsc (acc : list item)
| stateInStringEscU (acc : list item) (digits : list N)
| stateNeg
| state1 (lit : string)
| state0 (lit : string)
| stateDot (lit : string)
| stateDot0 (lit : string)
| stateE (lit : string)
| stateESign (lit : string)
| stateE0 (lit : string)
| stateLiteral (expect : string) (v : JSON).

Record scanner : Type := mkScanner {
  step : state;
  parseState : list parse     (* innermost container first *)
}.

(** What feeding one byte gives: a new scanner, the end of the top-level
    value, or a syntax error. *)
Inductive op : Type :=
| scanContinue (s : scanner)
| scanEnd (v : JSON)
| scanError (msg : string).

Definition maxNestingDepth : N := 10000.

Definition isSpace (c : byte) : bool :=
  (c =? " ")%char || (c =? "009")%char || (c =? "013")%char || (c =? "010")%char.

Definition isDigit (c : byte) : bool := (48 <=? b2n c) && (b2n c <=? 57).
Definition isDigit19 (c : byte) : bool := (49 <=? b2n c) && (b2n c <=? 57).

(** The value of a hexadecimal digit. *)
Definition hexval (c : byte) : option N :=
  let n := b2n c in
  if (48 <=? n) && (n <=? 57) then Some (n - 48)
  else if (97 <=? n) && (n <=? 102) then Some (n - 87)
  else if (65 <=? n) && (n <=? 70) then Some (n - 55)
  else None.

Definition snoc {A} (l : list A) (x : A) : list A := (l ++ [x])%list.
Definition sapp (s : string) (c : byte) : string := s ++ String c "".

(** [pushParseState]. *)
Definition pushParseState (p : parse) (next : state) (ps : list parse) : op :=
  if N.of_nat (List.length (p :: ps)) <=? maxNestingDepth
  then scanContinue (mkScanner next (p :: ps))
  else scanError "exceeded max depth".

(** [popParseState], with the value of the container that closes.  When
    the stack empties, the top-level value is complete and the decoder
    stops there. *)
Definition popParseState (v : JSON) (below : list parse) : op :=
  match below with
  | [] => scanEnd v
  | _ => scanContinue (mkScanner (stateEndValue v) below)
  end.

(** [stateEndValue] on byte [c], [v] being the value just completed. *)
Definition endValue (v : JSON) (ps : list parse) (c : byte) : op :=
  match ps with
  | [] => scanEnd v
  | top :: below =>
    if isSpace c then scanContinue (mkScanner (stateEndValue v) ps)
    else
      match top with
      | parseObjectKey done =>
        if (c =? ":")%char then
          match v with
          | JString k =>
            scanContinue (mkScanner stateBeginValue (parseObjectValue done k :: below))
          | _ => scanError ""
          end
        else scanError "after object key"
      | parseObjectValue done k =>
        if (c =? ",")%char then
          scanContinue (mkScanner stateBeginString
                          (parseObjectKey (snoc done (k, v)) :: below))
        else if (c =? "}")%char then popParseState (JObject (snoc done (k, v))) below
        else scanError "after object key:value pair"
      | parseArrayValue done =>
        if (c =? ",")%char then
          scanContinue (mkScanner stateBeginValue (parseArrayValue (snoc done v) :: below))
        else if (c =? "]")%char then popParseState (JArray (snoc done v)) below
        else scanError "after array element"
      end
  end.

(** [stateBeginValue] on a byte that is no space. *)
Definition beginValue (ps : list parse) (c : byte) : op :=
  if (c =? "{")%char then pushParseState (parseObjectKey []) stateBeginStringOrEmpty ps
  else if (c =? "[")%char then pushParseState (parseArrayValue []) stateBeginValueOrEmpty ps
  else if (c =? dquote)%char then scanContinue (mkScanner (stateInString []) ps)
  else if (c =? "-")%char then scanContinue (mkScanner stateNeg ps)
  else if (c =? "0")%char then scanContinue (mkScanner (state0 "0") ps)
  else if (c =? "t")%char then scanContinue (mkScanner (stateLiteral "rue" (JBool true)) ps)
  else if (c =? "f")%char then scanContinue (mkScanner (stateLiteral "alse" (JBool false)) ps)
  else if (c =? "n")%char then scanContinue (mkScanner (stateLiteral "ull" JNull) ps)
  else if isDigit19 c then scanContinue (mkScanner (state1 (String c "")) ps)
  else scanError "looking for beginning of value".

(** [stateBeginString] on a byte that is no space. *)
Definition beginString (ps : list parse) (c : byte) : op :=
  if (c =? dquote)%char then scanContinue (mkScanner (stateInString []) ps)
  else scanError "looking for beginning of object key string".

(** [state0]: after the integer part of a number. *)
Definition after0 (lit : string) (ps : list parse) (c : byte) : op :=
  if (c =? ".")%char then scanContinue (mkScanner (stateDot (sapp lit c)) ps)
  else if (c =? "e")%char || (c =? "E")%char
  then scanContinue (mkScanner (stateE (sapp lit c)) ps)
  else endValue (JNumber lit) ps c.

(** [stateESign]: after the sign of an exponent. *)
Definition afterESign (lit : string) (ps : list parse) (c : byte) : op :=
  if isDigit c then scanContinue (mkScanner (stateE0 (sapp lit c)) ps)
  else scanError "in exponent of numeric literal".

(** [s.step(s, c)]: the scanner fed one byte. *)
Definition feed (s : scanner) (c : byte) : op :=
  let ps := parseState s in
  match step s with
  | stateBeginValue =>
    if isSpace c then scanContinue s else beginValue ps c
  | stateBeginValueOrEmpty =>
    if isSpace c then scanContinue s
    else if (c =? "]")%char then
      match ps with
      | parseArrayValue done :: below => popParseState (JArray done) below
      | _ => scanError ""
      end
    else beginValue ps c
  | stateBeginStringOrEmpty =>
    if isSpace c then scanContinue s
    else if (c =? "}")%char then
      match ps with
      | parseObjectKey done :: below => popParseState (JObject done) below
      | _ => scanError ""
      end
    else beginString ps c
  | stateBeginString =>
    if isSpace c then scanContinue s else beginString ps c
  | stateEndValue v => endValue v ps c
  | stateInString acc =>
    if (c =? dquote)%char then scanContinue (mkScanner (stateEndValue (JString acc)) ps)
    else if (c =? bslash)%char then scanContinue (mkScanner (stateInStringEsc acc) ps)
    else if b2n c <? 0x20 then scanError "in string literal"
    else scanContinue (mkScanner (stateInString (snoc acc (Lit c))) ps)
  | stateInStringEsc acc =>
    let esc b := scanContinue (mkScanner (stateInString (snoc acc (Esc b))) ps) in
    if (c =? "b")%char then esc "008"%char
    else if (c =? "f")%char then esc "012"%char
    else if (c =? "n")%char then esc "010"%char
    else if (c =? "r")%char then esc "013"%char
    else if (c =? "t")%char then esc "009"%char
    else if (c =? bslash)%char || (c =? "/")%char || (c =? dquote)%char then esc c
    else if (c =? "u")%char then scanContinue (mkScanner (stateInStringEscU acc []) ps)
    else scanError "in string escape code"
  | stateInStringEscU acc ds =>
    match hexval c with
    | None => scanError "in \u hexadecimal character escape"
    | Some d =>
      match ds with
      | [d1; d2; d3] =>
        scanContinue
          (mkScanner (stateInString (snoc acc (EscU (((d1 * 16 + d2) * 16 + d3) * 16 + d)))) ps)
      | _ => scanContinue (mkScanner (stateInStringEscU acc (snoc ds d)) ps)
      end
    end
  | stateNeg =>
    if (c =? "0")%char then scanContinue (mkScanner (state0 "-0") ps)
    else if isDigit19 c then scanContinue (mkScanner (state1 (sapp "-" c)) ps)
    else scanError "in numeric literal"
  | state1 lit =>
    if isDigit c then scanContinue (mkScanner (state1 (sapp lit c)) ps)
    else after0 lit ps c
  | state0 lit => after0 lit ps c
  | stateDot lit =>
    if isDigit c then scanContinue (mkScanner (stateDot0 (sapp lit c)) ps)
    else scanError "after decimal point in numeric literal"
  | stateDot0 lit =>
    if isDigit c then scanContinue (mkScanner (stateDot0 (sapp lit c)) ps)
    else if (c =? "e")%char || (c =? "E")%char
    then scanContinue (mkScanner (stateE (sapp lit c)) ps)
    else endValue (JNumber lit) ps c
  | stateE lit =>
    if (c =? "+")%char || (c =? "-")%char
    then scanContinue (mkScanner (stateESign (sapp lit c)) ps)
    else afterESign lit ps c
  | stateESign lit => afterESign lit ps c
  | stateE0 lit =>
    if isDigit c then scanContinue (mkScanner (stateE0 (sapp lit c)) ps)
    else endValue (JNumber lit) ps c
  | stateLiteral expect v =>
    match expect with
    | String e rest =>
      if (c =? e)%char then
        match rest with
        | "" => scanContinue (mkScanner (stateEndValue v) ps)
        | _ => scanContinue (mkScanner (stateLiteral rest v) ps)
        end
      else scanError "in literal"
    | "" => scanError ""
    end
  end.

(** The errors [Decode] returns. *)
Inductive DecodeError : Type :=
| SyntaxError (msg : string)
| EOF                       (* io.EOF *)
| ErrUnexpectedEOF          (* io.ErrUnexpectedEOF *)
| UnmarshalTypeError (value : string) (fld : string).

Definition reset : scanner := mkScanner stateBeginValue [].

(** The loop of [readValue] over the bytes the body delivers: [None] when
    they end before the value does. *)
Fixpoint scan (s : scanner) (buf : string) : result string (option JSON) :=
  match buf with
  | "" =>
    match feed s " "%char with
    | scanEnd v => Ok (Some v)
    | _ => Ok None
    end
  | String c rest =>
    match feed s c with
    | scanContinue s' => scan s' rest
    | scanEnd v => Ok (Some v)
    | scanError msg => Err msg
    end
  end.

Fixpoint nonSpace (b : string) : bool :=
  match b with
  | "" => false
  | String c r => negb (isSpace c) || nonSpace r
  end.

(** [readValue]: the first JSON value of the body.  What follows it in the
    body is not read. *)
Definition readValue (body : string) : result DecodeError JSON :=
  match scan reset body with
  | Err msg => Err (SyntaxError msg)
  | Ok (Some v) => Ok v
  | Ok None => Err (if nonSpace body then ErrUnexpectedEOF else EOF)
  end.

(** *** Storing the value into an [EmailRes] *)

(** The bytes of the [Lit] items [l] starts with: the input as it stood
    at a byte taken raw. *)
Fixpoint rawPrefix (l : list item) : string :=
  match l with
  | Lit b :: r => String b (rawPrefix r)
  | _ => ""
  end.

(** The loop of [unquoteBytes] over a scanned literal.  [skip] counts the
    items already accounted for: the later bytes of a multi-byte rune, or
    the second half of a surrogate pair. *)
Fixpoint unquoteItems (skip : nat) (l : list item) : string :=
  match l with
  | [] => ""
  | i :: rest =>
    match skip with
    | S k => unquoteItems k rest
    | O =>
      match i with
      | Esc b => String b (unquoteItems 0 rest)
      | EscU rr =>
        if utf16.IsSurrogate rr then
          let rr1 := match rest with EscU r1 :: _ => Some r1 | _ => None end in
          let dec := utf16.DecodeRune rr rr1 in
          if dec =? 0xFFFD
          then utf8.EncodeRune 0xFFFD ++ unquoteItems 0 rest
          else utf8.EncodeRune dec ++ unquoteItems 1 rest
        else utf8.EncodeRune rr ++ unquoteItems 0 rest
      | Lit b =>
        if b2n b <? utf8.RuneSelf then String b (unquoteItems 0 rest)
        else
          let (rr, size) := utf8.DecodeRune (rawPrefix l) in
          utf8.EncodeRune rr ++ unquoteItems (size - 1) rest
      end
    end
  end.

(** [unquote]: the Go string a scanned literal denotes. *)
Definition unquote (l : list item) : string := unquoteItems 0 l.

(** [foldRune] on the two orbits of simple case folding that hold an ASCII
    letter: U+017F folds to S and U+212A to K.  Every other rune above
    U+007F folds to a rune above U+007F; the model leaves it as it is,
    which changes no comparison with a name made of ASCII letters. *)
Definition foldRune (r : N) : N :=
  if r =? 0x17F then 0x53 else if r =? 0x212A then 0x4B else r.

(** [foldName]: the key under which a name is looked up when no field
    matches it exactly. *)
Fixpoint appendFoldedName (skip : nat) (s : string) : string :=
  match s with
  | "" => ""
  | String c rest =>
    match skip with
    | S k => appendFoldedName k rest
    | O =>
      if b2n c <? utf8.RuneSelf then
        String (if (97 <=? b2n c) && (b2n c <=? 122) then n2b (b2n c - 32) else c)
          (appendFoldedName 0 rest)
      else
        let (r, n) := utf8.DecodeRune s in
        utf8.EncodeRune (foldRune r) ++ appendFoldedName (n - 1) rest
    end
  end.

Definition foldName (s : string) : string := appendFoldedName 0 s.

(** The fields of [EmailRes], by the key of their tag. *)
Inductive resField : Type := fSuccess | fMessage.

Definition fieldName (f : resField) : string :=
  match f with fSuccess => "success" | fMessage => "message" end.

(** The field a key of the object selects: the one it names exactly,
    else the one it names up to case folding, else none. *)
Definition findField (key : string) : option resField :=
  if (key =? "success")%string then Some fSuccess
  else if (key =? "message")%string then Some fMessage
  else if (foldName key =? foldName "success")%string then Some fSuccess
  else if (foldName key =? foldName "message")%string then Some fMessage
  else None.

(** The [Value] of an [UnmarshalTypeError] for a JSON value. *)
Definition kindName (v : JSON) : string :=
  match v with
  | JNull => "null"
  | JBool _ => "bool"
  | JNumber _ => "number"
  | JString _ => "string"
  | JArray _ => "array"
  | JObject _ => "object"
  end.

(** The decoder's state while it stores: the struct being filled and the
    first error saved. *)
Record decodeState : Type := mkDecodeState {
  target : EmailRes;
  savedError : option DecodeError
}.

(** [saveError] keeps the first error. *)
Definition saveError (d : decodeState) (e : DecodeError) : decodeState :=
  match savedError d with
  | Some _ => d
  | None => mkDecodeState (target d) (Some e)
  end.

(** One member of the object: a bool for [Success], a string for
    [Message]; [null] leaves the field as it is, any other value is a
    type error that is saved while decoding goes on; a key that names no
    field is skipped. *)
Definition storeMember (d : decodeState) (m : list item * JSON) : decodeState :=
  let (k, v) := m in
  match findField (unquote k) with
  | None => d
  | Some fSuccess =>
    match v with
    | JBool b => mkDecodeState (mkEmailRes b (Message (target d))) (savedError d)
    | JNull => d
    | _ => saveError d (UnmarshalTypeError (kindName v) (fieldName fSuccess))
    end
  | Some fMessage =>
    match v with
    | JString s => mkDecodeState (mkEmailRes (Success (target d)) (unquote s)) (savedError d)
    | JNull => d
    | _ => saveError d (UnmarshalTypeError (kindName v) (fieldName fMessage))
    end
  end.

(** [d.object]: the members in the order of the text. *)
Definition object (ms : list (list item * JSON)) (d : decodeState) : decodeState :=
  fold_left storeMember ms d.

(** [d.unmarshal] into a pointer to [resp]: an object fills the struct,
    [null] leaves it untouched, any other value is a type error. *)
Definition unmarshal (v : JSON) (resp : EmailRes) : result DecodeError EmailRes :=
  let d0 := mkDecodeState resp None in
  let d :=
    match v with
    | JObject ms => object ms d0
    | JNull => d0
    | _ => saveError d0 (UnmarshalTypeError (kindName v) "")
    end in
  match savedError d with
  | Some e => Err e
  | None => Ok (target d)
  end.

(** [json.NewDecoder(body).Decode(&resp)]. *)
Definition Decode (body : string) (resp : EmailRes) : result DecodeError EmailRes :=
  match readValue body with
  | Err e => Err e
  | Ok v => unmarshal v resp
  end.

End jsondec.

(** ** time and net/http, as far as the package uses them *)

Module time.
(** [time.Duration] is an [int64] count of nanoseconds. *)
Definition Duration : Type := Z.
Definition Nanosecond : Duration := 1%Z.
Definition Microsecond : Duration := (1000 * Nanosecond)%Z.
Definition Millisecond : Duration := (1000 * Microsecond)%Z.
Definition Second : Duration := (1000 * Millisecond)%Z.
End time.

Module http.

(** [http.Client]: the package sets and reads no field but [Timeout]. *)
Record Client : Type := mkClient { Timeout : time.Duration }.

(** [http.Response], with the bytes its [Body] delivers up to the end of
    the stream.  (A read that fails after these bytes leaves the decoder
    with these bytes and an error in place of the end; [Send] then returns
    what it returns for the bytes alone.) *)
Record Response : Type := mkResponse {
  StatusCode : Z;
  Body : string
}.

(** One call of the [Post] method: the receiver and the three arguments. *)
Record PostCall : Type := mkPostCall {
  via : Client;
  url : string;
  contentType : string;
  body : string
}.

End http.

(** ** Errors *)

(** The Go [error] values [Send] can return, by where they are made:
    [json.Marshal], the [Post] method (described by its message), and
    [errors.New]. *)
Inductive error : Type :=
| MarshalErr (e : json.MarshalError)
| PostErr (msg : string)
| errorString (s : string).

Module errors.
Definition New (text : string) : error := errorString text.
End errors.

(** The [Error()] method: the message of an error. *)
Definition Error (e : error) : string :=
  match e with
  | MarshalErr (json.UnsupportedTypeError k) => "json: unsupported type: " ++ k
  | PostErr msg => msg
  | errorString s => s
  end.

(** ** The world [Send] runs in *)

(** What [Send] does to the outside: calls of [Post], and closing the body
    of a response. *)
Inductive event : Type :=
| evPost (call : http.PostCall)
| evClose.

(** The network: what a call of [Post] returns, given all that happened
    before it; a failure is given by its message.  All that [net/http]
    does within one call - resolving, connecting, following redirects,
    timing out after [Timeout] - is inside this function. *)
Definition Network : Type :=
  list event -> http.PostCall -> result string http.Response.

(** Computations that act on the world: from the events so far to a result
    and the events after. *)
Definition IO (A : Type) : Type := list event -> A * list event.

Definition ret {A} (a : A) : IO A := fun tr => (a, tr).

Definition bind {A B} (m : IO A) (k : A -> IO B) : IO B :=
  fun tr => let (a, tr') := m tr in k a tr'.

Notation "x <- m ;; k" := (bind m (fun x => k))
  (at level 61, m at next level, right associativity).

(** [defer d] around [body]: [d] runs when [body] has returned. *)
Definition defer {A} (d : IO unit) (body : IO A) : IO A :=
  a <- body ;; _ <- d ;; ret a.

(** The calls of [Post] among some events. *)
Fixpoint posts (tr : list event) : list http.PostCall :=
  match tr with
  | [] => []
  | evPost c :: r => c :: posts r
  | evClose :: r => posts r
  end.

(** ** The client *)

(** [Client]: the base URL and the HTTP client.  The field [Client] of the
    source is [Client_] here, since the record type has that name; it is a
    pointer there, taken to be set, as [NewClient] sets it. *)
Record Client : Type := mkMailer {
  BaseURL : string;
  Client_ : http.Client
}.

(** [NewClient]. *)
Definition NewClient (baseURL : string) : Client :=
  {| BaseURL := baseURL;
     Client_ := {| http.Timeout := (10 * time.Second)%Z |} |}.

Section Send.

Variable net : Network.

(** [c.Post(url, contentType, body)]: one call, answered by the network. *)
Definition Post (c : http.Client) (url contentType body : string)
  : IO (result error http.Response) :=
  fun tr =>
    let call := http.mkPostCall c url contentType body in
    (match net tr call with
     | Ok res => Ok res
     | Err msg => Err (PostErr msg)
     end,
     (tr ++ [evPost call])%list).

(** [res.Body.Close()]. *)
Definition Close : IO unit := fun tr => (tt, (tr ++ [evClose])%list).

(** [Send]; [None] is the nil error. *)
Definition Send (c : Client) (req : EmailReq) : IO (option error) :=
  match Marshal req with
  | Err err => ret (Some (MarshalErr err))
  | Ok jsonData =>
    r <- Post (Client_ c) (BaseURL c ++ "/send") "application/json" jsonData ;;
    match r with
    | Err err => ret (Some err)
    | Ok res =>
      defer Close
        (match jsondec.Decode (http.Body res) (mkEmailRes false "") with
         | Err _ => ret (Some (errors.New "email sent but failed to decode response"))
         | Ok resp =>
           if negb (Success resp)
           then ret (Some (errors.New ("failed to send email: " ++ Message resp)))
           else ret None
         end)
    end
  end.

End Send.

(** A network that answers every call with the response [res]. *)
Definition replies (res : http.Response) : Network := fun _ _ => Ok res.

(** A network on which every call fails. *)
Definition unreachable (msg : string) : Network := fun _ _ => Err msg.

(** ** Vocabulary of the statements *)

(** The zero [EmailRes] that [var resp EmailRes] declares. *)
Definition zeroRes : EmailRes := mkEmailRes false "".

(** The call of [Post] that [Send] makes for a client and a marshalled
    request. *)
Definition postCall (c : Client) (jsonData : string) : http.PostCall :=
  http.mkPostCall (Client_ c) (BaseURL c ++ "/send") "application/json" jsonData.

(** The wire shape of a request as the specification draws it: an object is
    its members between braces, a member is a quoted key, a colon and a
    value, an array is its elements between brackets. *)
Definition member (key value : string) : string := quoted key ++ ":" ++ value.
Definition objectOf (members : list string) : string := "{" ++ join "," members ++ "}".
Definition arrayOf (elems : list string) : string := "[" ++ join "," elems ++ "]".

Definition wireShape (req : EmailReq) : string :=
  objectOf
    [ member "creds"
        (objectOf [ member "email" (json.appendString (Email (Creds_ req)));
                    member "pwd" (json.appendString (Pwd (Creds_ req))) ]);
      member "to_list"
        (match ToList req with
         | None => "null"
         | Some l => arrayOf (map json.appendString l)
         end);
      member "subject" (json.appendString (Subject req));
      member "body" (json.appendString (Body req));
      member "html" (if Html req then "true" else "false");
      member "from_name" (json.appendString (FromName req)) ].

(** The five outcomes the specification names. *)
Inductive outcome : Type :=
| Delivered
| SerializationError
| TransportError
| ResponseDecodeError
| BackendRejectionError.

(** The outcome a value returned by [Send] stands for, read off the value
    alone. *)
Definition classify (r : option error) : option outcome :=
  match r with
  | None => Some Delivered
  | Some (MarshalErr _) => Some SerializationError
  | Some (PostErr _) => Some TransportError
  | Some (errorString s) =>
    if (s =? "email sent but failed to decode response")%string
    then Some ResponseDecodeError
    else if String.prefix "failed to send email: " s
    then Some BackendRejectionError
    else None
  end.

(** A body that holds no JSON value: after leading white space comes a byte
    that begins none. *)
Fixpoint beginsNoValue (body : string) : bool :=
  match body with
  | "" => false
  | String c rest =>
    if jsondec.isSpace c then beginsNoValue rest
    else
      match jsondec.beginValue [] c with
      | jsondec.scanError _ => true
      | _ => false
      end
  end.

(** The items of a literal that holds the bytes of [s] and no escape. *)
Definition lits (s : string) : list jsondec.item :=
  map jsondec.Lit (list_ascii_of_string s).

(** A member whose key selects the [Success] field. *)
Definition namesSuccess (m : list jsondec.item * jsondec.JSON) : bool :=
  match jsondec.findField (jsondec.unquote (fst m)) with
  | Some jsondec.fSuccess => true
  | _ => false
  end.

(** A value the [Message] field accepts. *)
Definition stringOrNull (v : jsondec.JSON) : bool :=
  match v with
  | jsondec.JString _ | jsondec.JNull => true
  | _ => false
  end.

(** The message an object carries: the string of its last member that
    names the message field with a string, the empty string when there is
    none. *)
Definition pickMessage (acc : string) (m : list jsondec.item * jsondec.JSON) : string :=
  match jsondec.findField (jsondec.unquote (fst m)), snd m with
  | Some jsondec.fMessage, jsondec.JString s => jsondec.unquote s
  | _, _ => acc
  end.

Definition messageOf (ms : list (list jsondec.item * jsondec.JSON)) : string :=
  fold_left pickMessage ms "".

(** A member that the [Message] field accepts if it is selected by it. *)
Definition messageFits (m : list jsondec.item * jsondec.JSON) : bool :=
  match jsondec.findField (jsondec.unquote (fst m)) with
  | Some jsondec.fMessage => stringOrNull (snd m)
  | _ => true
  end.

(** *** What the scanner reads from what the encoder writes *)

(** The item the scanner reads from [json.escapeByte b]. *)
Definition escapeItem (b : N) : jsondec.item :=
  if (b =? 92) || (b =? 34) then jsondec.Esc (n2b b)
  else if b =? 8 then jsondec.Esc "008"%char
  else if b =? 12 then jsondec.Esc "012"%char
  else if b =? 10 then jsondec.Esc "010"%char
  else if b =? 13 then jsondec.Esc "013"%char
  else if b =? 9 then jsondec.Esc "009"%char
  else jsondec.EscU b.

(** The items the scanner reads from [json.appendBody skip keep src]. *)
Fixpoint itemsOf (skip : nat) (keep : bool) (src : string) : list jsondec.item :=
  match src with
  | "" => []
  | String b rest =>
    match skip with
    | S k =>
      if keep then jsondec.Lit b :: itemsOf k keep rest
      else itemsOf k keep rest
    | O =>
      if b2n b <? utf8.RuneSelf then
        (if json.htmlSafeSet (b2n b) then jsondec.Lit b else escapeItem (b2n b))
          :: itemsOf 0 true rest
      else
        let (c, size) := utf8.DecodeRune src in
        if (c =? utf8.RuneError) && (size =? 1)%nat
        then jsondec.EscU 0xFFFD :: itemsOf 0 true rest
        else if (c =? 0x2028) || (c =? 0x2029)
        then jsondec.EscU c :: itemsOf (size - 1) false rest
        else jsondec.Lit b :: itemsOf (size - 1) true rest
    end
  end.

(** The string literal read from [json.appendString s]. *)
Definition literalOf (s : string) : jsondec.JSON :=
  jsondec.JString (itemsOf 0 true s).

(** The JSON value read from the text of a Go value. *)
Fixpoint treeOf (v : json.Value) : jsondec.JSON :=
  match v with
  | json.VBool b => jsondec.JBool b
  | json.VString s => literalOf s
  | json.VSlice None => jsondec.JNull
  | json.VSlice (Some l) => jsondec.JArray (map treeOf l)
  | json.VStruct fs =>
    jsondec.JObject
      (somes (map (fun fv : json.field * json.Value =>
                     if json.omitEmpty (fst fv) && json.isEmptyValue (snd fv)
                     then None
                     else Some (lits (json.name (fst fv)), treeOf (snd fv)))
                fs))
  | json.VChan | json.VFunc => jsondec.JNull
  end.

(** A field name that is written as it stands: bytes of [htmlSafeSet]
    only. *)
Fixpoint plainName (k : string) : bool :=
  match k with
  | "" => true
  | String c r => json.htmlSafeSet (b2n c) && plainName r
  end.

(** Every field name inside a value is plain. *)
Fixpoint plainNames (v : json.Value) : bool :=
  match v with
  | json.VSlice (Some l) => forallb plainNames l
  | json.VStruct fs =>
    forallb (fun fv : json.field * json.Value =>
               plainName (json.name (fst fv)) && plainNames (snd fv)) fs
  | _ => true
  end.

(** How deep arrays and objects nest in the text of a value. *)
Fixpoint depth (v : json.Value) : N :=
  match v with
  | json.VSlice (Some l) => 1 + fold_right (fun x m => N.max (depth x) m) 0 l
  | json.VStruct fs =>
    1 + fold_right (fun (fv : json.field * json.Value) m => N.max (depth (snd fv)) m) 0 fs
  | _ => 0
  end.

(** The first [n] bytes of [s] are above U+007F. *)
Fixpoint highPrefix (n : nat) (s : string) : bool :=
  match n, s with
  | O, _ => true
  | S _, "" => true
  | S k, String b r => (utf8.RuneSelf <=? b2n b) && highPrefix k r
  end.

(** Where the scanner stands once a value [v] is complete under the
    containers [ps], with [rest] still to read: at the end when [v] is the
    top-level value, else in [stateEndValue]. *)
Definition afterValue (v : jsondec.JSON) (ps : list jsondec.parse) (rest : string)
  : result string (option jsondec.JSON) :=
  match ps with
  | [] => Ok (Some v)
  | _ => jsondec.scan (jsondec.mkScanner (jsondec.stateEndValue v) ps) rest
  end.

(** [tails sep l]: each string of [l] with [sep] before it. *)
Definition tails (sep : string) (l : list string) : string :=
  fold_right (fun m acc => sep ++ m ++ acc) "" l.

(** The text of [x] is read back as [treeOf x] under any [n] containers. *)
Definition readable (n : nat) (x : json.Value) : Prop :=
  forall (ps : list jsondec.parse) (rest text : string),
    List.length ps = n ->
    json.encode x = Ok text ->
    jsondec.scan (jsondec.mkScanner jsondec.stateBeginValue ps) (text ++ rest)
    = afterValue (treeOf x) ps rest.

(** What the encoder writes for a field and what is read from it. *)
Definition encodeField (fv : json.field * json.Value)
  : result json.MarshalError (option string) :=
  if json.omitEmpty (fst fv) && json.isEmptyValue (snd fv) then Ok None
  else match json.encode (snd fv) with
       | Err e => Err e
       | Ok s => Ok (Some (json.nameEscHTML (fst fv) ++ s))
       end.

Definition treeOfField (fv : json.field * json.Value)
  : option (list jsondec.item * jsondec.JSON) :=
  if json.omitEmpty (fst fv) && json.isEmptyValue (snd fv) then None
  else Some (lits (json.name (fst fv)), treeOf (snd fv)).

Definition fieldReadable (n : nat) (fv : json.field * json.Value) : Prop :=
  plainName (json.name (fst fv)) = true /\ readable n (snd fv).

(** The tree of a marshalled request, spelled out. *)
Definition wireTree (req : EmailReq) : jsondec.JSON :=
  jsondec.JObject
    [ (lits "creds",
       jsondec.JObject [ (lits "email", literalOf (Email (Creds_ req)));
                         (lits "pwd", literalOf (Pwd (Creds_ req))) ]);
      (lits "to_list",
       match ToList req with
       | None => jsondec.JNull
       | Some l => jsondec.JArray (map literalOf l)
       end);
      (lits "subject", literalOf (Subject req));
      (lits "body", literalOf (Body req));
      (lits "html", jsondec.JBool (Html req));
      (lits "from_name", literalOf (FromName req)) ].

(** *** Bytes after the first value *)

(** An array or an object. *)
Definition container (v : jsondec.JSON) : bool :=
  match v with
  | jsondec.JArray _ | jsondec.JObject _ => true
  | _ => false
  end.

(** What holds of every scanner the decoder runs: a value completed at top
    level and still held by the scanner is no container (a container that
    closes at top level ends the scan at once), and the value of a literal
    being read is none either. *)
Definition scannerInv (s : jsondec.scanner) : Prop :=
  match jsondec.step s with
  | jsondec.stateEndValue v => jsondec.parseState s = [] -> container v = false
  | jsondec.stateLiteral _ v => container v = false
  | _ => True
  end.

(** *** The strings a document holds *)

(** The strings a JSON value holds, unquoted, in the order of the text. *)
Fixpoint strings (v : jsondec.JSON) : list string :=
  match v with
  | jsondec.JString l => [jsondec.unquote l]
  | jsondec.JArray es => flat_map strings es
  | jsondec.JObject ms =>
    flat_map (fun m : list jsondec.item * jsondec.JSON => strings (snd m)) ms
  | _ => []
  end.

(** The keys of an object, unquoted. *)
Definition keysOf (v : jsondec.JSON) : list string :=
  match v with
  | jsondec.JObject ms => map (fun m => jsondec.unquote (fst m)) ms
  | _ => []
  end.

(** The strings of a request, in the order of its fields. *)
Definition reqStrings (req : EmailReq) : list string :=
  ([Email (Creds_ req); Pwd (Creds_ req)]
     ++ match ToList req with None => [] | Some l => l end
     ++ [Subject req; Body req; FromName req])%list.

(** *** Replies, member by member *)

(** A member the struct accepts: a bool or [null] under a key that selects
    [Success], a string or [null] under one that selects [Message],
    anything under any other key. *)
Definition fits (m : list jsondec.item * jsondec.JSON) : bool :=
  match jsondec.findField (jsondec.unquote (fst m)) with
  | Some jsondec.fSuccess =>
    match snd m with
    | jsondec.JBool _ | jsondec.JNull => true
    | _ => false
    end
  | Some jsondec.fMessage => stringOrNull (snd m)
  | None => true
  end.

Definition pickSuccess (acc : bool) (m : list jsondec.item * jsondec.JSON) : bool :=
  match jsondec.findField (jsondec.unquote (fst m)), snd m with
  | Some jsondec.fSuccess, jsondec.JBool b => b
  | _, _ => acc
  end.

(** The flag an object carries: the bool of its last member that selects
    [Success] with a bool, false when there is none. *)
Definition successOf (ms : list (list jsondec.item * jsondec.JSON)) : bool :=
  fold_left pickSuccess ms false.

(** *** The bytes of a document *)

(** Every byte of [s] satisfies [p]. *)
Fixpoint allBytes (p : byte -> bool) (s : string) : bool :=
  match s with
  | "" => true
  | String c r => p c && allBytes p r
  end.

(** A byte from 0x20 up that is none of [<], [>] and [&]. *)
Definition wireSafe (b : byte) : bool :=
  (0x20 <=? b2n b) && negb ((b2n b =? 38) || (b2n b =? 60) || (b2n b =? 62)).

(** [a] is made of whole runes: a text that begins with [a] is valid
    exactly when what follows [a] is. *)
Definition wholeRunes (a : string) : Prop :=
  forall rest : string, utf8.validFrom 0 (a ++ rest) = utf8.validFrom 0 rest.

(** [s] with every byte that begins no well-formed rune replaced by the
    three bytes of U+FFFD.  [skip] counts the bytes of the current rune
    still to pass. *)
Fixpoint replaceInvalid (skip : nat) (s : string) : string :=
  match s with
  | "" => ""
  | String b r =>
    match skip with
    | S k => String b (replaceInvalid k r)
    | O =>
      let (c, size) := utf8.DecodeRune s in
      if (c =? utf8.RuneError) && (size =? 1)%nat
      then utf8.EncodeRune utf8.RuneError ++ replaceInvalid 0 r
      else String b (replaceInvalid (size - 1) r)
    end
  end.

Definition toValidUTF8 (s : string) : string := replaceInvalid 0 s.

(** *** Replies of a backend *)

(** [EmailRes] as the encoder's reflection walks it, for a backend that
    writes its replies from this type. *)
Definition reflect_EmailRes (r : EmailRes) : json.Value :=
  json.VStruct
    [ (tag "success", json.VBool (Success r));
      (tag "message", json.VString (Message r)) ].

(** [n + 1] arrays, one inside the other, as a Go value and as text. *)
Fixpoint nested (n : nat) : json.Value :=
  match n with
  | O => json.VSlice (Some [])
  | S k => json.VSlice (Some [nested k])
  end.

Fixpoint arrays (n : nat) : string :=
  match n with
  | O => "[]"
  | S k => "[" ++ arrays k ++ "]"
  end.

(** A reply that reports success and carries [n + 1] nested arrays under a
    key of its own: [n + 2] containers deep. *)
Definition deepReply (n : nat) : string :=
  objectOf [ member "success" "true"; member "data" (arrays n) ].

(** *** Keys and letter case *)

(** A key in lower case and in upper case, letter by ASCII letter. *)
Definition toLowerByte (c : byte) : byte :=
  if (65 <=? b2n c) && (b2n c <=? 90) then n2b (b2n c + 32) else c.

Definition toUpperByte (c : byte) : byte :=
  if (97 <=? b2n c) && (b2n c <=? 122) then n2b (b2n c - 32) else c.

Fixpoint mapBytes (f : byte -> byte) (s : string) : string :=
  match s with
  | "" => ""
  | String c r => String (f c) (mapBytes f r)
  end.

Definition toLower : string -> string := mapBytes toLowerByte.
Definition toUpper : string -> string := mapBytes toUpperByte.

Definition isASCII (c : byte) : bool := b2n c <? utf8.RuneSelf.

(** *** Bodies the decoder accepts, and JSON texts *)

(** A body the decoder accepts: its first JSON value can be read and is
    [null] or an object whose members all fit the fields they select. *)
Definition decodable (body : string) : bool :=
  match jsondec.readValue body with
  | Ok jsondec.JNull => true
  | Ok (jsondec.JObject ms) => forallb fits ms
  | _ => false
  end.

(** [scan], with the bytes left unread after the value: a container ends
    with its closing byte, any other value is ended by the byte after it,
    which is left. *)
Fixpoint scanRest (s : jsondec.scanner) (buf : string)
  : result string (option (jsondec.JSON * string)) :=
  match buf with
  | "" =>
    match jsondec.feed s " "%char with
    | jsondec.scanEnd v => Ok (Some (v, ""))
    | _ => Ok None
    end
  | String c rest =>
    match jsondec.feed s c with
    | jsondec.scanContinue s' => scanRest s' rest
    | jsondec.scanEnd v => Ok (Some (v, if container v then rest else buf))
    | jsondec.scanError msg => Err msg
    end
  end.

(** A JSON text, as the specification's word "non-JSON" has it: one JSON
    value with nothing but white space around it. *)
Definition isJSON (body : string) : bool :=
  match scanRest jsondec.reset body with
  | Ok (Some (_, rest)) => forallb jsondec.isSpace (list_ascii_of_string rest)
  | _ => false
  end.

(** *** The request a document carries *)

(** The Go string a JSON string denotes, and the strings of an array of
    JSON strings. *)
Definition stringOf (v : jsondec.JSON) : option string :=
  match v with
  | jsondec.JString l => Some (jsondec.unquote l)
  | _ => None
  end.

Fixpoint stringsOf (vs : list jsondec.JSON) : option (list string) :=
  match vs with
  | [] => Some []
  | v :: r =>
    match stringOf v, stringsOf r with
    | Some s, Some l => Some (s :: l)
    | _, _ => None
    end
  end.

(** The recipients a JSON value carries: [null] is the nil list, an array
    of strings the list of these strings. *)
Definition sliceOf (v : jsondec.JSON) : option (slice string) :=
  match v with
  | jsondec.JNull => Some None
  | jsondec.JArray vs => option_map Some (stringsOf vs)
  | _ => None
  end.

(** The value under the key [key], when the member at hand has that key. *)
Definition under (key : string) (m : list jsondec.item * jsondec.JSON)
  : option jsondec.JSON :=
  if (jsondec.unquote (fst m) =? key)%string then Some (snd m) else None.

(** The request a reader finds in a document of the wire shape: an object
    with exactly the six keys, in order, the first holding an object with
    exactly the two keys of the credentials, and under each key a value of
    the kind of its field.  Any other value carries no request. *)
Definition requestOf (v : jsondec.JSON) : option EmailReq :=
  match v with
  | jsondec.JObject [mc; mt; ms; mb; mh; mf] =>
    match under "creds" mc, under "to_list" mt, under "subject" ms,
          under "body" mb, under "html" mh, under "from_name" mf with
    | Some (jsondec.JObject [me; mp]), Some tl, Some (jsondec.JString su),
      Some (jsondec.JString bo), Some (jsondec.JBool h), Some (jsondec.JString fn) =>
      match under "email" me, under "pwd" mp, sliceOf tl with
      | Some (jsondec.JString e), Some (jsondec.JString p), Some to =>
        Some {| Creds_ := {| Email := jsondec.unquote e; Pwd := jsondec.unquote p |};
                ToList := to;
                Subject := jsondec.unquote su;
                Body := jsondec.unquote bo;
                Html := h;
                FromName := jsondec.unquote fn |}
      | _, _, _ => None
      end
    | _, _, _, _, _, _ => None
    end
  | _ => None
  end.

(** A request with [f] applied to each of its strings. *)
Definition mapStrings (f : string -> string) (req : EmailReq) : EmailReq :=
  {| Creds_ := {| Email := f (Email (Creds_ req)); Pwd := f (Pwd (Creds_ req)) |};
     ToList := option_map (map f) (ToList req);
     Subject := f (Subject req);
     Body := f (Body req);
     Html := Html req;
     FromName := f (FromName req) |}.

(** The request a reader finds in the document [Send] posts. *)
Definition readBack (req : EmailReq) : option EmailReq :=
  match Marshal req with
  | Ok text =>
    match jsondec.readValue text with
    | Ok v => requestOf v
    | Err _ => None
    end
  | Err _ => None
  end.

(** The request of the package documentation and a client for it. *)
Definition docReq : EmailReq :=
  {| Creds_ := {| Email := "noreply@bakiverse.com"; Pwd := "your-password" |};
     ToList := Some ["user@example.com"];
     Subject := "Welcome to Bakiverse!";
     Body := "<h1>Hello world</h1><p>This is a test.</p>";
     Html := true;
     FromName := "Bakiverse Bot" |}.

Definition docClient : Client := NewClient "https://mailer.bakiverse.com".

(** ** Tactics *)

(** Masks and shifts by constants as remainders, quotients and products. *)
Ltac bits_to_arith :=
  change 0x3F with (N.ones 6); change 0x1F with (N.ones 5);
  change 0x0F with (N.ones 4); change 0x07 with (N.ones 3);
  rewrite ?N.land_ones, ?N.shiftr_div_pow2, ?N.shiftl_mul_pow2;
  change (2 ^ 3) with 8; change (2 ^ 4) with 16; change (2 ^ 5) with 32;
  change (2 ^ 6) with 64; change (2 ^ 12) with 4096; change (2 ^ 18) with 262144.

Ltac divmod := zify; Z.to_euclidean_division_equations; lia.

(** Boolean comparisons on [N] as propositions. *)
Ltac bool_to_prop :=
  repeat match goal with
         | H : (_ <? _) = true |- _ => apply N.ltb_lt in H
         | H : (_ <? _) = false |- _ => apply N.ltb_ge in H
         | H : (_ <=? _) = true |- _ => apply N.leb_le in H
         | H : (_ <=? _) = false |- _ => apply N.leb_gt in H
         | H : (_ =? _) = true |- _ => apply N.eqb_eq in H
         | H : (_ =? _) = false |- _ => apply N.eqb_neq in H
         end.

(** * Properties *)

(** ** Marshalling *)

Lemma mapM_encode_strings (l : list string) :
  mapM json.encode (map json.VString l) = Ok (map json.appendString l).
Proof.
  induction l as [|s l IH]; [reflexivity|].
  cbn [map mapM json.encode]. rewrite IH. reflexivity.
Qed.

Lemma Marshal_wireShape (req : EmailReq) : Marshal req = Ok (wireShape req).
Proof.
  destruct req as [[e p] tl su bo h fn].
  unfold Marshal, reflect_EmailReq, reflect_Creds, wireShape.
  cbn [Creds_ ToList Subject Body Html FromName Email Pwd].
  destruct tl as [l|].
  - cbn [json.encode mapM option_map fst snd tag json.omitEmpty json.name andb].
    rewrite mapM_encode_strings. destruct h; reflexivity.
  - destruct h; reflexivity.
Qed.

(** ** One run of [Send] *)

(** The outcome [Send] reads off a response body. *)
Lemma Send_run (net : Network) (c : Client) (req : EmailReq) (tr : list event)
      (jsonData : string) :
  Marshal req = Ok jsonData ->
  Send net c req tr =
  match net tr (postCall c jsonData) with
  | Err msg => (Some (PostErr msg), (tr ++ [evPost (postCall c jsonData)])%list)
  | Ok res =>
    (match jsondec.Decode (http.Body res) zeroRes with
     | Err _ => Some (errors.New "email sent but failed to decode response")
     | Ok resp =>
       if Success resp then None
       else Some (errors.New ("failed to send email: " ++ Message resp))
     end,
     ((tr ++ [evPost (postCall c jsonData)]) ++ [evClose])%list)
  end.
Proof.
  intros HM. unfold Send. rewrite HM.
  unfold bind, Post, defer, bind, Close, ret, postCall, zeroRes.
  destruct (net tr _) as [res|msg]; [|reflexivity].
  destruct (jsondec.Decode _ _) as [resp|e]; [|reflexivity].
  destruct (Success resp); reflexivity.
Qed.

Lemma posts_app (a b : list event) : posts (a ++ b) = (posts a ++ posts b)%list.
Proof.
  induction a as [|[call|] a IH]; cbn [posts app]; [reflexivity| |exact IH].
  rewrite IH. reflexivity.
Qed.

(** ** What [Send] returns and does *)

(** C1. The outcome of [Send] depends on the body of the response and not
    on its status code: two runs whose responses carry the same body and
    any two status codes return the same value. *)
Theorem Send_ignores_status_code
        (net1 net2 : Network) (c : Client) (req : EmailReq) (tr1 tr2 : list event)
        (jsonData : string) (status1 status2 : Z) (body : string) :
  Marshal req = Ok jsonData ->
  net1 tr1 (postCall c jsonData) = Ok (http.mkResponse status1 body) ->
  net2 tr2 (postCall c jsonData) = Ok (http.mkResponse status2 body) ->
  fst (Send net1 c req tr1) = fst (Send net2 c req tr2).
Proof.
  intros HM H1 H2.
  rewrite (Send_run net1 c req tr1 jsonData HM), H1.
  rewrite (Send_run net2 c req tr2 jsonData HM), H2.
  reflexivity.
Qed.

(** The body [{"success": true}] under status 500 is a success, as it is
    under status 200. *)
Lemma Send_ignores_status_code_witness :
  fst (Send (replies (http.mkResponse 500 (js "{'success': true}"))) docClient docReq [])
  = fst (Send (replies (http.mkResponse 200 (js "{'success': true}"))) docClient docReq [])
  /\ fst (Send (replies (http.mkResponse 500 (js "{'success': true}"))) docClient docReq [])
     = None.
Proof.
  split.
  - apply (Send_ignores_status_code _ _ docClient docReq [] [] (wireShape docReq)
             500%Z 200%Z (js "{'success': true}")); reflexivity.
  - reflexivity.
Defined.

(** C2. When the body decodes to an [EmailRes] whose [Success] is false,
    [Send] returns an error whose message is ["failed to send email: "]
    followed by the decoded [Message]. *)
Theorem Send_backend_rejection
        (net : Network) (c : Client) (req : EmailReq) (tr : list event)
        (jsonData : string) (res : http.Response) (resp : EmailRes) :
  Marshal req = Ok jsonData ->
  net tr (postCall c jsonData) = Ok res ->
  jsondec.Decode (http.Body res) zeroRes = Ok resp ->
  Success resp = false ->
  exists err : error,
    fst (Send net c req tr) = Some err
    /\ Error err = "failed to send email: " ++ Message resp.
Proof.
  intros HM Hnet HD HS.
  rewrite (Send_run net c req tr jsonData HM), Hnet, HD, HS.
  eexists. split; reflexivity.
Qed.

(** The mock backend of the specification: the message is
    ["invalid recipient"]. *)
Lemma Send_backend_rejection_witness :
  exists err : error,
    fst (Send (replies (http.mkResponse 200
                          (js "{'success': false, 'message': 'invalid recipient'}")))
           docClient docReq [])
    = Some err
    /\ Error err = "failed to send email: invalid recipient".
Proof.
  apply (Send_backend_rejection _ docClient docReq [] (wireShape docReq)
           (http.mkResponse 200 (js "{'success': false, 'message': 'invalid recipient'}"))
           (mkEmailRes false "invalid recipient")); reflexivity.
Defined.

(** The empty body ends before any value begins. *)
Lemma Decode_empty (resp : EmailRes) : jsondec.Decode "" resp = Err jsondec.EOF.
Proof. reflexivity. Qed.

(** A body whose first byte after white space begins no JSON value is a
    syntax error. *)
Lemma scan_beginsNoValue (body : string) :
  beginsNoValue body = true -> exists msg, jsondec.scan jsondec.reset body = Err msg.
Proof.
  induction body as [|c rest IH]; cbn [beginsNoValue]; [discriminate|].
  intros H. cbn [jsondec.scan].
  cbv [jsondec.feed jsondec.reset jsondec.step jsondec.parseState].
  destruct (jsondec.isSpace c).
  - exact (IH H).
  - destruct (jsondec.beginValue [] c) as [s'|v|msg]; try discriminate.
    exists msg. reflexivity.
Qed.

Lemma Decode_beginsNoValue (body : string) (resp : EmailRes) :
  beginsNoValue body = true -> exists e, jsondec.Decode body resp = Err e.
Proof.
  intros H. destruct (scan_beginsNoValue body H) as [msg Hs].
  unfold jsondec.Decode, jsondec.readValue. rewrite Hs. eauto.
Qed.

(** C4. When the body decodes to an [EmailRes] whose [Success] is true,
    [Send] returns the nil error, whatever the [Message]. *)
Theorem Send_success
        (net : Network) (c : Client) (req : EmailReq) (tr : list event)
        (jsonData : string) (res : http.Response) (resp : EmailRes) :
  Marshal req = Ok jsonData ->
  net tr (postCall c jsonData) = Ok res ->
  jsondec.Decode (http.Body res) zeroRes = Ok resp ->
  Success resp = true ->
  fst (Send net c req tr) = None.
Proof.
  intros HM Hnet HD HS.
  rewrite (Send_run net c req tr jsonData HM), Hnet, HD, HS.
  reflexivity.
Qed.

(** The mock backend of the specification: success with an empty message
    under status 200. *)
Lemma Send_success_witness :
  fst (Send (replies (http.mkResponse 200 (js "{'success': true, 'message': ''}")))
         docClient docReq [])
  = None.
Proof.
  apply (Send_success _ docClient docReq [] (wireShape docReq)
           (http.mkResponse 200 (js "{'success': true, 'message': ''}"))
           (mkEmailRes true "")); reflexivity.
Defined.

Lemma classify_rejection (m : string) :
  classify (Some (errors.New ("failed to send email: " ++ m))) = Some BackendRejectionError.
Proof. destruct m; reflexivity. Qed.

(** C5. One call of [Send] has exactly one of the five outcomes, read off
    the value it returns: no error when the response decoded with
    [Success] true, and otherwise the error of the step that failed -
    marshalling, the call of [Post], decoding the body, or the backend's
    refusal.  The value of one outcome is never the value of another. *)
Theorem Send_exactly_one_outcome
        (net : Network) (c : Client) (req : EmailReq) (tr : list event) :
  exists k : outcome,
    classify (fst (Send net c req tr)) = Some k
    /\ (forall k', classify (fst (Send net c req tr)) = Some k' -> k' = k)
    /\ (forall net' c' req' tr' k',
           classify (fst (Send net' c' req' tr')) = Some k' ->
           k' <> k ->
           fst (Send net' c' req' tr') <> fst (Send net c req tr))
    /\ match k with
       | SerializationError =>
         exists e, Marshal req = Err e /\ fst (Send net c req tr) = Some (MarshalErr e)
       | TransportError =>
         exists jsonData msg,
           Marshal req = Ok jsonData
           /\ net tr (postCall c jsonData) = Err msg
           /\ fst (Send net c req tr) = Some (PostErr msg)
       | ResponseDecodeError =>
         exists jsonData res e,
           Marshal req = Ok jsonData
           /\ net tr (postCall c jsonData) = Ok res
           /\ jsondec.Decode (http.Body res) zeroRes = Err e
           /\ fst (Send net c req tr)
              = Some (errors.New "email sent but failed to decode response")
       | BackendRejectionError =>
         exists jsonData res resp,
           Marshal req = Ok jsonData
           /\ net tr (postCall c jsonData) = Ok res
           /\ jsondec.Decode (http.Body res) zeroRes = Ok resp
           /\ Success resp = false
           /\ fst (Send net c req tr)
              = Some (errors.New ("failed to send email: " ++ Message resp))
       | Delivered =>
         exists jsonData res resp,
           Marshal req = Ok jsonData
           /\ net tr (postCall c jsonData) = Ok res
           /\ jsondec.Decode (http.Body res) zeroRes = Ok resp
           /\ Success resp = true
           /\ fst (Send net c req tr) = None
       end.
Proof.
  assert (Hdistinct : forall (r : option error) (k : outcome),
             classify r = Some k ->
             (forall k', classify r = Some k' -> k' = k)
             /\ (forall net' c' req' tr' k',
                    classify (fst (Send net' c' req' tr')) = Some k' ->
                    k' <> k -> fst (Send net' c' req' tr') <> r)).
  { intros r k Hk. split.
    - intros k' Hk'. congruence.
    - intros net' c' req' tr' k' Hk' Hne Heq. rewrite Heq in Hk'. congruence. }
  destruct (Marshal req) as [jsonData|e] eqn:HM.
  - pose proof (Send_run net c req tr jsonData HM) as Hrun.
    destruct (net tr (postCall c jsonData)) as [res|msg] eqn:Hnet.
    + destruct (jsondec.Decode (http.Body res) zeroRes) as [resp|e] eqn:HD.
      * destruct (Success resp) eqn:HS.
        -- exists Delivered. rewrite Hrun. cbn [fst].
           split; [reflexivity|].
           destruct (Hdistinct None Delivered eq_refl) as [H1 H2].
           split; [exact H1|]. split; [exact H2|].
           exists jsonData, res, resp. repeat split; assumption.
        -- exists BackendRejectionError. rewrite Hrun. cbn [fst].
           split; [apply classify_rejection|].
           destruct (Hdistinct _ BackendRejectionError
                       (classify_rejection (Message resp))) as [H1 H2].
           split; [exact H1|]. split; [exact H2|].
           exists jsonData, res, resp. repeat split; assumption.
      * exists ResponseDecodeError. rewrite Hrun. cbn [fst].
        split; [reflexivity|].
        destruct (Hdistinct (Some (errors.New "email sent but failed to decode response"))
                    ResponseDecodeError eq_refl) as [H1 H2].
        split; [exact H1|]. split; [exact H2|].
        exists jsonData, res, e. repeat split; assumption.
    + exists TransportError. rewrite Hrun. cbn [fst].
      split; [reflexivity|].
      destruct (Hdistinct (Some (PostErr msg)) TransportError eq_refl) as [H1 H2].
      split; [exact H1|]. split; [exact H2|].
      exists jsonData, msg. repeat split; assumption.
  - exists SerializationError.
    assert (Hrun : fst (Send net c req tr) = Some (MarshalErr e)).
    { unfold Send. rewrite HM. reflexivity. }
    rewrite Hrun.
    split; [reflexivity|].
    destruct (Hdistinct (Some (MarshalErr e)) SerializationError eq_refl) as [H1 H2].
    split; [exact H1|]. split; [exact H2|].
    exists e. split; reflexivity.
Qed.

(** C6. For a request that marshals to [jsonData], [Send] calls [Post]
    exactly once - there is no second attempt - with the base URL followed
    by ["/send"], the content type ["application/json"] and [jsonData] as
    the body. *)
Theorem Send_posts_once
        (net : Network) (c : Client) (req : EmailReq) (tr : list event)
        (jsonData : string) :
  Marshal req = Ok jsonData ->
  posts (snd (Send net c req tr))
  = (posts tr ++ [ {| http.via := Client_ c;
                      http.url := BaseURL c ++ "/send";
                      http.contentType := "application/json";
                      http.body := jsonData |} ])%list.
Proof.
  intros HM. rewrite (Send_run net c req tr jsonData HM).
  destruct (net tr (postCall c jsonData)) as [res|msg]; cbn [snd].
  - rewrite !posts_app. cbn [posts]. rewrite app_nil_r. reflexivity.
  - rewrite posts_app. reflexivity.
Qed.

(** On a network that cannot be reached, the request of the package
    documentation is still posted once, to the documented address. *)
Lemma Send_posts_once_witness :
  posts (snd (Send (unreachable "dial tcp: connection refused") docClient docReq []))
  = [ {| http.via := Client_ docClient;
         http.url := "https://mailer.bakiverse.com/send";
         http.contentType := "application/json";
         http.body := wireShape docReq |} ].
Proof.
  apply (Send_posts_once (unreachable "dial tcp: connection refused")
           docClient docReq [] (wireShape docReq)).
  reflexivity.
Defined.

(** C8. [NewClient] is defined on every string: the client it returns has
    that string, unchanged, as its base URL, and an HTTP client whose
    timeout is ten seconds, that is 10,000,000,000 nanoseconds, a value
    within [int64].  The empty string is accepted like any other. *)
Theorem NewClient_spec (baseURL : string) :
  BaseURL (NewClient baseURL) = baseURL
  /\ http.Timeout (Client_ (NewClient baseURL)) = (10 * time.Second)%Z
  /\ http.Timeout (Client_ (NewClient baseURL)) = 10000000000%Z
  /\ (- 2 ^ 63 <= http.Timeout (Client_ (NewClient baseURL)) < 2 ^ 63)%Z
  /\ NewClient "" = {| BaseURL := ""; Client_ := {| http.Timeout := 10000000000%Z |} |}.
Proof.
  unfold NewClient. cbn [BaseURL Client_ http.Timeout].
  change (10 * time.Second)%Z with 10000000000%Z.
  repeat split; lia.
Qed.

(** ** Marshalling never fails *)

Lemma mapM_all_ok {E A B} (f : A -> result E B) (l : list A) :
  Forall (fun x => exists y, f x = Ok y) l -> exists ys, mapM f l = Ok ys.
Proof.
  induction 1 as [|x l [y Hy] _ [ys Hys]]; cbn [mapM].
  - eexists. reflexivity.
  - rewrite Hy, Hys. eexists. reflexivity.
Qed.

(** A value without channels and functions is encoded without error. *)
Lemma encode_supported (v : json.Value) :
  json.supported v = true -> exists s, json.encode v = Ok s.
Proof.
  induction v as [b|s| |l IH|fs IH| |] using json.Value_nested_ind;
    cbn [json.supported json.encode]; intros Hs; try discriminate;
    try (eexists; reflexivity).
  - assert (H : exists ys, mapM json.encode l = Ok ys).
    { apply mapM_all_ok. rewrite forallb_forall in Hs.
      rewrite Forall_forall in IH |- *. intros x Hx. apply IH; auto. }
    destruct H as [ys Hys]. rewrite Hys. eexists. reflexivity.
  - match goal with
    | |- exists s, match mapM ?f fs with _ => _ end = _ =>
      assert (H : exists ys, mapM f fs = Ok ys)
    end.
    { apply mapM_all_ok. rewrite forallb_forall in Hs.
      rewrite Forall_forall in IH |- *. intros fv Hfv.
      destruct (json.omitEmpty (fst fv) && json.isEmptyValue (snd fv)).
      - eexists. reflexivity.
      - destruct (IH fv Hfv (Hs fv Hfv)) as [s Hs']. rewrite Hs'.
        eexists. reflexivity. }
    destruct H as [ys Hys]. rewrite Hys. eexists. reflexivity.
Qed.

(** Every [EmailReq] reflects to strings, a bool, a slice of strings and
    structs of these. *)
Lemma reflect_EmailReq_supported (req : EmailReq) :
  json.supported (reflect_EmailReq req) = true.
Proof.
  unfold reflect_EmailReq, reflect_Creds. cbn [json.supported forallb snd].
  destruct (ToList req) as [l|]; cbn [option_map json.supported]; [|reflexivity].
  rewrite !andb_true_r.
  induction l as [|s l IH]; [reflexivity|exact IH].
Qed.

(** C9. Marshalling an [EmailReq] always succeeds - its fields are
    strings, a bool and a slice of strings, which the encoder supports -
    so [Send] never returns the error of [json.Marshal]. *)
Theorem Marshal_never_fails (req : EmailReq) :
  json.supported (reflect_EmailReq req) = true
  /\ (exists jsonData, Marshal req = Ok jsonData)
  /\ (forall net c tr e, fst (Send net c req tr) <> Some (MarshalErr e)).
Proof.
  pose proof (reflect_EmailReq_supported req) as Hsup.
  destruct (encode_supported _ Hsup) as [jsonData HM].
  split; [exact Hsup|]. split; [exists jsonData; exact HM|].
  intros net c tr e. rewrite (Send_run net c req tr jsonData HM).
  destruct (net tr (postCall c jsonData)) as [res|msg]; cbn [fst]; [|discriminate].
  destruct (jsondec.Decode (http.Body res) zeroRes) as [resp|e']; [|discriminate].
  destruct (Success resp); discriminate.
Qed.

(** ** Objects without a success member *)

(** Storing members of which none selects [Success] and every one that
    selects [Message] holds a string or [null]: [Success] stays as it was,
    [Message] becomes the last such string, and no error is saved. *)
Lemma object_without_success
      (ms : list (list jsondec.item * jsondec.JSON)) (d : jsondec.decodeState) :
  existsb namesSuccess ms = false ->
  forallb messageFits ms = true ->
  jsondec.savedError d = None ->
  jsondec.object ms d
  = jsondec.mkDecodeState
      (mkEmailRes (Success (jsondec.target d))
         (fold_left pickMessage ms (Message (jsondec.target d))))
      None.
Proof.
  unfold jsondec.object.
  revert d. induction ms as [|[k v] ms IH]; intros d Hno Hfit Herr.
  - destruct d as [[su me] se]. cbn in *. subst se. reflexivity.
  - cbn [existsb forallb] in Hno, Hfit.
    apply orb_false_iff in Hno. destruct Hno as [Hk Hno].
    apply andb_true_iff in Hfit. destruct Hfit as [Hv Hfit].
    cbn [fold_left]. unfold namesSuccess in Hk. unfold messageFits in Hv.
    unfold jsondec.storeMember at 2. unfold pickMessage at 2.
    cbn [fst snd] in *.
    destruct (jsondec.findField (jsondec.unquote k)) as [[|]|].
    + discriminate.
    + destruct v; try discriminate; rewrite IH; auto.
    + destruct v; rewrite IH; auto.
Qed.

(** C10, as the code has it.  When the first JSON value of the body is an
    object in which no key selects the [Success] field - neither exactly
    nor up to case folding - and every key that selects the [Message]
    field holds a string or [null], decoding succeeds with [Success]
    false, and [Send] returns the error ["failed to send email: "] followed
    by the decoded message, which is empty when the object has none. *)
Theorem Send_object_without_success
        (net : Network) (c : Client) (req : EmailReq) (tr : list event)
        (jsonData : string) (res : http.Response)
        (ms : list (list jsondec.item * jsondec.JSON)) :
  Marshal req = Ok jsonData ->
  net tr (postCall c jsonData) = Ok res ->
  jsondec.readValue (http.Body res) = Ok (jsondec.JObject ms) ->
  existsb namesSuccess ms = false ->
  forallb messageFits ms = true ->
  jsondec.Decode (http.Body res) zeroRes = Ok (mkEmailRes false (messageOf ms))
  /\ exists err : error,
      fst (Send net c req tr) = Some err
      /\ Error err = "failed to send email: " ++ messageOf ms.
Proof.
  intros HM Hnet Hread Hno Hfit.
  assert (HD : jsondec.Decode (http.Body res) zeroRes
               = Ok (mkEmailRes false (messageOf ms))).
  { unfold jsondec.Decode. rewrite Hread. unfold jsondec.unmarshal.
    rewrite (object_without_success ms (jsondec.mkDecodeState zeroRes None) Hno Hfit eq_refl).
    reflexivity. }
  split; [exact HD|].
  rewrite (Send_run net c req tr jsonData HM), Hnet, HD.
  eexists. split; reflexivity.
Qed.

(** The empty object: the error is the prefix alone. *)
Lemma Send_object_without_success_witness :
  jsondec.Decode "{}" zeroRes = Ok (mkEmailRes false "")
  /\ exists err : error,
      fst (Send (replies (http.mkResponse 200 "{}")) docClient docReq []) = Some err
      /\ Error err = "failed to send email: ".
Proof.
  apply (Send_object_without_success (replies (http.mkResponse 200 "{}"))
           docClient docReq [] (wireShape docReq) (http.mkResponse 200 "{}") []);
    reflexivity.
Defined.

(** C10, as stated, fails on two bodies.  [{"message": 5}] is a JSON object
    without a ["success"] key; storing the number into the string field is
    a type error, so [Send] reports the failure to decode and not a
    rejection.  [{"SUCCESS": true}] has no ["success"] key either; its
    key selects the field by case folding, and [Send] returns no error. *)
Lemma Send_object_without_success_counterexample :
  jsondec.readValue (js "{'message': 5}")
  = Ok (jsondec.JObject [(lits "message", jsondec.JNumber "5")])
  /\ jsondec.Decode (js "{'message': 5}") zeroRes
     = Err (jsondec.UnmarshalTypeError "number" "message")
  /\ fst (Send (replies (http.mkResponse 200 (js "{'message': 5}"))) docClient docReq [])
     = Some (errors.New "email sent but failed to decode response")
  /\ classify
       (fst (Send (replies (http.mkResponse 200 (js "{'message': 5}"))) docClient docReq []))
     = Some ResponseDecodeError
  /\ jsondec.readValue (js "{'SUCCESS': true}")
     = Ok (jsondec.JObject [(lits "SUCCESS", jsondec.JBool true)])
  /\ jsondec.Decode (js "{'SUCCESS': true}") zeroRes = Ok (mkEmailRes true "")
  /\ fst (Send (replies (http.mkResponse 200 (js "{'SUCCESS': true}"))) docClient docReq [])
     = None.
Proof. repeat split. Qed.

(** ** Reading back what the encoder wrote *)

Lemma append_assoc (a b c : string) : (a ++ b) ++ c = a ++ (b ++ c).
Proof. induction a as [|x a IH]; cbn [append]; [reflexivity|rewrite IH; reflexivity]. Qed.

Lemma b2n_inj (c d : byte) : b2n c = b2n d -> c = d.
Proof.
  unfold b2n. intros H.
  rewrite <- (ascii_N_embedding c), <- (ascii_N_embedding d), H. reflexivity.
Qed.

Lemma ascii_eqb_b2n (c d : byte) : (c =? d)%char = (b2n c =? b2n d).
Proof.
  destruct (Ascii.eqb_spec c d) as [->|Hne].
  - symmetry. apply N.eqb_refl.
  - symmetry. apply N.eqb_neq. intros H. apply Hne, b2n_inj, H.
Qed.

(** A byte that is no quote, no backslash and no control character is
    taken into the literal as it stands. *)
Lemma feed_lit (acc : list jsondec.item) (ps : list jsondec.parse) (c : byte) :
  0x20 <= b2n c -> b2n c <> 34 -> b2n c <> 92 ->
  jsondec.feed (jsondec.mkScanner (jsondec.stateInString acc) ps) c
  = jsondec.scanContinue
      (jsondec.mkScanner (jsondec.stateInString (acc ++ [jsondec.Lit c])) ps).
Proof.
  intros H1 H2 H3. unfold jsondec.feed. cbn [jsondec.step jsondec.parseState].
  rewrite !ascii_eqb_b2n.
  change (b2n dquote) with 34. change (b2n bslash) with 92.
  destruct (N.eqb_spec (b2n c) 34); [contradiction|].
  destruct (N.eqb_spec (b2n c) 92); [contradiction|].
  destruct (N.ltb_spec (b2n c) 0x20); [lia|]. reflexivity.
Qed.

Lemma scan_ascii_byte (b : byte) (acc : list jsondec.item) (ps : list jsondec.parse)
      (rest : string) :
  (b2n b <? utf8.RuneSelf) = true ->
  jsondec.scan (jsondec.mkScanner (jsondec.stateInString acc) ps)
    ((if json.htmlSafeSet (b2n b) then String b "" else json.escapeByte (b2n b)) ++ rest)
  = jsondec.scan
      (jsondec.mkScanner
         (jsondec.stateInString
            (acc ++ [if json.htmlSafeSet (b2n b) then jsondec.Lit b else escapeItem (b2n b)]))
         ps)
      rest.
Proof.
  destruct b as [[] [] [] [] [] [] [] []]; intros H; try discriminate H; reflexivity.
Qed.

Lemma first_spec (p0 : N) (sz : nat) (lo hi : N) :
  utf8.first p0 = Some (sz, lo, hi) ->
  (sz = 2 \/ sz = 3 \/ sz = 4)%nat /\ utf8.RuneSelf <= lo.
Proof.
  unfold utf8.first, utf8.RuneSelf.
  repeat match goal with
         | |- context [if ?x then _ else _] => destruct x
         end;
    intros H; inversion H; subst; split; auto; lia.
Qed.

(** The bytes after the first of a rune that [DecodeRune] accepts are above
    U+007F. *)
Lemma DecodeRune_high (b : byte) (r : string) (c : N) (size : nat) :
  (b2n b <? utf8.RuneSelf) = false ->
  utf8.DecodeRune (String b r) = (c, size) ->
  ((c =? utf8.RuneError) && (size =? 1)%nat) = false ->
  highPrefix (size - 1) r = true.
Proof.
  intros Hb HD Hvalid.
  assert (Hbad : (utf8.RuneError, 1%nat) = (c, size) -> highPrefix (size - 1) r = true).
  { intros H. inversion H; subst. discriminate Hvalid. }
  unfold utf8.DecodeRune, utf8.at_ in HD. cbn [String.get option_map] in HD.
  rewrite Hb in HD.
  destruct (utf8.first (b2n b)) as [[[sz lo] hi]|] eqn:Hf; [|auto].
  destruct (first_spec _ _ _ _ Hf) as [Hsz Hlo].
  destruct (String.length (String b r) <? sz)%nat; [auto|].
  destruct r as [|b1 r1]; cbn [String.get option_map] in HD; [auto|].
  destruct ((b2n b1 <? lo) || (hi <? b2n b1)) eqn:Hb1; [auto|].
  apply orb_false_iff in Hb1. destruct Hb1 as [Hb1 _]. apply N.ltb_ge in Hb1.
  assert (H1 : (utf8.RuneSelf <=? b2n b1) = true) by (apply N.leb_le; lia).
  destruct (sz <=? 2)%nat.
  { inversion HD; subst. cbn [Nat.sub highPrefix]. rewrite H1. reflexivity. }
  destruct r1 as [|b2 r2]; cbn [String.get option_map] in HD; [auto|].
  destruct (utf8.cont (b2n b2)) eqn:Hb2; cbn [negb] in HD; [|auto].
  assert (H2 : (utf8.RuneSelf <=? b2n b2) = true).
  { unfold utf8.cont in Hb2. apply andb_true_iff in Hb2. apply Hb2. }
  destruct (sz <=? 3)%nat.
  { inversion HD; subst. cbn [Nat.sub highPrefix]. rewrite H1, H2. reflexivity. }
  destruct r2 as [|b3 r3]; cbn [String.get option_map] in HD; [auto|].
  destruct (utf8.cont (b2n b3)) eqn:Hb3; cbn [negb] in HD; [|auto].
  assert (H3 : (utf8.RuneSelf <=? b2n b3) = true).
  { unfold utf8.cont in Hb3. apply andb_true_iff in Hb3. apply Hb3. }
  inversion HD; subst. cbn [Nat.sub highPrefix]. rewrite H1, H2, H3. reflexivity.
Qed.

Lemma scan_cons (s : jsondec.scanner) (c : byte) (rest : string) :
  jsondec.scan s (String c rest)
  = match jsondec.feed s c with
    | jsondec.scanContinue s' => jsondec.scan s' rest
    | jsondec.scanEnd v => Ok (Some v)
    | jsondec.scanError msg => Err msg
    end.
Proof. reflexivity. Qed.

(** The scanner reads the body of a literal that [appendBody] wrote, up to
    the closing quote. *)
Lemma scan_appendBody (src : string) :
  forall (skip : nat) (keep : bool) (acc : list jsondec.item) (ps : list jsondec.parse)
         (rest : string),
    (keep = true -> highPrefix skip src = true) ->
    jsondec.scan (jsondec.mkScanner (jsondec.stateInString acc) ps)
      (json.appendBody skip keep src ++ String dquote rest)
    = jsondec.scan
        (jsondec.mkScanner
           (jsondec.stateEndValue (jsondec.JString (acc ++ itemsOf skip keep src))) ps)
        rest.
Proof.
  induction src as [|b src IH]; intros skip keep acc ps rest Hhigh.
  - cbn [json.appendBody itemsOf append]. rewrite app_nil_r. reflexivity.
  - cbn [json.appendBody itemsOf]. destruct skip as [|k].
    + destruct (b2n b <? utf8.RuneSelf) eqn:Hb.
      * replace (if json.htmlSafeSet (b2n b)
                 then String b (json.appendBody 0 true src)
                 else json.escapeByte (b2n b) ++ json.appendBody 0 true src)
          with ((if json.htmlSafeSet (b2n b) then String b "" else json.escapeByte (b2n b))
                  ++ json.appendBody 0 true src)
          by (destruct (json.htmlSafeSet (b2n b)); reflexivity).
        rewrite append_assoc, (scan_ascii_byte b acc ps _ Hb).
        rewrite IH by reflexivity. rewrite <- app_assoc. reflexivity.
      * destruct (utf8.DecodeRune (String b src)) as [c size] eqn:HD.
        destruct ((c =? utf8.RuneError) && (size =? 1)%nat) eqn:Hinvalid.
        -- rewrite append_assoc.
           transitivity
             (jsondec.scan
                (jsondec.mkScanner
                   (jsondec.stateInString (acc ++ [jsondec.EscU 0xFFFD])) ps)
                (json.appendBody 0 true src ++ String dquote rest)); [reflexivity|].
           rewrite IH by reflexivity. rewrite <- app_assoc. reflexivity.
        -- destruct ((c =? 0x2028) || (c =? 0x2029)) eqn:Hsep.
           ++ rewrite append_assoc.
              transitivity
                (jsondec.scan
                   (jsondec.mkScanner (jsondec.stateInString (acc ++ [jsondec.EscU c])) ps)
                   (json.appendBody (size - 1) false src ++ String dquote rest)).
              { apply orb_true_iff in Hsep.
                destruct Hsep as [Hc|Hc]; apply N.eqb_eq in Hc; subst c; reflexivity. }
              rewrite IH by discriminate. rewrite <- app_assoc. reflexivity.
           ++ cbn [append]. rewrite scan_cons, feed_lit.
              ** rewrite IH.
                 { rewrite <- app_assoc. reflexivity. }
                 intros _. exact (DecodeRune_high b src c size Hb HD Hinvalid).
              ** apply N.ltb_ge in Hb. unfold utf8.RuneSelf in Hb. lia.
              ** apply N.ltb_ge in Hb. unfold utf8.RuneSelf in Hb. lia.
              ** apply N.ltb_ge in Hb. unfold utf8.RuneSelf in Hb. lia.
    + destruct keep.
      * pose proof (Hhigh eq_refl) as Hh. cbn [highPrefix] in Hh.
        apply andb_true_iff in Hh. destruct Hh as [Hb Hh].
        apply N.leb_le in Hb. unfold utf8.RuneSelf in Hb.
        cbn [append]. rewrite scan_cons, feed_lit by lia.
        rewrite IH by (intros _; exact Hh). rewrite <- app_assoc. reflexivity.
      * apply IH. discriminate.
Qed.

Lemma scan_endValue_top (v : jsondec.JSON) (rest : string) :
  jsondec.scan (jsondec.mkScanner (jsondec.stateEndValue v) []) rest = Ok (Some v).
Proof. destruct rest; reflexivity. Qed.

Lemma scan_endValue (v : jsondec.JSON) (ps : list jsondec.parse) (rest : string) :
  jsondec.scan (jsondec.mkScanner (jsondec.stateEndValue v) ps) rest = afterValue v ps rest.
Proof. destruct ps; [apply scan_endValue_top|reflexivity]. Qed.

(** A string literal written by [appendString] is read as its items. *)
Lemma scan_appendString (s : string) (ps : list jsondec.parse) (rest : string) :
  jsondec.scan (jsondec.mkScanner jsondec.stateBeginValue ps) (json.appendString s ++ rest)
  = afterValue (literalOf s) ps rest.
Proof.
  unfold json.appendString, quoted. cbn [append]. rewrite scan_cons.
  change (jsondec.feed (jsondec.mkScanner jsondec.stateBeginValue ps) dquote)
    with (jsondec.scanContinue (jsondec.mkScanner (jsondec.stateInString []) ps)).
  cbv iota. rewrite append_assoc. cbn [append].
  rewrite scan_appendBody by reflexivity. apply scan_endValue.
Qed.

Lemma htmlSafeSet_lit (n : N) :
  json.htmlSafeSet n = true -> 0x20 <= n /\ n <> 34 /\ n <> 92.
Proof.
  unfold json.htmlSafeSet. intros H.
  apply andb_true_iff in H. destruct H as [H Hno].
  apply andb_true_iff in H. destruct H as [Hlo _].
  apply N.leb_le in Hlo. apply negb_true_iff in Hno.
  repeat (apply orb_false_iff in Hno; destruct Hno as [Hno ?]).
  repeat match goal with H : (_ =? _) = false |- _ => apply N.eqb_neq in H end.
  auto.
Qed.

(** A plain name is read as its bytes. *)
Lemma scan_plainName (k : string) :
  forall (acc : list jsondec.item) (ps : list jsondec.parse) (rest : string),
    plainName k = true ->
    jsondec.scan (jsondec.mkScanner (jsondec.stateInString acc) ps) (k ++ String dquote rest)
    = jsondec.scan
        (jsondec.mkScanner (jsondec.stateEndValue (jsondec.JString (acc ++ lits k))) ps)
        rest.
Proof.
  induction k as [|c k IH]; intros acc ps rest Hk.
  - cbn [append lits list_ascii_of_string map]. rewrite app_nil_r. reflexivity.
  - cbn [plainName] in Hk. apply andb_true_iff in Hk. destruct Hk as [Hc Hk].
    destruct (htmlSafeSet_lit _ Hc) as [H1 [H2 H3]].
    cbn [append]. rewrite scan_cons, feed_lit by assumption.
    rewrite IH by assumption.
    unfold lits. cbn [list_ascii_of_string map]. rewrite <- app_assoc. reflexivity.
Qed.

(** The key of a member, from the state after an opening brace or after a
    comma. *)
Lemma scan_key (orEmpty : bool) (f : json.field) (done : list (list jsondec.item * jsondec.JSON))
      (ps : list jsondec.parse) (rest : string) :
  plainName (json.name f) = true ->
  jsondec.scan
    (jsondec.mkScanner
       (if orEmpty then jsondec.stateBeginStringOrEmpty else jsondec.stateBeginString)
       (jsondec.parseObjectKey done :: ps))
    (json.nameEscHTML f ++ rest)
  = jsondec.scan
      (jsondec.mkScanner jsondec.stateBeginValue
         (jsondec.parseObjectValue done (lits (json.name f)) :: ps))
      rest.
Proof.
  intros Hk. unfold json.nameEscHTML, quoted. cbn [append]. rewrite scan_cons.
  assert (Hq : jsondec.feed
                 (jsondec.mkScanner
                    (if orEmpty then jsondec.stateBeginStringOrEmpty
                     else jsondec.stateBeginString)
                    (jsondec.parseObjectKey done :: ps)) dquote
               = jsondec.scanContinue
                   (jsondec.mkScanner (jsondec.stateInString [])
                      (jsondec.parseObjectKey done :: ps))).
  { destruct orEmpty; reflexivity. }
  rewrite Hq. rewrite !append_assoc. cbn [append].
  rewrite scan_plainName by assumption. reflexivity.
Qed.

(** The text of a value begins with a byte that is no white space and no
    closing bracket. *)
Lemma encode_head (v : json.Value) (text : string) :
  json.encode v = Ok text ->
  exists c t, text = String c t
              /\ jsondec.isSpace c = false /\ (c =? "]")%char = false.
Proof.
  destruct v as [[|]|s|[l|]|fs| |]; cbn [json.encode]; intros H;
    try discriminate H;
    try (inversion H; subst; do 2 eexists; repeat split; reflexivity).
  - destruct (mapM json.encode l); inversion H; subst.
    do 2 eexists. repeat split; reflexivity.
  - match type of H with
    | match ?m with _ => _ end = _ => destruct m
    end; inversion H; subst.
    do 2 eexists. repeat split; reflexivity.
Qed.

Lemma scan_orEmpty (ps : list jsondec.parse) (c : byte) (t : string) :
  jsondec.isSpace c = false -> (c =? "]")%char = false ->
  jsondec.scan (jsondec.mkScanner jsondec.stateBeginValueOrEmpty ps) (String c t)
  = jsondec.scan (jsondec.mkScanner jsondec.stateBeginValue ps) (String c t).
Proof.
  intros Hs Hc. rewrite !scan_cons. unfold jsondec.feed.
  cbn [jsondec.step jsondec.parseState]. rewrite Hs, Hc. reflexivity.
Qed.

Lemma append_nil_r (s : string) : s ++ "" = s.
Proof. induction s as [|c s IH]; cbn [append]; [reflexivity|rewrite IH; reflexivity]. Qed.

Lemma join_tails (sep x : string) (l : list string) :
  join sep (x :: l) = x ++ tails sep l.
Proof.
  revert x. induction l as [|y l IH]; intros x.
  - cbn [join tails fold_right]. symmetry. apply append_nil_r.
  - change (join sep (x :: y :: l)) with (x ++ sep ++ join sep (y :: l)).
    rewrite IH. reflexivity.
Qed.

Lemma mapM_cons_ok {E A B} (f : A -> result E B) (x : A) (l : list A) (ys : list B) :
  mapM f (x :: l) = Ok ys ->
  exists y ys', f x = Ok y /\ mapM f l = Ok ys' /\ ys = y :: ys'.
Proof.
  cbn [mapM]. destruct (f x) as [y|e]; [|discriminate].
  destruct (mapM f l) as [ys'|e]; [|discriminate].
  intros H. inversion H; subst. eauto.
Qed.

Lemma popParseState_scan (v : jsondec.JSON) (ps : list jsondec.parse) (rest : string) :
  match jsondec.popParseState v ps with
  | jsondec.scanContinue s' => jsondec.scan s' rest
  | jsondec.scanEnd v' => Ok (Some v')
  | jsondec.scanError msg => Err msg
  end = afterValue v ps rest.
Proof. destruct ps; reflexivity. Qed.

(** The elements of an array after the first. *)
Lemma scan_elems_tail (ps : list jsondec.parse) (l : list json.Value) :
  forall (elems : list string) (done : list jsondec.JSON) (v0 : jsondec.JSON) (rest : string),
    Forall (readable (S (List.length ps))) l ->
    mapM json.encode l = Ok elems ->
    jsondec.scan
      (jsondec.mkScanner (jsondec.stateEndValue v0) (jsondec.parseArrayValue done :: ps))
      (tails "," elems ++ String "]" rest)
    = afterValue (jsondec.JArray (done ++ v0 :: map treeOf l)) ps rest.
Proof.
  induction l as [|x l IH]; intros elems done v0 rest Hall Henc.
  - inversion Henc; subst. cbn [tails fold_right append map].
    rewrite scan_cons.
    change (jsondec.feed _ "]"%char)
      with (jsondec.popParseState (jsondec.JArray (jsondec.snoc done v0)) ps).
    apply popParseState_scan.
  - destruct (mapM_cons_ok _ _ _ _ Henc) as [tx [elems' [Hx [Hl ->]]]].
    inversion Hall as [|? ? Hrx Hrl]; subst.
    cbn [tails fold_right]. fold (tails "," elems').
    rewrite !append_assoc. cbn [append]. rewrite scan_cons.
    change (jsondec.feed _ ","%char)
      with (jsondec.scanContinue
              (jsondec.mkScanner jsondec.stateBeginValue
                 (jsondec.parseArrayValue (jsondec.snoc done v0) :: ps))).
    cbv iota.
    rewrite (Hrx (jsondec.parseArrayValue (jsondec.snoc done v0) :: ps) _ tx eq_refl Hx).
    cbn [afterValue].
    rewrite (IH elems' _ _ rest Hrl Hl).
    unfold jsondec.snoc. rewrite <- app_assoc. reflexivity.
Qed.

(** The elements of an array, from the opening bracket on. *)
Lemma scan_elems (ps : list jsondec.parse) (l : list json.Value)
      (elems : list string) (rest : string) :
  Forall (readable (S (List.length ps))) l ->
  mapM json.encode l = Ok elems ->
  jsondec.scan
    (jsondec.mkScanner jsondec.stateBeginValueOrEmpty (jsondec.parseArrayValue [] :: ps))
    (join "," elems ++ String "]" rest)
  = afterValue (jsondec.JArray (map treeOf l)) ps rest.
Proof.
  intros Hall Henc. destruct l as [|x l].
  - inversion Henc; subst. cbn [join append map]. rewrite scan_cons.
    change (jsondec.feed _ "]"%char) with (jsondec.popParseState (jsondec.JArray []) ps).
    apply popParseState_scan.
  - destruct (mapM_cons_ok _ _ _ _ Henc) as [tx [elems' [Hx [Hl ->]]]].
    inversion Hall as [|? ? Hrx Hrl]; subst.
    rewrite join_tails, append_assoc.
    destruct (encode_head _ _ Hx) as [c [t [-> [Hs Hc]]]].
    cbn [append]. rewrite scan_orEmpty by assumption.
    change (String c (t ++ tails "," elems' ++ String "]" rest))
      with (String c t ++ (tails "," elems' ++ String "]" rest)).
    rewrite (Hrx (jsondec.parseArrayValue [] :: ps) _ (String c t) eq_refl Hx).
    cbn [afterValue].
    rewrite (scan_elems_tail ps l elems' [] _ rest Hrl Hl). reflexivity.
Qed.

Local Opaque json.nameEscHTML.

(** One member, from its key to the end of its value. *)
Lemma scan_member (orEmpty : bool) (ps : list jsondec.parse) (fv : json.field * json.Value)
      (done : list (list jsondec.item * jsondec.JSON)) (s rest : string) :
  fieldReadable (S (List.length ps)) fv ->
  json.encode (snd fv) = Ok s ->
  jsondec.scan
    (jsondec.mkScanner
       (if orEmpty then jsondec.stateBeginStringOrEmpty else jsondec.stateBeginString)
       (jsondec.parseObjectKey done :: ps))
    ((json.nameEscHTML (fst fv) ++ s) ++ rest)
  = jsondec.scan
      (jsondec.mkScanner (jsondec.stateEndValue (treeOf (snd fv)))
         (jsondec.parseObjectValue done (lits (json.name (fst fv))) :: ps))
      rest.
Proof.
  intros [Hk Hr] Hs. rewrite append_assoc, scan_key by assumption.
  rewrite (Hr (jsondec.parseObjectValue done (lits (json.name (fst fv))) :: ps) _ s
             eq_refl Hs).
  reflexivity.
Qed.

(** The members of an object after the first. *)
Lemma scan_fields_tail (ps : list jsondec.parse) (fs : list (json.field * json.Value)) :
  forall (members : list (option string)) (done : list (list jsondec.item * jsondec.JSON))
         (k0 : list jsondec.item) (v0 : jsondec.JSON) (rest : string),
    Forall (fieldReadable (S (List.length ps))) fs ->
    mapM encodeField fs = Ok members ->
    jsondec.scan
      (jsondec.mkScanner (jsondec.stateEndValue v0) (jsondec.parseObjectValue done k0 :: ps))
      (tails "," (somes members) ++ String "}" rest)
    = afterValue (jsondec.JObject (done ++ (k0, v0) :: somes (map treeOfField fs))) ps rest.
Proof.
  induction fs as [|fv fs IH]; intros members done k0 v0 rest Hall Henc.
  - inversion Henc; subst. cbn [somes tails fold_right append map].
    rewrite scan_cons.
    change (jsondec.feed _ "}"%char)
      with (jsondec.popParseState (jsondec.JObject (jsondec.snoc done (k0, v0))) ps).
    apply popParseState_scan.
  - destruct (mapM_cons_ok _ _ _ _ Henc) as [m [members' [Hm [Hl ->]]]].
    inversion Hall as [|? ? Hrx Hrl]; subst.
    unfold encodeField in Hm. cbn [map]. unfold treeOfField at 1.
    destruct (json.omitEmpty (fst fv) && json.isEmptyValue (snd fv)).
    + inversion Hm; subst. cbn [somes]. apply IH; assumption.
    + destruct (json.encode (snd fv)) as [s|e] eqn:Hs; [|discriminate].
      injection Hm as Hm. subst m.
      cbn [somes tails fold_right]. fold (tails "," (somes members')).
      rewrite !append_assoc. cbn [append]. rewrite scan_cons.
      change (jsondec.feed _ ","%char)
        with (jsondec.scanContinue
                (jsondec.mkScanner jsondec.stateBeginString
                   (jsondec.parseObjectKey (jsondec.snoc done (k0, v0)) :: ps))).
      cbv iota.
      rewrite <- !append_assoc.
      rewrite (append_assoc (json.nameEscHTML (fst fv) ++ s)).
      rewrite (scan_member false ps fv _ s _ Hrx Hs).
      rewrite (IH members' _ _ _ rest Hrl Hl).
      unfold jsondec.snoc. rewrite <- app_assoc. reflexivity.
Qed.

(** The members of an object, from the opening brace on. *)
Lemma scan_fields (ps : list jsondec.parse) (fs : list (json.field * json.Value)) :
  forall (members : list (option string)) (rest : string),
    Forall (fieldReadable (S (List.length ps))) fs ->
    mapM encodeField fs = Ok members ->
    jsondec.scan
      (jsondec.mkScanner jsondec.stateBeginStringOrEmpty (jsondec.parseObjectKey [] :: ps))
      (join "," (somes members) ++ String "}" rest)
    = afterValue (jsondec.JObject (somes (map treeOfField fs))) ps rest.
Proof.
  induction fs as [|fv fs IH]; intros members rest Hall Henc.
  - inversion Henc; subst. cbn [somes join append map]. rewrite scan_cons.
    change (jsondec.feed _ "}"%char) with (jsondec.popParseState (jsondec.JObject []) ps).
    apply popParseState_scan.
  - destruct (mapM_cons_ok _ _ _ _ Henc) as [m [members' [Hm [Hl ->]]]].
    inversion Hall as [|? ? Hrx Hrl]; subst.
    unfold encodeField in Hm. cbn [map]. unfold treeOfField at 1.
    destruct (json.omitEmpty (fst fv) && json.isEmptyValue (snd fv)).
    + inversion Hm; subst. cbn [somes]. apply IH; assumption.
    + destruct (json.encode (snd fv)) as [s|e] eqn:Hs; [|discriminate].
      injection Hm as Hm. subst m. cbn [somes]. rewrite join_tails.
      rewrite (append_assoc (json.nameEscHTML (fst fv) ++ s)).
      rewrite (scan_member true ps fv _ s _ Hrx Hs).
      rewrite (scan_fields_tail ps fs members' [] _ _ rest Hrl Hl). reflexivity.
Qed.

Lemma depth_elem (x : json.Value) (l : list json.Value) :
  In x l -> depth x <= fold_right (fun x m => N.max (depth x) m) 0 l.
Proof.
  induction l as [|y l IH]; cbn [In fold_right]; [contradiction|].
  intros [->|H]; [lia|]. specialize (IH H). lia.
Qed.

Lemma depth_field (fv : json.field * json.Value) (fs : list (json.field * json.Value)) :
  In fv fs ->
  depth (snd fv)
  <= fold_right (fun (fv : json.field * json.Value) m => N.max (depth (snd fv)) m) 0 fs.
Proof.
  induction fs as [|y l IH]; cbn [In fold_right]; [contradiction|].
  intros [->|H]; [lia|]. specialize (IH H). lia.
Qed.

Lemma feed_open (ps : list jsondec.parse) :
  N.of_nat (List.length ps) + 1 <= jsondec.maxNestingDepth ->
  jsondec.feed (jsondec.mkScanner jsondec.stateBeginValue ps) "["%char
  = jsondec.scanContinue
      (jsondec.mkScanner jsondec.stateBeginValueOrEmpty (jsondec.parseArrayValue [] :: ps))
  /\ jsondec.feed (jsondec.mkScanner jsondec.stateBeginValue ps) "{"%char
     = jsondec.scanContinue
         (jsondec.mkScanner jsondec.stateBeginStringOrEmpty
            (jsondec.parseObjectKey [] :: ps)).
Proof.
  intros H.
  assert (Hd : forall p, (N.of_nat (List.length (p :: ps)) <=? jsondec.maxNestingDepth) = true).
  { intros p. apply N.leb_le. cbn [List.length]. lia. }
  split.
  - change (jsondec.feed (jsondec.mkScanner jsondec.stateBeginValue ps) "["%char)
      with (jsondec.pushParseState (jsondec.parseArrayValue [])
              jsondec.stateBeginValueOrEmpty ps).
    unfold jsondec.pushParseState. rewrite Hd. reflexivity.
  - change (jsondec.feed (jsondec.mkScanner jsondec.stateBeginValue ps) "{"%char)
      with (jsondec.pushParseState (jsondec.parseObjectKey [])
              jsondec.stateBeginStringOrEmpty ps).
    unfold jsondec.pushParseState. rewrite Hd. reflexivity.
Qed.

(** The scanner reads the text of every value the encoder writes back as
    the tree of that value, as long as the field names are plain and the
    nesting stays within [maxNestingDepth]. *)
Theorem scan_encode (v : json.Value) :
  forall (ps : list jsondec.parse) (rest text : string),
    json.encode v = Ok text ->
    plainNames v = true ->
    N.of_nat (List.length ps) + depth v <= jsondec.maxNestingDepth ->
    jsondec.scan (jsondec.mkScanner jsondec.stateBeginValue ps) (text ++ rest)
    = afterValue (treeOf v) ps rest.
Proof.
  induction v as [b|s| |l IH|fs IH| |] using json.Value_nested_ind;
    intros ps rest text Henc Hplain Hdepth; cbn [json.encode] in Henc;
    try discriminate Henc.
  - injection Henc as <-. rewrite <- scan_endValue. destruct b; reflexivity.
  - injection Henc as <-. apply scan_appendString.
  - injection Henc as <-. rewrite <- scan_endValue. reflexivity.
  - destruct (mapM json.encode l) as [elems|e] eqn:Hl; [|discriminate].
    injection Henc as <-. cbn [depth] in Hdepth. cbn [plainNames] in Hplain.
    cbn [append]. rewrite scan_cons.
    rewrite (proj1 (feed_open ps ltac:(lia))).
    rewrite append_assoc. cbn [append treeOf].
    apply scan_elems; [|exact Hl].
    rewrite Forall_forall in IH |- *. rewrite forallb_forall in Hplain.
    intros x Hx ps' rest' text' Hlen Hx'.
    apply (IH x Hx); [exact Hx'|exact (Hplain x Hx)|].
    pose proof (depth_elem x l Hx). rewrite Hlen. lia.
  - change (mapM _ fs) with (mapM encodeField fs) in Henc.
    destruct (mapM encodeField fs) as [members|e] eqn:Hl; [|discriminate].
    injection Henc as <-. cbn [depth] in Hdepth. cbn [plainNames] in Hplain.
    cbn [append]. rewrite scan_cons.
    rewrite (proj2 (feed_open ps ltac:(lia))).
    rewrite append_assoc. cbn [append treeOf].
    change (map _ fs) with (map treeOfField fs).
    apply scan_fields; [|exact Hl].
    rewrite Forall_forall in IH |- *. rewrite forallb_forall in Hplain.
    intros fv Hfv. specialize (Hplain fv Hfv).
    apply andb_true_iff in Hplain. destruct Hplain as [Hname Hplain].
    split; [exact Hname|].
    intros ps' rest' text' Hlen Hx'.
    apply (IH fv Hfv); [exact Hx'|exact Hplain|].
    pose proof (depth_field fv fs Hfv). rewrite Hlen. lia.
Qed.

Lemma map_treeOf_strings (l : list string) :
  map treeOf (map json.VString l) = map literalOf l.
Proof. induction l as [|s l IH]; cbn [map treeOf]; [|rewrite IH]; reflexivity. Qed.

Lemma plainNames_strings (l : list string) :
  forallb plainNames (map json.VString l) = true.
Proof. induction l as [|s l IH]; [reflexivity|exact IH]. Qed.

Lemma depth_strings (l : list string) :
  fold_right (fun x m => N.max (depth x) m) 0 (map json.VString l) = 0.
Proof. induction l as [|s l IH]; cbn [map fold_right depth]; [|rewrite IH]; reflexivity. Qed.

(** The decoder's scanner reads the document of a request back as an
    object with the six keys, each with the value of its field. *)
Theorem readValue_Marshal (req : EmailReq) :
  jsondec.readValue (wireShape req) = Ok (wireTree req).
Proof.
  assert (Hscan : jsondec.scan jsondec.reset (wireShape req) = Ok (Some (wireTree req))).
  { rewrite <- (append_nil_r (wireShape req)). unfold jsondec.reset.
    rewrite (scan_encode (reflect_EmailReq req) [] "" (wireShape req)).
    - destruct req as [[e p] [l|] su bo h fn];
        cbn [afterValue treeOf reflect_EmailReq reflect_Creds map somes tag fst snd
             json.omitEmpty json.name andb option_map
             Creds_ ToList Subject Body Html FromName Email Pwd wireTree];
        rewrite ?map_treeOf_strings; reflexivity.
    - apply Marshal_wireShape.
    - destruct req as [[e p] [l|] su bo h fn];
        cbn [plainNames reflect_EmailReq reflect_Creds forallb tag fst snd json.name
             option_map ToList];
        rewrite ?plainNames_strings; reflexivity.
    - destruct req as [[e p] [l|] su bo h fn];
        cbn [depth reflect_EmailReq reflect_Creds fold_right tag fst snd option_map ToList
             List.length];
        rewrite ?depth_strings; vm_compute; discriminate. }
  unfold jsondec.readValue. rewrite Hscan. reflexivity.
Qed.

Local Transparent json.nameEscHTML.

(** ** Unquoting what was read back *)

Lemma n2b_b2n (b : byte) : n2b (b2n b) = b.
Proof.
  unfold n2b, b2n. rewrite N.mod_small by apply N_ascii_bounded.
  apply ascii_N_embedding.
Qed.

(** A bit field above [k] bits and a number below [2^k] are joined by
    [lor] as by addition. *)
Lemma lor_shiftl_add (a b k : N) : b < 2 ^ k -> N.lor (N.shiftl a k) b = a * 2 ^ k + b.
Proof.
  intros Hb.
  assert (Hland : N.land (N.shiftl a k) b = 0).
  { apply N.bits_inj_0. intros i. rewrite N.land_spec.
    destruct (N.lt_ge_cases i k) as [Hi|Hi].
    - rewrite N.shiftl_spec_low by assumption. reflexivity.
    - replace (N.testbit b i) with false; [apply andb_false_r|].
      symmetry. destruct (N.eq_dec b 0) as [->|Hne]; [apply N.bits_0|].
      apply N.bits_above_log2.
      apply N.lt_le_trans with k; [|assumption].
      apply N.log2_lt_pow2; [lia|assumption]. }
  rewrite <- N.lxor_lor, <- N.add_nocarry_lxor, N.shiftl_mul_pow2 by assumption.
  reflexivity.
Qed.

Lemma rune2_arith (p0 b1 : N) :
  0xC2 <= p0 <= 0xDF -> 0x80 <= b1 <= 0xBF ->
  N.lor (N.shiftl (N.land p0 0x1F) 6) (N.land b1 0x3F) = (p0 - 0xC0) * 64 + (b1 - 0x80).
Proof.
  intros H0 H1.
  rewrite lor_shiftl_add.
  - bits_to_arith. divmod.
  - bits_to_arith. divmod.
Qed.

Lemma rune3_arith (p0 b1 b2 : N) :
  0xE0 <= p0 <= 0xEF -> 0x80 <= b1 <= 0xBF -> 0x80 <= b2 <= 0xBF ->
  N.lor (N.shiftl (N.land p0 0x0F) 12)
    (N.lor (N.shiftl (N.land b1 0x3F) 6) (N.land b2 0x3F))
  = (p0 - 0xE0) * 4096 + (b1 - 0x80) * 64 + (b2 - 0x80).
Proof.
  intros H0 H1 H2.
  rewrite (lor_shiftl_add _ (N.land b2 0x3F) 6) by (bits_to_arith; divmod).
  rewrite lor_shiftl_add.
  - bits_to_arith. divmod.
  - bits_to_arith. divmod.
Qed.

Lemma rune4_arith (p0 b1 b2 b3 : N) :
  0xF0 <= p0 <= 0xF4 -> 0x80 <= b1 <= 0xBF -> 0x80 <= b2 <= 0xBF -> 0x80 <= b3 <= 0xBF ->
  N.lor (N.shiftl (N.land p0 0x07) 18)
    (N.lor (N.shiftl (N.land b1 0x3F) 12)
       (N.lor (N.shiftl (N.land b2 0x3F) 6) (N.land b3 0x3F)))
  = (p0 - 0xF0) * 262144 + (b1 - 0x80) * 4096 + (b2 - 0x80) * 64 + (b3 - 0x80).
Proof.
  intros H0 H1 H2 H3.
  rewrite (lor_shiftl_add _ (N.land b3 0x3F) 6) by (bits_to_arith; divmod).
  rewrite (lor_shiftl_add _ _ 12) by (bits_to_arith; divmod).
  rewrite lor_shiftl_add.
  - bits_to_arith. divmod.
  - bits_to_arith. divmod.
Qed.

(** A marker byte joined with the bits below it. *)
Lemma lor_marker (m x k : N) : x < 2 ^ k -> N.lor (m * 2 ^ k) x = m * 2 ^ k + x.
Proof. intros H. rewrite <- (lor_shiftl_add m x k H), N.shiftl_mul_pow2. reflexivity. Qed.

Lemma EncodeRune2 (p0 b1 : N) :
  0xC2 <= p0 <= 0xDF -> 0x80 <= b1 <= 0xBF ->
  utf8.EncodeRune ((p0 - 0xC0) * 64 + (b1 - 0x80))
  = String (n2b p0) (String (n2b b1) "").
Proof.
  intros H0 H1. unfold utf8.EncodeRune.
  set (r := (p0 - 0xC0) * 64 + (b1 - 0x80)).
  assert (Hr : 0x80 <= r <= 0x7FF) by (unfold r; lia).
  destruct (N.leb_spec r 0x7F); [lia|].
  destruct (N.leb_spec r 0x7FF); [|lia].
  bits_to_arith.
  change 0xC0 with (6 * 2 ^ 5). change 0x80 with (2 * 2 ^ 6) at 1.
  rewrite !lor_marker by (change (2 ^ 5) with 32; change (2 ^ 6) with 64; unfold r; divmod).
  change (2 ^ 5) with 32. change (2 ^ 6) with 64.
  replace (6 * 32 + r / 64) with p0 by (unfold r; divmod).
  replace (2 * 64 + r mod 64) with b1 by (unfold r; divmod).
  reflexivity.
Qed.

(** The rows of the [first] table, by the size they announce. *)
Lemma first_ranges (p0 : N) (sz : nat) (lo hi : N) :
  utf8.first p0 = Some (sz, lo, hi) ->
  0x80 <= lo /\ hi <= 0xBF
  /\ ((sz = 2%nat /\ 0xC2 <= p0 <= 0xDF)
      \/ (sz = 3%nat /\ 0xE0 <= p0 <= 0xEF
          /\ (p0 = 0xE0 -> 0xA0 <= lo) /\ (p0 = 0xED -> hi <= 0x9F))
      \/ (sz = 4%nat /\ 0xF0 <= p0 <= 0xF4
          /\ (p0 = 0xF0 -> 0x90 <= lo) /\ (p0 = 0xF4 -> hi <= 0x8F))).
Proof.
  unfold utf8.first.
  repeat match goal with
         | |- context [if ?x then _ else _] => destruct x eqn:?
         end;
    intros H; inversion H; subst; bool_to_prop;
    (split; [lia|]); (split; [lia|]);
    [ left | right; left | right; left | right; left | right; left
      | right; right | right; right | right; right ];
    repeat split; try lia.
Qed.

Lemma EncodeRune3 (p0 b1 b2 lo hi : N) :
  utf8.first p0 = Some (3%nat, lo, hi) ->
  lo <= b1 <= hi -> 0x80 <= b2 <= 0xBF ->
  utf8.EncodeRune ((p0 - 0xE0) * 4096 + (b1 - 0x80) * 64 + (b2 - 0x80))
  = String (n2b p0) (String (n2b b1) (String (n2b b2) "")).
Proof.
  intros Hf H1 H2.
  destruct (first_ranges _ _ _ _ Hf) as [Hlo [Hhi [[? _]|[[_ [H0 [HE0 HED]]]|[? _]]]]];
    try discriminate.
  unfold utf8.EncodeRune, utf8.MaxRune, utf8.surrogate, utf8.RuneError.
  set (r := (p0 - 0xE0) * 4096 + (b1 - 0x80) * 64 + (b2 - 0x80)).
  assert (Hr : 0x800 <= r <= 0xFFFF /\ (r < 0xD800 \/ 0xDFFF < r)).
  { unfold r. destruct (N.eq_dec p0 0xE0) as [He|He];
      [specialize (HE0 He)|]; destruct (N.eq_dec p0 0xED) as [Hd|Hd];
      [specialize (HED Hd)| |specialize (HED Hd)|]; lia. }
  destruct (N.leb_spec r 0x7F); [lia|].
  destruct (N.leb_spec r 0x7FF); [lia|].
  destruct (N.ltb_spec 0x10FFFF r); [lia|].
  destruct (N.leb_spec 0xD800 r); destruct (N.leb_spec r 0xDFFF); try lia;
    cbn [orb andb]; (destruct (N.leb_spec r 0xFFFF); [|lia]);
    bits_to_arith;
    change 0xE0 with (14 * 2 ^ 4); change 0x80 with (2 * 2 ^ 6) at 1 2;
    rewrite !lor_marker
      by (change (2 ^ 4) with 16; change (2 ^ 6) with 64; unfold r; divmod);
    change (2 ^ 4) with 16; change (2 ^ 6) with 64;
    replace (14 * 16 + r / 4096) with p0 by (unfold r; divmod);
    replace (2 * 64 + r / 64 mod 64) with b1 by (unfold r; divmod);
    replace (2 * 64 + r mod 64) with b2 by (unfold r; divmod);
    reflexivity.
Qed.

Lemma EncodeRune4 (p0 b1 b2 b3 lo hi : N) :
  utf8.first p0 = Some (4%nat, lo, hi) ->
  lo <= b1 <= hi -> 0x80 <= b2 <= 0xBF -> 0x80 <= b3 <= 0xBF ->
  utf8.EncodeRune
    ((p0 - 0xF0) * 262144 + (b1 - 0x80) * 4096 + (b2 - 0x80) * 64 + (b3 - 0x80))
  = String (n2b p0) (String (n2b b1) (String (n2b b2) (String (n2b b3) ""))).
Proof.
  intros Hf H1 H2 H3.
  destruct (first_ranges _ _ _ _ Hf) as [Hlo [Hhi [[? _]|[[? _]|[_ [H0 [HF0 HF4]]]]]]];
    try discriminate.
  unfold utf8.EncodeRune, utf8.MaxRune, utf8.surrogate, utf8.RuneError.
  set (r := (p0 - 0xF0) * 262144 + (b1 - 0x80) * 4096 + (b2 - 0x80) * 64 + (b3 - 0x80)).
  assert (Hr : 0x10000 <= r <= 0x10FFFF).
  { unfold r. destruct (N.eq_dec p0 0xF0) as [He|He];
      [specialize (HF0 He)|]; destruct (N.eq_dec p0 0xF4) as [Hd|Hd];
      [specialize (HF4 Hd)| |specialize (HF4 Hd)|]; lia. }
  destruct (N.leb_spec r 0x7F); [lia|].
  destruct (N.leb_spec r 0x7FF); [lia|].
  destruct (N.ltb_spec 0x10FFFF r); [lia|].
  destruct (N.leb_spec 0xD800 r); [|lia].
  destruct (N.leb_spec r 0xDFFF); [lia|].
  cbn [orb andb].
  destruct (N.leb_spec r 0xFFFF); [lia|].
  bits_to_arith.
  change 0xF0 with (30 * 2 ^ 3). change 0x80 with (2 * 2 ^ 6) at 1 2 3.
  rewrite !lor_marker
    by (change (2 ^ 3) with 8; change (2 ^ 6) with 64; unfold r; divmod).
  change (2 ^ 3) with 8. change (2 ^ 6) with 64.
  replace (30 * 8 + r / 262144) with p0 by (unfold r; divmod).
  replace (2 * 64 + r / 4096 mod 64) with b1 by (unfold r; divmod).
  replace (2 * 64 + r / 64 mod 64) with b2 by (unfold r; divmod).
  replace (2 * 64 + r mod 64) with b3 by (unfold r; divmod).
  reflexivity.
Qed.

Lemma cont_range (n : N) : utf8.cont n = true -> 0x80 <= n <= 0xBF.
Proof.
  unfold utf8.cont. intros H. apply andb_true_iff in H. destruct H as [H1 H2].
  bool_to_prop. lia.
Qed.

(** What a rune that [DecodeRune] accepts at a byte above U+007F is made
    of: bytes [pre] after the first, on which alone the result depends and
    which encoding the rune gives back. *)
Lemma DecodeRune_valid (b : byte) (r : string) (c : N) (size : nat) :
  (b2n b <? utf8.RuneSelf) = false ->
  utf8.DecodeRune (String b r) = (c, size) ->
  ((c =? utf8.RuneError) && (size =? 1)%nat) = false ->
  exists pre r',
    r = pre ++ r'
    /\ String.length pre = (size - 1)%nat
    /\ (forall t, utf8.DecodeRune (String b (pre ++ t)) = (c, size))
    /\ utf8.EncodeRune c = String b pre.
Proof.
  intros Hb HD Hvalid.
  assert (Hbad : forall P : Prop, (utf8.RuneError, 1%nat) = (c, size) -> P).
  { intros P H. inversion H; subst. discriminate Hvalid. }
  unfold utf8.DecodeRune, utf8.at_ in HD |- *. cbn [String.get option_map] in HD |- *.
  rewrite Hb in HD |- *.
  destruct (utf8.first (b2n b)) as [[[sz lo] hi]|] eqn:Hf; [|eapply Hbad; eauto].
  destruct (first_ranges _ _ _ _ Hf) as [Hlo [Hhi Hcases]].
  destruct (String.length (String b r) <? sz)%nat; [eapply Hbad; eauto|].
  destruct r as [|b1 r1]; cbn [String.get option_map] in HD; [eapply Hbad; eauto|].
  destruct ((b2n b1 <? lo) || (hi <? b2n b1)) eqn:Hb1; [eapply Hbad; eauto|].
  pose proof Hb1 as Hb1'. apply orb_false_iff in Hb1'. destruct Hb1' as [Hl1 Hh1].
  bool_to_prop.
  destruct Hcases as [[-> H0]|[[-> [H0 _]]|[-> [H0 _]]]]; cbn [Nat.leb] in HD.
  - inversion HD; subst. exists (String b1 ""), r1. repeat split.
    + intros t. cbn [append String.length Nat.ltb Nat.leb String.get option_map].
      rewrite Hb1. reflexivity.
    + rewrite rune2_arith by lia. rewrite EncodeRune2 by lia.
      rewrite !n2b_b2n. reflexivity.
  - destruct r1 as [|b2 r2]; cbn [String.get option_map] in HD; [eapply Hbad; eauto|].
    destruct (utf8.cont (b2n b2)) eqn:Hb2; cbn [negb] in HD; [|eapply Hbad; eauto].
    pose proof (cont_range _ Hb2) as Hr2.
    inversion HD; subst. exists (String b1 (String b2 "")), r2. repeat split.
    + intros t. cbn [append String.length Nat.ltb Nat.leb String.get option_map].
      rewrite Hb1, Hb2. reflexivity.
    + rewrite rune3_arith by lia. rewrite (EncodeRune3 _ _ _ lo hi) by (assumption || lia).
      rewrite !n2b_b2n. reflexivity.
  - destruct r1 as [|b2 r2]; cbn [String.get option_map] in HD; [eapply Hbad; eauto|].
    destruct (utf8.cont (b2n b2)) eqn:Hb2; cbn [negb] in HD; [|eapply Hbad; eauto].
    pose proof (cont_range _ Hb2) as Hr2.
    destruct r2 as [|b3 r3]; cbn [String.get option_map] in HD; [eapply Hbad; eauto|].
    destruct (utf8.cont (b2n b3)) eqn:Hb3; cbn [negb] in HD; [|eapply Hbad; eauto].
    pose proof (cont_range _ Hb3) as Hr3.
    inversion HD; subst. exists (String b1 (String b2 (String b3 ""))), r3. repeat split.
    + intros t. cbn [append String.length Nat.ltb Nat.leb String.get option_map].
      rewrite Hb1, Hb2, Hb3. reflexivity.
    + rewrite rune4_arith by lia.
      rewrite (EncodeRune4 _ _ _ _ lo hi) by (assumption || lia).
      rewrite !n2b_b2n. reflexivity.
Qed.

Lemma unquote_ascii_item (b : byte) (l : list jsondec.item) :
  (b2n b <? utf8.RuneSelf) = true ->
  jsondec.unquoteItems 0
    ((if json.htmlSafeSet (b2n b) then jsondec.Lit b else escapeItem (b2n b)) :: l)
  = String b (jsondec.unquoteItems 0 l).
Proof.
  destruct b as [[] [] [] [] [] [] [] []]; intros H; try discriminate H; reflexivity.
Qed.

Lemma itemsOf_0_keep (keep : bool) (s : string) : itemsOf 0 keep s = itemsOf 0 true s.
Proof. destruct s; reflexivity. Qed.

Lemma lits_cons (c : byte) (s : string) : lits (String c s) = jsondec.Lit c :: lits s.
Proof. reflexivity. Qed.

Lemma itemsOf_skip_keep (pre r : string) :
  itemsOf (String.length pre) true (pre ++ r) = (lits pre ++ itemsOf 0 true r)%list.
Proof.
  induction pre as [|c pre IH]; [reflexivity|].
  cbn [String.length append itemsOf]. rewrite IH. reflexivity.
Qed.

Lemma itemsOf_skip_drop (pre r : string) :
  itemsOf (String.length pre) false (pre ++ r) = itemsOf 0 true r.
Proof.
  induction pre as [|c pre IH]; [apply itemsOf_0_keep|].
  cbn [String.length append itemsOf]. exact IH.
Qed.

Lemma rawPrefix_lits (pre : string) (l : list jsondec.item) :
  jsondec.rawPrefix (lits pre ++ l) = pre ++ jsondec.rawPrefix l.
Proof.
  induction pre as [|c pre IH]; [reflexivity|].
  rewrite lits_cons. cbn [app jsondec.rawPrefix append]. rewrite IH. reflexivity.
Qed.

Lemma unquoteItems_skip (pre : string) (l : list jsondec.item) :
  jsondec.unquoteItems (String.length pre) (lits pre ++ l) = jsondec.unquoteItems 0 l.
Proof.
  induction pre as [|c pre IH]; [reflexivity|].
  rewrite lits_cons. cbn [String.length app jsondec.unquoteItems]. exact IH.
Qed.

Lemma validFrom_skip (pre r : string) :
  utf8.validFrom (String.length pre) (pre ++ r) = utf8.validFrom 0 r.
Proof.
  induction pre as [|c pre IH]; [reflexivity|].
  cbn [String.length append utf8.validFrom]. exact IH.
Qed.

Lemma length_append (a b : string) :
  String.length (a ++ b) = (String.length a + String.length b)%nat.
Proof. induction a as [|c a IH]; cbn [append String.length]; [|rewrite IH]; reflexivity. Qed.

(** Unquoting what the scanner read from the literal of a well-formed
    string gives the string back. *)
Lemma unquoteItems_itemsOf (n : nat) :
  forall s : string,
    (String.length s <= n)%nat ->
    utf8.validFrom 0 s = true ->
    jsondec.unquoteItems 0 (itemsOf 0 true s) = s.
Proof.
  induction n as [|n IH]; intros s Hlen Hvalid.
  - destruct s; [reflexivity|cbn [String.length] in Hlen; lia].
  - destruct s as [|b r]; [reflexivity|].
    cbn [String.length] in Hlen. cbn [utf8.validFrom] in Hvalid. cbn [itemsOf].
    destruct (b2n b <? utf8.RuneSelf) eqn:Hb.
    + rewrite unquote_ascii_item by assumption. f_equal. apply IH; [lia|].
      unfold utf8.DecodeRune, utf8.at_ in Hvalid.
      cbn [String.get option_map] in Hvalid. rewrite Hb in Hvalid.
      destruct ((b2n b =? utf8.RuneError) && (1 =? 1)%nat); [discriminate|].
      exact Hvalid.
    + destruct (utf8.DecodeRune (String b r)) as [c size] eqn:HD.
      destruct ((c =? utf8.RuneError) && (size =? 1)%nat) eqn:Hinv; [discriminate|].
      destruct (DecodeRune_valid b r c size Hb HD Hinv) as [pre [r' [-> [Hpre [Hdec Henc]]]]].
      rewrite <- Hpre in *. rewrite validFrom_skip in Hvalid.
      assert (Hr' : jsondec.unquoteItems 0 (itemsOf 0 true r') = r').
      { apply IH; [|exact Hvalid]. rewrite length_append in Hlen. lia. }
      destruct ((c =? 0x2028) || (c =? 0x2029)) eqn:Hsep.
      * rewrite itemsOf_skip_drop.
        assert (Hns : utf16.IsSurrogate c = false).
        { apply orb_true_iff in Hsep.
          destruct Hsep as [Hc|Hc]; apply N.eqb_eq in Hc; subst c; reflexivity. }
        cbn [jsondec.unquoteItems]. rewrite Hns, Henc, Hr'. reflexivity.
      * rewrite itemsOf_skip_keep. cbn [jsondec.unquoteItems]. rewrite Hb.
        cbn [jsondec.rawPrefix]. rewrite rawPrefix_lits, Hdec.
        rewrite <- Hpre, unquoteItems_skip, Henc, Hr'. reflexivity.
Qed.

Lemma unquote_itemsOf_valid (s : string) :
  utf8.ValidString s = true -> jsondec.unquote (itemsOf 0 true s) = s.
Proof. intros H. apply (unquoteItems_itemsOf (String.length s)); [lia|exact H]. Qed.

(** X2. A string of valid UTF-8 survives the trip through JSON: the
    literal that [appendString] writes for it is read as one string value,
    and unquoting that value gives the string back. *)
Theorem unquote_literal (s : string) :
  utf8.ValidString s = true ->
  exists items : list jsondec.item,
    jsondec.readValue (json.appendString s) = Ok (jsondec.JString items)
    /\ jsondec.unquote items = s.
Proof.
  intros H. exists (itemsOf 0 true s). split; [|apply unquote_itemsOf_valid, H].
  unfold jsondec.readValue, jsondec.reset.
  rewrite <- (append_nil_r (json.appendString s)), scan_appendString.
  reflexivity.
Qed.

(** A string with a quote, a tag, a line feed and the two bytes of U+00E9. *)
Lemma unquote_literal_witness :
  exists items : list jsondec.item,
    jsondec.readValue
      (json.appendString (quoted "caf" ++ utf8.EncodeRune 0xE9 ++ "<b>" ++ String "010" ""))
    = Ok (jsondec.JString items)
    /\ jsondec.unquote items
       = quoted "caf" ++ utf8.EncodeRune 0xE9 ++ "<b>" ++ String "010" "".
Proof. apply unquote_literal. reflexivity. Defined.

(** ** What the decoder does not read, and what Send does besides *)

Lemma popParseState_inv (v : jsondec.JSON) (below : list jsondec.parse) (s' : jsondec.scanner) :
  jsondec.popParseState v below = jsondec.scanContinue s' -> scannerInv s'.
Proof.
  destruct below; cbn [jsondec.popParseState]; intros H; inversion H; subst.
  unfold scannerInv. cbn [jsondec.step jsondec.parseState]. discriminate.
Qed.

Lemma endValue_inv (v : jsondec.JSON) (ps : list jsondec.parse) (c : byte)
      (s' : jsondec.scanner) :
  (ps = [] -> container v = false) ->
  jsondec.endValue v ps c = jsondec.scanContinue s' -> scannerInv s'.
Proof.
  intros Hv. unfold jsondec.endValue.
  destruct ps as [|top below]; [discriminate|].
  destruct (jsondec.isSpace c).
  { intros H; inversion H; subst. unfold scannerInv.
    cbn [jsondec.step jsondec.parseState]. discriminate. }
  destruct top;
    repeat match goal with
           | |- context [if ?x then _ else _] => destruct x
           | |- context [match v with _ => _ end] => destruct v
           end;
    intros H; try discriminate H;
    try (apply popParseState_inv in H; exact H);
    inversion H; subst; exact I.
Qed.

Lemma feed_inv (s : jsondec.scanner) (c : byte) (s' : jsondec.scanner) :
  scannerInv s -> jsondec.feed s c = jsondec.scanContinue s' -> scannerInv s'.
Proof.
  destruct s as [st ps]. unfold scannerInv at 1, jsondec.feed.
  cbn [jsondec.step jsondec.parseState].
  unfold jsondec.beginValue, jsondec.beginString, jsondec.after0, jsondec.afterESign,
    jsondec.pushParseState.
  destruct st; intros Hinv;
    repeat match goal with
           | |- context [if ?x then _ else _] => destruct x
           | |- context [match jsondec.hexval ?x with _ => _ end] =>
             destruct (jsondec.hexval x)
           | |- context [match ?l with [] => _ | _ :: _ => _ end] => destruct l
           | |- context [match ?p with jsondec.parseObjectKey _ => _ | _ => _ end] =>
             destruct p
           | |- context [match ?e with "" => _ | String _ _ => _ end] => destruct e
           end;
    intros H; try discriminate H;
    try (apply popParseState_inv in H; exact H);
    try (apply endValue_inv in H; [exact H|first [assumption|intros _; reflexivity]]);
    try (inversion H; subst; unfold scannerInv;
         cbn [jsondec.step jsondec.parseState]; now auto).
Qed.

(** At the end of the input the scanner yields no container. *)
Lemma feed_space_end (s : jsondec.scanner) (v : jsondec.JSON) :
  scannerInv s -> jsondec.feed s " "%char = jsondec.scanEnd v -> container v = false.
Proof.
  destruct s as [st ps]. unfold scannerInv, jsondec.feed.
  cbn [jsondec.step jsondec.parseState].
  change (jsondec.isSpace " "%char) with true.
  unfold jsondec.after0, jsondec.afterESign, jsondec.endValue.
  change (jsondec.isSpace " "%char) with true.
  destruct st; intros Hinv; cbn;
    repeat match goal with
           | |- context [match ?l with [] => _ | _ :: _ => _ end] => destruct l
           | |- context [match ?e with "" => _ | String _ _ => _ end] => destruct e
           | |- context [if ?x then _ else _] => destruct x
           end;
    intros H; try discriminate H; inversion H; subst; auto.
Qed.

(** What follows a container that ends the scan is not read. *)
Lemma scan_trailing (body : string) :
  forall (s : jsondec.scanner) (v : jsondec.JSON) (junk : string),
    scannerInv s ->
    jsondec.scan s body = Ok (Some v) ->
    container v = true ->
    jsondec.scan s (body ++ junk) = Ok (Some v).
Proof.
  induction body as [|c body IH]; intros s v junk Hinv Hscan Hv.
  - cbn [jsondec.scan] in Hscan.
    destruct (jsondec.feed s " "%char) as [s'|v'|msg] eqn:Hf; try discriminate.
    inversion Hscan; subst. rewrite (feed_space_end s v Hinv Hf) in Hv. discriminate.
  - cbn [append jsondec.scan] in Hscan |- *.
    destruct (jsondec.feed s c) as [s'|v'|msg] eqn:Hf; [|exact Hscan|discriminate].
    apply IH; [exact (feed_inv s c s' Hinv Hf)|exact Hscan|exact Hv].
Qed.

Lemma readValue_trailing (body junk : string) (v : jsondec.JSON) :
  jsondec.readValue body = Ok v ->
  container v = true ->
  jsondec.readValue (body ++ junk) = Ok v.
Proof.
  unfold jsondec.readValue. intros H Hv.
  destruct (jsondec.scan jsondec.reset body) as [[v'|]|msg] eqn:Hs;
    try discriminate; try (destruct (jsondec.nonSpace body); discriminate).
  inversion H; subst.
  rewrite (scan_trailing body jsondec.reset v junk I Hs Hv). reflexivity.
Qed.

(** X3. When the first JSON value of the body is an object, the bytes
    after it do not change what [Send] returns. *)
Theorem Send_ignores_trailing_bytes
        (net1 net2 : Network) (c : Client) (req : EmailReq) (tr1 tr2 : list event)
        (jsonData : string) (status1 status2 : Z) (body junk : string)
        (ms : list (list jsondec.item * jsondec.JSON)) :
  Marshal req = Ok jsonData ->
  jsondec.readValue body = Ok (jsondec.JObject ms) ->
  net1 tr1 (postCall c jsonData) = Ok (http.mkResponse status1 body) ->
  net2 tr2 (postCall c jsonData) = Ok (http.mkResponse status2 (body ++ junk)) ->
  fst (Send net2 c req tr2) = fst (Send net1 c req tr1).
Proof.
  intros HM Hread H1 H2.
  rewrite (Send_run net1 c req tr1 jsonData HM), H1.
  rewrite (Send_run net2 c req tr2 jsonData HM), H2.
  cbn [fst http.Body]. unfold jsondec.Decode.
  rewrite (readValue_trailing body junk _ Hread eq_refl), Hread. reflexivity.
Qed.

Lemma Send_ignores_trailing_bytes_witness :
  fst (Send (replies (http.mkResponse 200 (js "{'success': true} and more")))
         docClient docReq [])
  = fst (Send (replies (http.mkResponse 200 (js "{'success': true}"))) docClient docReq []).
Proof.
  apply (Send_ignores_trailing_bytes
           (replies (http.mkResponse 200 (js "{'success': true}")))
           (replies (http.mkResponse 200 (js "{'success': true} and more")))
           docClient docReq [] [] (wireShape docReq) 200%Z 200%Z
           (js "{'success': true}") " and more"
           [(lits "success", jsondec.JBool true)]); reflexivity.
Defined.

(** X4. [Send] calls [Post] and, exactly when the call returned a response,
    closes the body of that response once, after the call. *)
Theorem Send_closes_body
        (net : Network) (c : Client) (req : EmailReq) (tr : list event)
        (jsonData : string) :
  Marshal req = Ok jsonData ->
  snd (Send net c req tr)
  = (tr ++ evPost (postCall c jsonData)
        :: (if is_ok (net tr (postCall c jsonData)) then [evClose] else []))%list.
Proof.
  intros HM. rewrite (Send_run net c req tr jsonData HM).
  destruct (net tr (postCall c jsonData)); cbn [snd is_ok]; [|reflexivity].
  rewrite <- app_assoc. reflexivity.
Qed.

Lemma Send_closes_body_witness :
  snd (Send (replies (http.mkResponse 200 "")) docClient docReq [])
  = [evPost (postCall docClient (wireShape docReq)); evClose].
Proof.
  apply (Send_closes_body (replies (http.mkResponse 200 "")) docClient docReq []
           (wireShape docReq)).
  reflexivity.
Defined.

(** X5. When the call of [Post] fails, [Send] returns the error of the
    call as it is. *)
Theorem Send_transport_failure
        (net : Network) (c : Client) (req : EmailReq) (tr : list event)
        (jsonData msg : string) :
  Marshal req = Ok jsonData ->
  net tr (postCall c jsonData) = Err msg ->
  fst (Send net c req tr) = Some (PostErr msg)
  /\ Error (PostErr msg) = msg
  /\ classify (fst (Send net c req tr)) = Some TransportError.
Proof.
  intros HM Hnet. rewrite (Send_run net c req tr jsonData HM), Hnet.
  repeat split.
Qed.

Lemma Send_transport_failure_witness :
  fst (Send (unreachable "dial tcp: connection refused") docClient docReq [])
  = Some (PostErr "dial tcp: connection refused")
  /\ Error (PostErr "dial tcp: connection refused") = "dial tcp: connection refused"
  /\ classify (fst (Send (unreachable "dial tcp: connection refused") docClient docReq []))
     = Some TransportError.
Proof.
  apply (Send_transport_failure (unreachable "dial tcp: connection refused")
           docClient docReq [] (wireShape docReq)); reflexivity.
Defined.

Lemma strings_literals (l : list string) :
  forallb utf8.ValidString l = true -> flat_map strings (map literalOf l) = l.
Proof.
  induction l as [|s l IH]; cbn [forallb map flat_map]; [reflexivity|].
  intros H. apply andb_true_iff in H. destruct H as [Hs Hl].
  cbn [literalOf strings app]. rewrite (unquote_itemsOf_valid s Hs), IH by assumption.
  reflexivity.
Qed.

(** X1. The document of every request reads back as one object with the six
    keys of the wire shape in order, the first holding an object with the
    keys of the credentials; and when the strings of the request are valid
    UTF-8, the strings read back are the strings of the request. *)
Theorem Marshal_read_back (req : EmailReq) :
  exists text : string,
    Marshal req = Ok text
    /\ jsondec.readValue text = Ok (wireTree req)
    /\ keysOf (wireTree req)
       = ["creds"; "to_list"; "subject"; "body"; "html"; "from_name"]
    /\ (exists creds, In (lits "creds", creds) match wireTree req with
                                             | jsondec.JObject ms => ms
                                             | _ => []
                                             end
                      /\ keysOf creds = ["email"; "pwd"])
    /\ (forallb utf8.ValidString (reqStrings req) = true ->
        strings (wireTree req) = reqStrings req).
Proof.
  exists (wireShape req).
  split; [apply Marshal_wireShape|]. split; [apply readValue_Marshal|].
  split; [reflexivity|]. split.
  { eexists. split; [left; reflexivity|reflexivity]. }
  destruct req as [[e p] tl su bo h fn]. unfold reqStrings, wireTree.
  cbn [Creds_ ToList Subject Body Html FromName Email Pwd strings flat_map snd app
       literalOf forallb].
  intros H.
  apply andb_true_iff in H. destruct H as [He H].
  apply andb_true_iff in H. destruct H as [Hp H].
  rewrite forallb_app in H. apply andb_true_iff in H. destruct H as [Htl H].
  cbn [forallb] in H.
  apply andb_true_iff in H. destruct H as [Hsu H].
  apply andb_true_iff in H. destruct H as [Hbo H].
  apply andb_true_iff in H. destruct H as [Hfn _].
  rewrite !unquote_itemsOf_valid by assumption.
  destruct tl as [l|]; cbn [strings app].
  - rewrite strings_literals by assumption. reflexivity.
  - reflexivity.
Qed.

Lemma Marshal_read_back_witness :
  jsondec.readValue (wireShape docReq) = Ok (wireTree docReq)
  /\ strings (wireTree docReq)
     = ["noreply@bakiverse.com"; "your-password"; "user@example.com";
        "Welcome to Bakiverse!"; "<h1>Hello world</h1><p>This is a test.</p>";
        "Bakiverse Bot"].
Proof.
  destruct (Marshal_read_back docReq) as [text [HM [Hread [_ [_ Hstrings]]]]].
  split; [reflexivity|]. apply Hstrings. reflexivity.
Defined.

(** ** Replies, member by member *)

(** Members that all fit are stored one after the other: of those that
    select a field with a value, the last one stays. *)
Lemma object_fits (ms : list (list jsondec.item * jsondec.JSON)) :
  forall d : jsondec.decodeState,
    forallb fits ms = true ->
    jsondec.savedError d = None ->
    jsondec.object ms d
    = jsondec.mkDecodeState
        (mkEmailRes (fold_left pickSuccess ms (Success (jsondec.target d)))
           (fold_left pickMessage ms (Message (jsondec.target d))))
        None.
Proof.
  unfold jsondec.object.
  induction ms as [|[k v] ms IH]; intros d Hfit Herr.
  - destruct d as [[su me] se]. cbn in *. subst se. reflexivity.
  - cbn [forallb] in Hfit. apply andb_true_iff in Hfit. destruct Hfit as [Hv Hfit].
    cbn [fold_left]. unfold fits in Hv.
    unfold jsondec.storeMember at 2, pickSuccess at 2, pickMessage at 2.
    cbn [fst snd] in *.
    destruct (jsondec.findField (jsondec.unquote k)) as [[|]|];
      destruct v; try discriminate; rewrite IH; auto.
Qed.

(** An error once saved stays saved. *)
Lemma object_keeps_error (ms : list (list jsondec.item * jsondec.JSON)) :
  forall (d : jsondec.decodeState) (e : jsondec.DecodeError),
    jsondec.savedError d = Some e ->
    jsondec.savedError (jsondec.object ms d) = Some e.
Proof.
  unfold jsondec.object.
  induction ms as [|[k v] ms IH]; intros d e He; [exact He|].
  cbn [fold_left]. apply IH.
  unfold jsondec.storeMember, jsondec.saveError.
  destruct (jsondec.findField (jsondec.unquote k)) as [[|]|];
    destruct v; cbn [jsondec.savedError]; rewrite ?He; auto.
Qed.

(** One member that does not fit leaves an error saved. *)
Lemma object_misfit (ms : list (list jsondec.item * jsondec.JSON)) :
  forall d : jsondec.decodeState,
    forallb fits ms = false ->
    exists e, jsondec.savedError (jsondec.object ms d) = Some e.
Proof.
  induction ms as [|[k v] ms IH]; intros d Hfit; [discriminate|].
  cbn [forallb] in Hfit.
  destruct (jsondec.savedError d) as [e|] eqn:Hd.
  { exists e. apply object_keeps_error. exact Hd. }
  destruct (fits (k, v)) eqn:Hv.
  - change (jsondec.object ((k, v) :: ms) d)
      with (jsondec.object ms (jsondec.storeMember d (k, v))).
    apply IH. exact Hfit.
  - change (jsondec.object ((k, v) :: ms) d)
      with (jsondec.object ms (jsondec.storeMember d (k, v))).
    assert (He : exists e, jsondec.savedError (jsondec.storeMember d (k, v)) = Some e).
    { unfold fits in Hv. unfold jsondec.storeMember, jsondec.saveError.
      cbn [fst snd] in Hv.
      destruct (jsondec.findField (jsondec.unquote k)) as [[|]|];
        destruct v; try discriminate; rewrite Hd; cbn [jsondec.savedError]; eauto. }
    destruct He as [e He]. exists e. apply object_keeps_error. exact He.
Qed.

(** What [Decode] gives for a body whose first value is an object. *)
Lemma Decode_object (body : string) (ms : list (list jsondec.item * jsondec.JSON)) :
  jsondec.readValue body = Ok (jsondec.JObject ms) ->
  (forallb fits ms = true ->
   jsondec.Decode body zeroRes = Ok (mkEmailRes (successOf ms) (messageOf ms)))
  /\ (forallb fits ms = false -> exists e, jsondec.Decode body zeroRes = Err e).
Proof.
  intros Hread. unfold jsondec.Decode. rewrite Hread. unfold jsondec.unmarshal. split.
  - intros Hfit.
    rewrite (object_fits ms (jsondec.mkDecodeState zeroRes None) Hfit eq_refl).
    reflexivity.
  - intros Hfit.
    destruct (object_misfit ms (jsondec.mkDecodeState zeroRes None) Hfit) as [e He].
    rewrite He. eauto.
Qed.

(** A flag that is set was set by a member. *)
Lemma object_success_told (ms : list (list jsondec.item * jsondec.JSON)) :
  forall d : jsondec.decodeState,
    Success (jsondec.target (jsondec.object ms d)) = true ->
    Success (jsondec.target d) = true
    \/ exists k, In (k, jsondec.JBool true) ms
                 /\ jsondec.findField (jsondec.unquote k) = Some jsondec.fSuccess.
Proof.
  unfold jsondec.object.
  induction ms as [|[k v] ms IH]; intros d H; [left; exact H|].
  cbn [fold_left] in H. apply IH in H. destruct H as [H|[k' [Hin Hk']]].
  - unfold jsondec.storeMember, jsondec.saveError in H.
    destruct (jsondec.findField (jsondec.unquote k)) as [[|]|] eqn:Hk;
      destruct v as [|b| | | |]; try destruct (jsondec.savedError d);
        cbn [jsondec.target Success] in H; auto;
        subst b; right; exists k; (split; [left; reflexivity|exact Hk]).
  - right. exists k'. split; [right; exact Hin|exact Hk'].
Qed.

(** X6. [Send] returns nil only if the call returned a response whose body
    begins with a JSON object that has a member [true] under a key that
    selects the field [Success]. *)
Theorem Send_success_only_if_told
        (net : Network) (c : Client) (req : EmailReq) (tr : list event) :
  fst (Send net c req tr) = None ->
  exists (jsonData : string) (res : http.Response)
         (ms : list (list jsondec.item * jsondec.JSON)) (k : list jsondec.item),
    Marshal req = Ok jsonData
    /\ net tr (postCall c jsonData) = Ok res
    /\ jsondec.readValue (http.Body res) = Ok (jsondec.JObject ms)
    /\ In (k, jsondec.JBool true) ms
    /\ jsondec.findField (jsondec.unquote k) = Some jsondec.fSuccess.
Proof.
  rewrite (Send_run net c req tr (wireShape req) (Marshal_wireShape req)).
  destruct (net tr (postCall c (wireShape req))) as [res|msg] eqn:Hnet;
    [|discriminate].
  cbn [fst]. unfold jsondec.Decode.
  destruct (jsondec.readValue (http.Body res)) as [v|e] eqn:Hread; [|discriminate].
  unfold jsondec.unmarshal.
  destruct v as [| | | | |ms]; try discriminate.
  destruct (jsondec.savedError (jsondec.object ms (jsondec.mkDecodeState zeroRes None)))
    eqn:Herr; [discriminate|].
  destruct (Success (jsondec.target
                       (jsondec.object ms (jsondec.mkDecodeState zeroRes None))))
    eqn:HS; [|discriminate].
  intros _. apply object_success_told in HS.
  destruct HS as [HS|[k [Hin Hk]]]; [discriminate|].
  exists (wireShape req), res, ms, k.
  repeat split; auto using Marshal_wireShape.
Qed.

Lemma Send_success_only_if_told_witness :
  exists (jsonData : string) (res : http.Response)
         (ms : list (list jsondec.item * jsondec.JSON)) (k : list jsondec.item),
    Marshal docReq = Ok jsonData
    /\ replies (http.mkResponse 200 (js "{'message': 'queued', 'Success': true}")) []
         (postCall docClient jsonData) = Ok res
    /\ jsondec.readValue (http.Body res) = Ok (jsondec.JObject ms)
    /\ In (k, jsondec.JBool true) ms
    /\ jsondec.findField (jsondec.unquote k) = Some jsondec.fSuccess.
Proof.
  apply (Send_success_only_if_told
           (replies (http.mkResponse 200 (js "{'message': 'queued', 'Success': true}")))
           docClient docReq []).
  reflexivity.
Defined.

(** X7. When the body begins with a JSON object whose members all fit the
    fields they select, [Send] goes by the last member that gives
    [Success] a bool and the last that gives [Message] a string: nil when
    that bool is true, the rejection with that message otherwise.  Members
    under other keys and [null] members change nothing. *)
Theorem Send_object_reply
        (net : Network) (c : Client) (req : EmailReq) (tr : list event)
        (jsonData : string) (res : http.Response)
        (ms : list (list jsondec.item * jsondec.JSON)) :
  Marshal req = Ok jsonData ->
  net tr (postCall c jsonData) = Ok res ->
  jsondec.readValue (http.Body res) = Ok (jsondec.JObject ms) ->
  forallb fits ms = true ->
  fst (Send net c req tr)
  = if successOf ms then None
    else Some (errors.New ("failed to send email: " ++ messageOf ms)).
Proof.
  intros HM Hnet Hread Hfit.
  rewrite (Send_run net c req tr jsonData HM), Hnet. cbn [fst].
  destruct (Decode_object _ ms Hread) as [HD _]. rewrite (HD Hfit). reflexivity.
Qed.

Lemma Send_object_reply_witness :
  fst (Send (replies (http.mkResponse 200
               (js "{'success': true, 'id': [7], 'message': 'a', 'MESSAGE': 'quota', 'success': false, 'message': null}")))
         docClient docReq [])
  = Some (errors.New "failed to send email: quota").
Proof.
  apply (Send_object_reply
           (replies (http.mkResponse 200
               (js "{'success': true, 'id': [7], 'message': 'a', 'MESSAGE': 'quota', 'success': false, 'message': null}")))
           docClient docReq [] (wireShape docReq)
           (http.mkResponse 200
               (js "{'success': true, 'id': [7], 'message': 'a', 'MESSAGE': 'quota', 'success': false, 'message': null}"))
           [(lits "success", jsondec.JBool true);
            (lits "id", jsondec.JArray [jsondec.JNumber "7"]);
            (lits "message", jsondec.JString (lits "a"));
            (lits "MESSAGE", jsondec.JString (lits "quota"));
            (lits "success", jsondec.JBool false);
            (lits "message", jsondec.JNull)]); reflexivity.
Defined.

(** X8. When the body begins with a JSON object one member of which does
    not fit the field it selects, [Send] returns the decode failure,
    whatever the other members say. *)
Theorem Send_object_mistyped_member
        (net : Network) (c : Client) (req : EmailReq) (tr : list event)
        (jsonData : string) (res : http.Response)
        (ms : list (list jsondec.item * jsondec.JSON)) :
  Marshal req = Ok jsonData ->
  net tr (postCall c jsonData) = Ok res ->
  jsondec.readValue (http.Body res) = Ok (jsondec.JObject ms) ->
  forallb fits ms = false ->
  fst (Send net c req tr)
  = Some (errors.New "email sent but failed to decode response").
Proof.
  intros HM Hnet Hread Hfit.
  rewrite (Send_run net c req tr jsonData HM), Hnet. cbn [fst].
  destruct (Decode_object _ ms Hread) as [_ HD]. destruct (HD Hfit) as [e He].
  rewrite He. reflexivity.
Qed.

Lemma Send_object_mistyped_member_witness :
  fst (Send (replies (http.mkResponse 200 (js "{'success': true, 'message': 404}")))
         docClient docReq [])
  = Some (errors.New "email sent but failed to decode response").
Proof.
  apply (Send_object_mistyped_member
           (replies (http.mkResponse 200 (js "{'success': true, 'message': 404}")))
           docClient docReq [] (wireShape docReq)
           (http.mkResponse 200 (js "{'success': true, 'message': 404}"))
           [(lits "success", jsondec.JBool true);
            (lits "message", jsondec.JNumber "404")]); reflexivity.
Defined.

(** X9. When the body begins with a JSON value that is no object, [Send]
    returns an error: for [null], which leaves the reply as declared, the
    rejection with an empty message; for a bool, a number, a string or an
    array, the decode failure. *)
Theorem Send_non_object_reply
        (net : Network) (c : Client) (req : EmailReq) (tr : list event)
        (jsonData : string) (res : http.Response) (v : jsondec.JSON) :
  Marshal req = Ok jsonData ->
  net tr (postCall c jsonData) = Ok res ->
  jsondec.readValue (http.Body res) = Ok v ->
  (forall ms, v <> jsondec.JObject ms) ->
  fst (Send net c req tr)
  = Some (errors.New
            match v with
            | jsondec.JNull => "failed to send email: "
            | _ => "email sent but failed to decode response"
            end).
Proof.
  intros HM Hnet Hread Hv.
  rewrite (Send_run net c req tr jsonData HM), Hnet. cbn [fst].
  unfold jsondec.Decode. rewrite Hread.
  destruct v as [| | | | |ms]; try reflexivity.
  destruct (Hv ms eq_refl).
Qed.

Lemma Send_non_object_reply_witness :
  fst (Send (replies (http.mkResponse 200 "null")) docClient docReq [])
  = Some (errors.New "failed to send email: ")
  /\ fst (Send (replies (http.mkResponse 200 (js "'OK'"))) docClient docReq [])
     = Some (errors.New "email sent but failed to decode response").
Proof.
  split.
  - apply (Send_non_object_reply (replies (http.mkResponse 200 "null"))
             docClient docReq [] (wireShape docReq) (http.mkResponse 200 "null")
             jsondec.JNull); try reflexivity.
    intros ms H. discriminate H.
  - apply (Send_non_object_reply (replies (http.mkResponse 200 (js "'OK'")))
             docClient docReq [] (wireShape docReq) (http.mkResponse 200 (js "'OK'"))
             (jsondec.JString (lits "OK"))); try reflexivity.
    intros ms H. discriminate H.
Defined.

(** ** White space before the value *)

Lemma scan_leading_space (ws body : string) :
  forallb jsondec.isSpace (list_ascii_of_string ws) = true ->
  jsondec.scan jsondec.reset (ws ++ body) = jsondec.scan jsondec.reset body.
Proof.
  induction ws as [|c ws IH]; cbn [list_ascii_of_string forallb append]; [reflexivity|].
  intros H. apply andb_true_iff in H. destruct H as [Hc Hws].
  cbn [jsondec.scan]. unfold jsondec.reset at 1, jsondec.feed.
  cbn [jsondec.step jsondec.parseState]. rewrite Hc. apply IH. exact Hws.
Qed.

Lemma nonSpace_leading_space (ws body : string) :
  forallb jsondec.isSpace (list_ascii_of_string ws) = true ->
  jsondec.nonSpace (ws ++ body) = jsondec.nonSpace body.
Proof.
  induction ws as [|c ws IH]; cbn [list_ascii_of_string forallb append]; [reflexivity|].
  intros H. apply andb_true_iff in H. destruct H as [Hc Hws].
  cbn [jsondec.nonSpace]. rewrite Hc. apply IH. exact Hws.
Qed.

Lemma readValue_leading_space (ws body : string) :
  forallb jsondec.isSpace (list_ascii_of_string ws) = true ->
  jsondec.readValue (ws ++ body) = jsondec.readValue body.
Proof.
  intros H. unfold jsondec.readValue.
  rewrite (scan_leading_space ws body H), (nonSpace_leading_space ws body H).
  reflexivity.
Qed.

(** X10. Spaces, tabs, carriage returns and line feeds before the body do
    not change what [Send] returns. *)
Theorem Send_ignores_leading_space
        (net1 net2 : Network) (c : Client) (req : EmailReq) (tr1 tr2 : list event)
        (jsonData : string) (status1 status2 : Z) (ws body : string) :
  Marshal req = Ok jsonData ->
  forallb jsondec.isSpace (list_ascii_of_string ws) = true ->
  net1 tr1 (postCall c jsonData) = Ok (http.mkResponse status1 body) ->
  net2 tr2 (postCall c jsonData) = Ok (http.mkResponse status2 (ws ++ body)) ->
  fst (Send net2 c req tr2) = fst (Send net1 c req tr1).
Proof.
  intros HM Hws H1 H2.
  rewrite (Send_run net1 c req tr1 jsonData HM), H1.
  rewrite (Send_run net2 c req tr2 jsonData HM), H2.
  cbn [fst http.Body]. unfold jsondec.Decode.
  rewrite (readValue_leading_space ws body Hws). reflexivity.
Qed.

Lemma Send_ignores_leading_space_witness :
  fst (Send (replies (http.mkResponse 200
               (String "013" (String "010" (String "009" " "))
                  ++ js "{'success': true}")))
         docClient docReq [])
  = fst (Send (replies (http.mkResponse 200 (js "{'success': true}"))) docClient docReq []).
Proof.
  apply (Send_ignores_leading_space
           (replies (http.mkResponse 200 (js "{'success': true}")))
           (replies (http.mkResponse 200
               (String "013" (String "010" (String "009" " "))
                  ++ js "{'success': true}")))
           docClient docReq [] [] (wireShape docReq) 200%Z 200%Z
           (String "013" (String "010" (String "009" " ")))
           (js "{'success': true}")); reflexivity.
Defined.

(** ** Different requests, different documents *)

Lemma literalOf_inj (s1 s2 : string) :
  utf8.ValidString s1 = true -> utf8.ValidString s2 = true ->
  literalOf s1 = literalOf s2 -> s1 = s2.
Proof.
  intros H1 H2 H. unfold literalOf in H. injection H as H.
  rewrite <- (unquote_itemsOf_valid s1 H1), <- (unquote_itemsOf_valid s2 H2), H.
  reflexivity.
Qed.

Lemma map_literalOf_inj (l1 : list string) :
  forall l2 : list string,
    forallb utf8.ValidString l1 = true -> forallb utf8.ValidString l2 = true ->
    map literalOf l1 = map literalOf l2 -> l1 = l2.
Proof.
  induction l1 as [|s1 l1 IH]; intros [|s2 l2] H1 H2 H; try discriminate H;
    [reflexivity|].
  cbn [forallb map] in *.
  apply andb_true_iff in H1. destruct H1 as [Hs1 Hl1].
  apply andb_true_iff in H2. destruct H2 as [Hs2 Hl2].
  injection H as Hs Hl.
  f_equal; [apply literalOf_inj; [exact Hs1|exact Hs2|]|apply IH; assumption].
  unfold literalOf. rewrite Hs. reflexivity.
Qed.

(** X11. Two requests whose strings are valid UTF-8 and whose documents
    are the same are the same request: the document loses nothing of a
    request, down to the difference between a nil and an empty
    [ToList]. *)
Theorem Marshal_injective (req1 req2 : EmailReq) :
  forallb utf8.ValidString (reqStrings req1) = true ->
  forallb utf8.ValidString (reqStrings req2) = true ->
  Marshal req1 = Marshal req2 ->
  req1 = req2.
Proof.
  intros H1 H2 HM.
  rewrite !Marshal_wireShape in HM.
  apply (f_equal (fun r : result json.MarshalError string =>
                    match r with
                    | Ok text => jsondec.readValue text
                    | Err _ => Err jsondec.EOF
                    end)) in HM.
  change (jsondec.readValue (wireShape req1) = jsondec.readValue (wireShape req2)) in HM.
  rewrite !readValue_Marshal in HM.
  assert (R : wireTree req1 = wireTree req2) by congruence. clear HM.
  destruct req1 as [[e1 p1] tl1 su1 bo1 h1 fn1], req2 as [[e2 p2] tl2 su2 bo2 h2 fn2].
  unfold wireTree in R. unfold reqStrings in H1, H2.
  cbn [Creds_ ToList Subject Body Html FromName Email Pwd] in *.
  cbn [forallb app] in H1, H2.
  repeat match goal with
         | H : _ && _ = true |- _ => apply andb_true_iff in H; destruct H
         | H : forallb _ (_ ++ _) = true |- _ => rewrite forallb_app in H
         end.
  cbn [forallb] in *.
  repeat match goal with
         | H : _ && _ = true |- _ => apply andb_true_iff in H; destruct H
         end.
  injection R as He Hp Htl Hsu Hbo Hh Hfn.
  assert (Ee : e1 = e2) by (apply literalOf_inj; unfold literalOf; congruence).
  assert (Ep : p1 = p2) by (apply literalOf_inj; unfold literalOf; congruence).
  assert (Esu : su1 = su2) by (apply literalOf_inj; unfold literalOf; congruence).
  assert (Ebo : bo1 = bo2) by (apply literalOf_inj; unfold literalOf; congruence).
  assert (Efn : fn1 = fn2) by (apply literalOf_inj; unfold literalOf; congruence).
  assert (Etl : tl1 = tl2).
  { destruct tl1 as [l1|], tl2 as [l2|]; try discriminate Htl; [|reflexivity].
    injection Htl as Htl. f_equal. apply map_literalOf_inj; assumption. }
  subst. reflexivity.
Qed.

Lemma Marshal_injective_witness :
  docReq
  = mkEmailReq (mkCreds "noreply@bakiverse.com" "your-password") (Some ["user@example.com"])
      "Welcome to Bakiverse!" "<h1>Hello world</h1><p>This is a test.</p>" true
      "Bakiverse Bot".
Proof.
  apply (Marshal_injective docReq
           (mkEmailReq (mkCreds "noreply@bakiverse.com" "your-password")
              (Some ["user@example.com"])
              "Welcome to Bakiverse!" "<h1>Hello world</h1><p>This is a test.</p>" true
              "Bakiverse Bot")); reflexivity.
Defined.

(** ** The bytes of the document *)

Lemma allBytes_app (p : byte -> bool) (a b : string) :
  allBytes p (a ++ b) = allBytes p a && allBytes p b.
Proof.
  induction a as [|c a IH]; cbn [append allBytes]; [reflexivity|].
  rewrite IH, andb_assoc. reflexivity.
Qed.

Lemma escapeByte_safe (b : byte) :
  (b2n b <? utf8.RuneSelf) = true ->
  allBytes wireSafe
    (if json.htmlSafeSet (b2n b) then String b "" else json.escapeByte (b2n b)) = true.
Proof.
  destruct b as [[] [] [] [] [] [] [] []]; intros H; try discriminate H;
    vm_compute; reflexivity.
Qed.

Lemma appendBody_safe (src : string) :
  forall (skip : nat) (keep : bool),
    (keep = true -> highPrefix skip src = true) ->
    allBytes wireSafe (json.appendBody skip keep src) = true.
Proof.
  induction src as [|b src IH]; intros skip keep Hhigh; [reflexivity|].
  cbn [json.appendBody]. destruct skip as [|k].
  - destruct (b2n b <? utf8.RuneSelf) eqn:Hb.
    + replace (if json.htmlSafeSet (b2n b)
               then String b (json.appendBody 0 true src)
               else json.escapeByte (b2n b) ++ json.appendBody 0 true src)
        with ((if json.htmlSafeSet (b2n b) then String b "" else json.escapeByte (b2n b))
                ++ json.appendBody 0 true src)
        by (destruct (json.htmlSafeSet (b2n b)); reflexivity).
      rewrite allBytes_app, (escapeByte_safe b Hb), IH by reflexivity. reflexivity.
    + apply N.ltb_ge in Hb. unfold utf8.RuneSelf in Hb.
      destruct (utf8.DecodeRune (String b src)) as [c size] eqn:HD.
      destruct ((c =? utf8.RuneError) && (size =? 1)%nat) eqn:Hinvalid.
      * rewrite allBytes_app, IH by reflexivity. reflexivity.
      * destruct ((c =? 0x2028) || (c =? 0x2029)) eqn:Hsep.
        -- rewrite allBytes_app. cbn [allBytes].
           rewrite IH by discriminate.
           apply orb_true_iff in Hsep.
           destruct Hsep as [Hc|Hc]; apply N.eqb_eq in Hc; subst c; reflexivity.
        -- cbn [allBytes]. rewrite IH.
           ++ rewrite andb_true_r. unfold wireSafe.
              apply andb_true_iff. split; [apply N.leb_le; lia|].
              apply negb_true_iff, orb_false_iff. split; [apply orb_false_iff; split|];
                apply N.eqb_neq; lia.
           ++ intros _. apply N.ltb_ge in Hb.
              exact (DecodeRune_high b src c size Hb HD Hinvalid).
  - destruct keep; [|apply IH; discriminate].
    pose proof (Hhigh eq_refl) as Hh. cbn [highPrefix] in Hh.
    apply andb_true_iff in Hh. destruct Hh as [Hb Hh].
    apply N.leb_le in Hb. unfold utf8.RuneSelf in Hb.
    cbn [allBytes]. rewrite IH by (intros _; exact Hh).
    rewrite andb_true_r. unfold wireSafe.
    apply andb_true_iff. split; [apply N.leb_le; lia|].
    apply negb_true_iff, orb_false_iff. split; [apply orb_false_iff; split|];
      apply N.eqb_neq; lia.
Qed.

Lemma appendString_safe (s : string) : allBytes wireSafe (json.appendString s) = true.
Proof.
  unfold json.appendString, quoted. cbn [allBytes].
  rewrite allBytes_app, appendBody_safe by reflexivity. reflexivity.
Qed.

Lemma join_safe (l : list string) :
  forallb (allBytes wireSafe) l = true -> allBytes wireSafe (join "," l) = true.
Proof.
  induction l as [|x l IH]; [reflexivity|].
  cbn [forallb]. intros H. apply andb_true_iff in H. destruct H as [Hx Hl].
  destruct l as [|y l]; [exact Hx|].
  change (join "," (x :: y :: l)) with (x ++ "," ++ join "," (y :: l)).
  rewrite !allBytes_app, Hx, (IH Hl). reflexivity.
Qed.

(** X12. The document [Send] posts holds no byte below 0x20 and none of
    the bytes [<], [>] and [&], whatever bytes the strings of the request
    hold. *)
Theorem Marshal_html_safe (req : EmailReq) :
  exists text : string, Marshal req = Ok text /\ allBytes wireSafe text = true.
Proof.
  exists (wireShape req). split; [apply Marshal_wireShape|].
  destruct req as [[e p] tl su bo h fn]. unfold wireShape, objectOf, member, quoted.
  cbn [Creds_ ToList Subject Body Html FromName Email Pwd join].
  repeat (rewrite ?allBytes_app; cbn [allBytes append]).
  rewrite !appendString_safe.
  assert (Htl : allBytes wireSafe
                  match tl with
                  | Some l => arrayOf (map json.appendString l)
                  | None => "null"
                  end = true).
  { destruct tl as [l|]; [|reflexivity]. unfold arrayOf.
    cbn [append allBytes]. rewrite allBytes_app, join_safe; [reflexivity|].
    induction l as [|s l IH]; [reflexivity|].
    cbn [map forallb]. rewrite appendString_safe, IH. reflexivity. }
  rewrite Htl. destruct h; reflexivity.
Qed.

(** ** Replies written from [EmailRes] *)

Lemma readValue_encode (v : json.Value) (text : string) :
  json.encode v = Ok text ->
  plainNames v = true ->
  depth v <= jsondec.maxNestingDepth ->
  jsondec.readValue text = Ok (treeOf v).
Proof.
  intros Henc Hplain Hdepth. unfold jsondec.readValue.
  rewrite <- (append_nil_r text) at 1. unfold jsondec.reset.
  rewrite (scan_encode v [] "" text Henc Hplain) by (cbn [List.length]; lia).
  reflexivity.
Qed.

(** X13. A reply that the encoder writes from an [EmailRes] whose message
    is valid UTF-8 is decoded to that [EmailRes]: [Send] returns nil when
    its [Success] is true, and otherwise the rejection with its [Message],
    byte for byte. *)
Theorem Send_reads_marshalled_reply
        (net : Network) (c : Client) (req : EmailReq) (tr : list event)
        (jsonData : string) (res : http.Response) (resp : EmailRes) :
  Marshal req = Ok jsonData ->
  net tr (postCall c jsonData) = Ok res ->
  json.encode (reflect_EmailRes resp) = Ok (http.Body res) ->
  utf8.ValidString (Message resp) = true ->
  jsondec.Decode (http.Body res) zeroRes = Ok resp
  /\ fst (Send net c req tr)
     = if Success resp then None
       else Some (errors.New ("failed to send email: " ++ Message resp)).
Proof.
  intros HM Hnet Henc Hvalid.
  assert (HD : jsondec.Decode (http.Body res) zeroRes = Ok resp).
  { destruct resp as [b m]. cbn [Message] in Hvalid.
    pose proof (readValue_encode _ _ Henc eq_refl ltac:(vm_compute; discriminate))
      as Hread.
    change (treeOf (reflect_EmailRes (mkEmailRes b m)))
      with (jsondec.JObject [(lits "success", jsondec.JBool b);
                             (lits "message", literalOf m)]) in Hread.
    destruct (Decode_object _ _ Hread) as [HD _]. rewrite (HD eq_refl).
    change (messageOf [(lits "success", jsondec.JBool b); (lits "message", literalOf m)])
      with (jsondec.unquote (itemsOf 0 true m)).
    rewrite (unquote_itemsOf_valid m Hvalid). reflexivity. }
  split; [exact HD|].
  rewrite (Send_run net c req tr jsonData HM), Hnet, HD. reflexivity.
Qed.

Lemma Send_reads_marshalled_reply_witness :
  jsondec.Decode
    (js "{'success':false,'message':'relay said \'no\'\n'}")
    zeroRes
  = Ok (mkEmailRes false
          (js "relay said 'no'" ++ String "010" ""))
  /\ fst (Send (replies (http.mkResponse 200
                  (js "{'success':false,'message':'relay said \'no\'\n'}")))
            docClient docReq [])
     = Some (errors.New ("failed to send email: "
                           ++ js "relay said 'no'" ++ String "010" "")).
Proof.
  apply (Send_reads_marshalled_reply
           (replies (http.mkResponse 200
              (js "{'success':false,'message':'relay said \'no\'\n'}")))
           docClient docReq [] (wireShape docReq)
           (http.mkResponse 200
              (js "{'success':false,'message':'relay said \'no\'\n'}"))
           (mkEmailRes false
              (js "relay said 'no'" ++ String "010" "")));
    reflexivity.
Defined.

(** ** Replies that nest deep *)

Lemma encode_nested (n : nat) : json.encode (nested n) = Ok (arrays n).
Proof.
  induction n as [|k IH]; [reflexivity|].
  cbn [nested json.encode mapM]. rewrite IH. reflexivity.
Qed.

Lemma depth_nested (n : nat) : depth (nested n) = N.of_nat n + 1.
Proof.
  induction n as [|k IH]; [reflexivity|].
  cbn [nested depth fold_right]. rewrite IH. lia.
Qed.

Lemma plainNames_nested (n : nat) : plainNames (nested n) = true.
Proof.
  induction n as [|k IH]; [reflexivity|].
  cbn [nested plainNames forallb]. rewrite IH. reflexivity.
Qed.

(** The scanner refuses the bracket that would open a container beyond
    [maxNestingDepth]. *)
Lemma scan_too_deep (n : nat) :
  forall (st : jsondec.state) (ps : list jsondec.parse) (rest : string),
    st = jsondec.stateBeginValue \/ st = jsondec.stateBeginValueOrEmpty ->
    jsondec.maxNestingDepth < N.of_nat (List.length ps) + N.of_nat n + 1 ->
    jsondec.scan (jsondec.mkScanner st ps) (arrays n ++ rest)
    = Err "exceeded max depth".
Proof.
  induction n as [|k IH]; intros st ps rest Hst Hdeep.
  - assert (Hpush : jsondec.feed (jsondec.mkScanner st ps) "["%char
                    = jsondec.scanError "exceeded max depth").
    { assert (Hd : (N.of_nat (List.length (jsondec.parseArrayValue [] :: ps))
                    <=? jsondec.maxNestingDepth) = false).
      { apply N.leb_gt. cbn [List.length]. lia. }
      destruct Hst as [-> | ->];
        change (jsondec.feed _ "["%char)
          with (jsondec.pushParseState (jsondec.parseArrayValue [])
                  jsondec.stateBeginValueOrEmpty ps);
        unfold jsondec.pushParseState; rewrite Hd; reflexivity. }
    cbn [arrays append]. rewrite scan_cons, Hpush. reflexivity.
  - cbn [arrays append]. rewrite scan_cons, append_assoc.
    assert (Hfeed : jsondec.feed (jsondec.mkScanner st ps) "["%char
                    = jsondec.pushParseState (jsondec.parseArrayValue [])
                        jsondec.stateBeginValueOrEmpty ps).
    { destruct Hst as [-> | ->]; reflexivity. }
    rewrite Hfeed. unfold jsondec.pushParseState.
    destruct (N.of_nat (List.length (jsondec.parseArrayValue [] :: ps))
              <=? jsondec.maxNestingDepth); [|reflexivity].
    apply IH; [right; reflexivity|]. cbn [List.length]. lia.
Qed.

(** X14. A reply that reports success and nests arrays under another key
    is accepted as long as it is at most [maxNestingDepth], ten thousand,
    containers deep; one container more and [Send] returns the decode
    failure. *)
Theorem Send_nesting_limit
        (net : Network) (c : Client) (req : EmailReq) (tr : list event)
        (jsonData : string) (status : Z) (n : nat) :
  Marshal req = Ok jsonData ->
  net tr (postCall c jsonData) = Ok (http.mkResponse status (deepReply n)) ->
  fst (Send net c req tr)
  = if N.of_nat n + 2 <=? jsondec.maxNestingDepth then None
    else Some (errors.New "email sent but failed to decode response").
Proof.
  intros HM Hnet.
  rewrite (Send_run net c req tr jsonData HM), Hnet. cbn [fst http.Body].
  destruct (N.of_nat n + 2 <=? jsondec.maxNestingDepth) eqn:Hn.
  - apply N.leb_le in Hn.
    assert (Hread : jsondec.readValue (deepReply n)
                    = Ok (jsondec.JObject [ (lits "success", jsondec.JBool true);
                                            (lits "data", treeOf (nested n)) ])).
    { apply (readValue_encode
               (json.VStruct [ (tag "success", json.VBool true);
                               (tag "data", nested n) ])).
      - cbn [json.encode mapM tag fst snd json.omitEmpty json.name andb].
        rewrite encode_nested. reflexivity.
      - cbn [plainNames forallb tag fst snd json.name].
        rewrite plainNames_nested. reflexivity.
      - cbn [depth fold_right snd]. rewrite depth_nested. lia. }
    destruct (Decode_object _ _ Hread) as [HD _]. rewrite (HD eq_refl). reflexivity.
  - apply N.leb_gt in Hn.
    assert (Hscan : jsondec.scan jsondec.reset (deepReply n)
                    = Err "exceeded max depth").
    { transitivity
        (jsondec.scan
           (jsondec.mkScanner jsondec.stateBeginValue
              [jsondec.parseObjectValue [(lits "success", jsondec.JBool true)]
                 (lits "data")])
           (arrays n ++ "}")); [reflexivity|].
      apply scan_too_deep; [left; reflexivity|]. cbn [List.length]. lia. }
    unfold jsondec.Decode, jsondec.readValue. rewrite Hscan. reflexivity.
Qed.

(** Ten thousand containers are read, ten thousand and one are not. *)
Lemma Send_nesting_limit_witness :
  fst (Send (replies (http.mkResponse 200 (deepReply (N.to_nat 9998)))) docClient docReq [])
  = None
  /\ fst (Send (replies (http.mkResponse 200 (deepReply (N.to_nat 9999))))
            docClient docReq [])
     = Some (errors.New "email sent but failed to decode response").
Proof.
  split.
  - apply (Send_nesting_limit
             (replies (http.mkResponse 200 (deepReply (N.to_nat 9998))))
             docClient docReq [] (wireShape docReq) 200%Z (N.to_nat 9998)); reflexivity.
  - apply (Send_nesting_limit
             (replies (http.mkResponse 200 (deepReply (N.to_nat 9999))))
             docClient docReq [] (wireShape docReq) 200%Z (N.to_nat 9999)); reflexivity.
Defined.

(** ** Keys in any letter case *)

Lemma foldName_ascii (k : string) :
  allBytes isASCII k = true -> jsondec.foldName k = toUpper k.
Proof.
  unfold jsondec.foldName, toUpper.
  induction k as [|c k IH]; [reflexivity|].
  cbn [allBytes jsondec.appendFoldedName mapBytes]. intros H.
  apply andb_true_iff in H. destruct H as [Hc Hk]. unfold isASCII in Hc.
  rewrite Hc, (IH Hk). reflexivity.
Qed.

Lemma toUpper_toLower (k : string) : toUpper (toLower k) = toUpper k.
Proof.
  unfold toUpper, toLower.
  induction k as [|c k IH]; [reflexivity|].
  cbn [mapBytes]. rewrite IH. f_equal.
  destruct c as [[] [] [] [] [] [] [] []]; reflexivity.
Qed.

Lemma toLower_toUpper (k : string) : toLower (toUpper k) = toLower k.
Proof.
  unfold toUpper, toLower.
  induction k as [|c k IH]; [reflexivity|].
  cbn [mapBytes]. rewrite IH. f_equal.
  destruct c as [[] [] [] [] [] [] [] []]; reflexivity.
Qed.

(** X15. A key made of ASCII bytes selects a field of [EmailRes] exactly
    when it spells the field's tag, [success] or [message], in any mix of
    upper and lower case. *)
Theorem findField_any_case (k : string) (f : jsondec.resField) :
  allBytes isASCII k = true ->
  jsondec.findField k = Some f <-> toLower k = jsondec.fieldName f.
Proof.
  intros Hascii. unfold jsondec.findField.
  rewrite (foldName_ascii k Hascii).
  change (jsondec.foldName "success") with "SUCCESS".
  change (jsondec.foldName "message") with "MESSAGE".
  assert (Hup : forall s : string, toUpper k = s -> toLower k = toLower s).
  { intros s <-. symmetry. apply toLower_toUpper. }
  assert (Hlow : forall s : string, toLower k = s -> toUpper k = toUpper s).
  { intros s <-. symmetry. apply toUpper_toLower. }
  destruct (String.eqb_spec k "success") as [->|H1].
  { destruct f; split; intros H; try reflexivity; discriminate H. }
  destruct (String.eqb_spec k "message") as [->|H2].
  { destruct f; split; intros H; try reflexivity; discriminate H. }
  destruct (String.eqb_spec (toUpper k) "SUCCESS") as [H3|H3].
  { rewrite (Hup _ H3). destruct f; split; intros H; try reflexivity; discriminate H. }
  destruct (String.eqb_spec (toUpper k) "MESSAGE") as [H4|H4].
  { rewrite (Hup _ H4). destruct f; split; intros H; try reflexivity; discriminate H. }
  split; [discriminate|]. intros H. apply Hlow in H.
  destruct f; [destruct (H3 H)|destruct (H4 H)].
Qed.

Lemma findField_any_case_witness :
  jsondec.findField "SuCcEsS" = Some jsondec.fSuccess
  /\ jsondec.findField "Message" = Some jsondec.fMessage.
Proof.
  split.
  - apply (findField_any_case "SuCcEsS" jsondec.fSuccess); reflexivity.
  - apply (findField_any_case "Message" jsondec.fMessage); reflexivity.
Defined.

(** ** The document is valid UTF-8 *)

Lemma wholeRunes_nil : wholeRunes "".
Proof. intros rest. reflexivity. Qed.

Lemma wholeRunes_app (a b : string) : wholeRunes a -> wholeRunes b -> wholeRunes (a ++ b).
Proof. intros Ha Hb rest. rewrite append_assoc, Ha, Hb. reflexivity. Qed.

Lemma wholeRunes_ascii (a : string) : allBytes isASCII a = true -> wholeRunes a.
Proof.
  induction a as [|c a IH]; cbn [allBytes]; intros H rest; [reflexivity|].
  apply andb_true_iff in H. destruct H as [Hc Ha]. unfold isASCII in Hc.
  cbn [append utf8.validFrom]. unfold utf8.DecodeRune, utf8.at_.
  cbn [String.get option_map]. rewrite Hc.
  assert (Hne : (b2n c =? utf8.RuneError) = false).
  { apply N.eqb_neq. apply N.ltb_lt in Hc. unfold utf8.RuneSelf, utf8.RuneError in *. lia. }
  rewrite Hne. cbn [andb Nat.sub]. apply IH. exact Ha.
Qed.

Lemma escapeByte_ascii (b : byte) :
  (b2n b <? utf8.RuneSelf) = true ->
  allBytes isASCII
    (if json.htmlSafeSet (b2n b) then String b "" else json.escapeByte (b2n b)) = true.
Proof.
  destruct b as [[] [] [] [] [] [] [] []]; intros H; try discriminate H;
    vm_compute; reflexivity.
Qed.

Lemma appendBody_skip_keep (pre r : string) :
  json.appendBody (String.length pre) true (pre ++ r) = pre ++ json.appendBody 0 true r.
Proof.
  induction pre as [|c pre IH]; [reflexivity|].
  cbn [String.length append json.appendBody]. rewrite IH. reflexivity.
Qed.

Lemma appendBody_skip_drop (pre r : string) :
  json.appendBody (String.length pre) false (pre ++ r) = json.appendBody 0 true r.
Proof.
  induction pre as [|c pre IH]; [destruct r; reflexivity|].
  cbn [String.length append json.appendBody]. exact IH.
Qed.

(** Whatever bytes [s] holds, what [appendString] writes for it is made of
    whole runes. *)
Lemma appendBody_wholeRunes (n : nat) :
  forall s : string,
    (String.length s <= n)%nat -> wholeRunes (json.appendBody 0 true s).
Proof.
  induction n as [|n IH]; intros s Hlen.
  - destruct s; [apply wholeRunes_nil|cbn [String.length] in Hlen; lia].
  - destruct s as [|b r]; [apply wholeRunes_nil|].
    cbn [String.length] in Hlen. cbn [json.appendBody].
    destruct (b2n b <? utf8.RuneSelf) eqn:Hb.
    + replace (if json.htmlSafeSet (b2n b)
               then String b (json.appendBody 0 true r)
               else json.escapeByte (b2n b) ++ json.appendBody 0 true r)
        with ((if json.htmlSafeSet (b2n b) then String b "" else json.escapeByte (b2n b))
                ++ json.appendBody 0 true r)
        by (destruct (json.htmlSafeSet (b2n b)); reflexivity).
      apply wholeRunes_app; [|apply IH; lia].
      apply wholeRunes_ascii, escapeByte_ascii. exact Hb.
    + destruct (utf8.DecodeRune (String b r)) as [c size] eqn:HD.
      destruct ((c =? utf8.RuneError) && (size =? 1)%nat) eqn:Hinvalid.
      * apply wholeRunes_app; [|apply IH; lia].
        apply wholeRunes_ascii. reflexivity.
      * destruct (DecodeRune_valid b r c size Hb HD Hinvalid)
          as [pre [r' [-> [Hpre [Hdec Henc]]]]].
        assert (Hr' : (String.length r' <= n)%nat).
        { rewrite length_append in Hlen. lia. }
        rewrite <- Hpre.
        destruct ((c =? 0x2028) || (c =? 0x2029)) eqn:Hsep.
        -- rewrite appendBody_skip_drop.
           change ("\u202" ++ String (json.hex (N.land c 15)) (json.appendBody 0 true r'))
             with (("\u202" ++ String (json.hex (N.land c 15)) "")
                     ++ json.appendBody 0 true r').
           apply wholeRunes_app; [|apply IH; exact Hr'].
           apply wholeRunes_ascii.
           apply orb_true_iff in Hsep.
           destruct Hsep as [Hc|Hc]; apply N.eqb_eq in Hc; subst c; reflexivity.
        -- rewrite appendBody_skip_keep. intros rest.
           cbn [append utf8.validFrom]. rewrite append_assoc, Hdec, Hinvalid.
           rewrite <- Hpre, validFrom_skip. apply IH. exact Hr'.
Qed.

Lemma appendString_wholeRunes (s : string) : wholeRunes (json.appendString s).
Proof.
  unfold json.appendString, quoted.
  change (String dquote (json.appendBody 0 true s ++ String dquote ""))
    with (String dquote "" ++ json.appendBody 0 true s ++ String dquote "").
  apply wholeRunes_app; [apply wholeRunes_ascii; reflexivity|].
  apply wholeRunes_app; [|apply wholeRunes_ascii; reflexivity].
  apply (appendBody_wholeRunes (String.length s)). lia.
Qed.

Lemma join_wholeRunes (l : list string) :
  Forall wholeRunes l -> wholeRunes (join "," l).
Proof.
  induction l as [|x l IH]; intros H; [apply wholeRunes_nil|].
  inversion H as [|? ? Hx Hl]; subst.
  destruct l as [|y l]; [exact Hx|].
  change (join "," (x :: y :: l)) with (x ++ "," ++ join "," (y :: l)).
  apply wholeRunes_app; [exact Hx|].
  apply wholeRunes_app; [apply wholeRunes_ascii; reflexivity|apply IH; exact Hl].
Qed.

Lemma objectOf_wholeRunes (l : list string) :
  Forall wholeRunes l -> wholeRunes (objectOf l).
Proof.
  intros H. unfold objectOf.
  apply wholeRunes_app; [apply wholeRunes_ascii; reflexivity|].
  apply wholeRunes_app; [apply join_wholeRunes; exact H|].
  apply wholeRunes_ascii; reflexivity.
Qed.

Lemma member_wholeRunes (key value : string) :
  allBytes isASCII key = true -> wholeRunes value -> wholeRunes (member key value).
Proof.
  intros Hk Hv. unfold member, quoted.
  change (String dquote (key ++ String dquote "") ++ ":" ++ value)
    with (String dquote "" ++ (key ++ String dquote "") ++ ":" ++ value).
  apply wholeRunes_app; [apply wholeRunes_ascii; reflexivity|].
  apply wholeRunes_app.
  - apply wholeRunes_app; apply wholeRunes_ascii; [exact Hk|reflexivity].
  - apply wholeRunes_app; [apply wholeRunes_ascii; reflexivity|exact Hv].
Qed.

(** X16. The document [Send] posts is valid UTF-8, whatever bytes the
    strings of the request hold. *)
Theorem Marshal_valid_utf8 (req : EmailReq) :
  exists text : string, Marshal req = Ok text /\ utf8.ValidString text = true.
Proof.
  exists (wireShape req). split; [apply Marshal_wireShape|].
  unfold utf8.ValidString. rewrite <- (append_nil_r (wireShape req)).
  assert (H : wholeRunes (wireShape req)); [|rewrite H; reflexivity].
  unfold wireShape.
  apply objectOf_wholeRunes.
  repeat apply Forall_cons; try apply Forall_nil;
    apply member_wholeRunes; try reflexivity; try apply appendString_wholeRunes.
  - apply objectOf_wholeRunes.
    repeat apply Forall_cons; try apply Forall_nil;
      apply member_wholeRunes; try reflexivity; apply appendString_wholeRunes.
  - destruct (ToList req) as [l|]; [|apply wholeRunes_ascii; reflexivity].
    unfold arrayOf.
    apply wholeRunes_app; [apply wholeRunes_ascii; reflexivity|].
    apply wholeRunes_app; [|apply wholeRunes_ascii; reflexivity].
    apply join_wholeRunes. induction l as [|s l IH]; [apply Forall_nil|].
    cbn [map]. apply Forall_cons; [apply appendString_wholeRunes|exact IH].
  - destruct (Html req); apply wholeRunes_ascii; reflexivity.
Qed.

(** ** Strings that are not valid UTF-8 *)

Lemma replaceInvalid_skip (pre r : string) :
  replaceInvalid (String.length pre) (pre ++ r) = pre ++ replaceInvalid 0 r.
Proof.
  induction pre as [|c pre IH]; [reflexivity|].
  cbn [String.length append replaceInvalid]. rewrite IH. reflexivity.
Qed.

Lemma unquoteItems_itemsOf_any (n : nat) :
  forall s : string,
    (String.length s <= n)%nat ->
    jsondec.unquoteItems 0 (itemsOf 0 true s) = replaceInvalid 0 s.
Proof.
  induction n as [|n IH]; intros s Hlen.
  - destruct s; [reflexivity|cbn [String.length] in Hlen; lia].
  - destruct s as [|b r]; [reflexivity|].
    cbn [String.length] in Hlen. cbn [itemsOf replaceInvalid].
    destruct (b2n b <? utf8.RuneSelf) eqn:Hb.
    + rewrite unquote_ascii_item by assumption.
      unfold utf8.DecodeRune, utf8.at_. cbn [String.get option_map]. rewrite Hb.
      assert (Hne : (b2n b =? utf8.RuneError) = false).
      { apply N.eqb_neq. apply N.ltb_lt in Hb.
        unfold utf8.RuneSelf, utf8.RuneError in *. lia. }
      rewrite Hne. cbn [andb Nat.sub]. f_equal. apply IH. lia.
    + destruct (utf8.DecodeRune (String b r)) as [c size] eqn:HD.
      destruct ((c =? utf8.RuneError) && (size =? 1)%nat) eqn:Hinv.
      * cbn [jsondec.unquoteItems].
        change (utf16.IsSurrogate 65533) with false. cbv iota.
        rewrite IH by lia. reflexivity.
      * destruct (DecodeRune_valid b r c size Hb HD Hinv)
          as [pre [r' [-> [Hpre [Hdec Henc]]]]].
        rewrite <- Hpre in *.
        assert (Hr' : jsondec.unquoteItems 0 (itemsOf 0 true r') = replaceInvalid 0 r').
        { apply IH. rewrite length_append in Hlen. lia. }
        rewrite replaceInvalid_skip.
        destruct ((c =? 0x2028) || (c =? 0x2029)) eqn:Hsep.
        -- rewrite itemsOf_skip_drop.
           assert (Hns : utf16.IsSurrogate c = false).
           { apply orb_true_iff in Hsep.
             destruct Hsep as [Hc|Hc]; apply N.eqb_eq in Hc; subst c; reflexivity. }
           cbn [jsondec.unquoteItems]. rewrite Hns, Henc, Hr'. reflexivity.
        -- rewrite itemsOf_skip_keep. cbn [jsondec.unquoteItems]. rewrite Hb.
           cbn [jsondec.rawPrefix]. rewrite rawPrefix_lits, Hdec.
           rewrite <- Hpre, unquoteItems_skip, Henc, Hr'. reflexivity.
Qed.

Lemma unquote_itemsOf (s : string) :
  jsondec.unquote (itemsOf 0 true s) = toValidUTF8 s.
Proof. apply (unquoteItems_itemsOf_any (String.length s)). lia. Qed.

Lemma strings_literals_any (l : list string) :
  flat_map strings (map literalOf l) = map toValidUTF8 l.
Proof.
  induction l as [|s l IH]; cbn [map flat_map]; [reflexivity|].
  cbn [literalOf strings app]. rewrite unquote_itemsOf, IH. reflexivity.
Qed.

(** X17. Strings of a request that are not valid UTF-8 are not refused:
    the strings read back from the document are the strings of the
    request with every byte that begins no well-formed rune replaced by
    U+FFFD. *)
Theorem Marshal_replaces_invalid_utf8 (req : EmailReq) :
  exists text : string,
    Marshal req = Ok text
    /\ jsondec.readValue text = Ok (wireTree req)
    /\ strings (wireTree req) = map toValidUTF8 (reqStrings req).
Proof.
  exists (wireShape req).
  split; [apply Marshal_wireShape|]. split; [apply readValue_Marshal|].
  destruct req as [[e p] tl su bo h fn]. unfold reqStrings, wireTree.
  cbn [Creds_ ToList Subject Body Html FromName Email Pwd strings flat_map snd app
       literalOf map].
  rewrite !unquote_itemsOf, map_app.
  destruct tl as [l|]; cbn [strings app map].
  - rewrite strings_literals_any. reflexivity.
  - reflexivity.
Qed.

(** ** Bodies that fail to decode *)

Lemma scan_scanRest (buf : string) :
  forall s : jsondec.scanner,
    jsondec.scan s buf
    = match scanRest s buf with
      | Ok (Some (v, _)) => Ok (Some v)
      | Ok None => Ok None
      | Err msg => Err msg
      end.
Proof.
  induction buf as [|c buf IH]; intros s; cbn [jsondec.scan scanRest].
  - destruct (jsondec.feed s " "%char); reflexivity.
  - destruct (jsondec.feed s c); [apply IH|reflexivity|reflexivity].
Qed.

(** [Decode] fails on the bodies that are not [decodable], and on no
    other. *)
Lemma Decode_decodable (body : string) :
  (exists e, jsondec.Decode body zeroRes = Err e) <-> decodable body = false.
Proof.
  unfold decodable.
  destruct (jsondec.readValue body) as [v|e] eqn:Hread.
  - destruct v as [| | | | |ms];
      try (unfold jsondec.Decode; rewrite Hread; split;
           [reflexivity|intros _; eexists; reflexivity]).
    + unfold jsondec.Decode. rewrite Hread. split; [|discriminate].
      intros [e He]. discriminate He.
    + destruct (Decode_object body ms Hread) as [Hfit Hmis].
      destruct (forallb fits ms).
      * split; [|discriminate]. intros [e He]. rewrite (Hfit eq_refl) in He.
        discriminate He.
      * split; [reflexivity|]. intros _. exact (Hmis eq_refl).
  - unfold jsondec.Decode. rewrite Hread. split; [reflexivity|].
    intros _. eexists. reflexivity.
Qed.

(** C3, as the code has it.  Whatever the status code, [Send] returns the
    error ["email sent but failed to decode response"] exactly when the
    body is not decodable: its first JSON value cannot be read - the body
    is empty, begins no JSON value, or is malformed or ends inside that
    value - or that value is neither an object nor [null], or is an object
    with a member that does not fit the field it selects.  What follows a
    complete first value is not read. *)
Theorem Send_decode_failure
        (net : Network) (c : Client) (req : EmailReq) (tr : list event)
        (jsonData : string) (res : http.Response) :
  Marshal req = Ok jsonData ->
  net tr (postCall c jsonData) = Ok res ->
  (fst (Send net c req tr) = Some (errors.New "email sent but failed to decode response")
   <-> decodable (http.Body res) = false)
  /\ (http.Body res = "" \/ beginsNoValue (http.Body res) = true
      \/ (exists e, jsondec.readValue (http.Body res) = Err e) ->
      fst (Send net c req tr) = Some (errors.New "email sent but failed to decode response")).
Proof.
  intros HM Hnet.
  assert (Hiff : fst (Send net c req tr)
                 = Some (errors.New "email sent but failed to decode response")
                 <-> decodable (http.Body res) = false).
  { rewrite <- Decode_decodable.
    rewrite (Send_run net c req tr jsonData HM), Hnet. cbn [fst].
    destruct (jsondec.Decode (http.Body res) zeroRes) as [resp|e].
    - split; [|intros [e He]; discriminate He].
      destruct (Success resp); intros H; discriminate H.
    - split; [intros _; eexists; reflexivity|reflexivity]. }
  split; [exact Hiff|].
  intros H. apply Hiff. apply Decode_decodable.
  destruct H as [H|[H|[e H]]].
  - rewrite H. exists jsondec.EOF. reflexivity.
  - apply Decode_beginsNoValue. exact H.
  - unfold jsondec.Decode. rewrite H. eexists. reflexivity.
Qed.

(** The mock backend of the specification, an empty body under status
    200; the error page of a gateway under status 502; and a reply cut off
    inside its object. *)
Lemma Send_decode_failure_witness :
  fst (Send (replies (http.mkResponse 200 "")) docClient docReq [])
  = Some (errors.New "email sent but failed to decode response")
  /\ fst (Send (replies (http.mkResponse 502 "<html>502 Bad Gateway</html>"))
            docClient docReq [])
     = Some (errors.New "email sent but failed to decode response")
  /\ fst (Send (replies (http.mkResponse 200 (js "{'success': tr"))) docClient docReq [])
     = Some (errors.New "email sent but failed to decode response").
Proof.
  assert (HM : Marshal docReq = Ok (wireShape docReq)) by reflexivity.
  split; [|split].
  - assert (Hnet : replies (http.mkResponse 200 "") [] (postCall docClient (wireShape docReq))
                   = Ok (http.mkResponse 200 "")) by reflexivity.
    destruct (Send_decode_failure _ docClient docReq [] _ _ HM Hnet) as [_ Hbodies].
    apply Hbodies. left. reflexivity.
  - assert (Hnet : replies (http.mkResponse 502 "<html>502 Bad Gateway</html>") []
                     (postCall docClient (wireShape docReq))
                   = Ok (http.mkResponse 502 "<html>502 Bad Gateway</html>"))
      by reflexivity.
    destruct (Send_decode_failure _ docClient docReq [] _ _ HM Hnet) as [_ Hbodies].
    apply Hbodies. right. left. reflexivity.
  - assert (Hnet : replies (http.mkResponse 200 (js "{'success': tr")) []
                     (postCall docClient (wireShape docReq))
                   = Ok (http.mkResponse 200 (js "{'success': tr"))) by reflexivity.
    destruct (Send_decode_failure _ docClient docReq [] _ _ HM Hnet) as [Hiff _].
    apply Hiff. reflexivity.
Defined.

(** C3, as stated, fails on bodies that are no JSON text but begin with a
    complete JSON value, since the decoder reads one value and stops.
    [nullx] leaves the reply as declared, and [Send] reports a rejection
    with an empty message; a success object followed by the error page of
    a gateway lets [Send] return no error, under status 502 as under 200;
    an empty object followed by stray braces is a rejection. *)
Lemma Send_decode_failure_counterexample :
  isJSON "nullx" = false
  /\ fst (Send (replies (http.mkResponse 200 "nullx")) docClient docReq [])
     = Some (errors.New "failed to send email: ")
  /\ isJSON (js "{'success': true}<html>502 Bad Gateway</html>") = false
  /\ fst (Send (replies (http.mkResponse 502
                  (js "{'success': true}<html>502 Bad Gateway</html>")))
            docClient docReq [])
     = None
  /\ isJSON "{}}}}garbage" = false
  /\ fst (Send (replies (http.mkResponse 200 "{}}}}garbage")) docClient docReq [])
     = Some (errors.New "failed to send email: ")
  /\ isJSON (js "{'success': true}") = true
  /\ isJSON "null" = true.
Proof. repeat split. Qed.

(** ** The request a document carries *)

Lemma toValidUTF8_valid (s : string) :
  utf8.ValidString s = true -> toValidUTF8 s = s.
Proof.
  intros H. rewrite <- (unquote_itemsOf s). apply unquote_itemsOf_valid. exact H.
Qed.

Lemma map_toValidUTF8_valid (l : list string) :
  forallb utf8.ValidString l = true -> map toValidUTF8 l = l.
Proof.
  induction l as [|s l IH]; cbn [forallb map]; [reflexivity|].
  intros H. apply andb_true_iff in H. destruct H as [Hs Hl].
  rewrite (toValidUTF8_valid s Hs), (IH Hl). reflexivity.
Qed.

Lemma stringsOf_literals (l : list string) :
  stringsOf (map literalOf l) = Some (map toValidUTF8 l).
Proof.
  induction l as [|s l IH]; [reflexivity|].
  cbn [map stringsOf stringOf literalOf]. rewrite IH, unquote_itemsOf. reflexivity.
Qed.

Lemma requestOf_wireTree (req : EmailReq) :
  requestOf (wireTree req) = Some (mapStrings toValidUTF8 req).
Proof.
  destruct req as [[e p] tl su bo h fn]. unfold wireTree, mapStrings, requestOf.
  cbn [Creds_ ToList Subject Body Html FromName Email Pwd].
  change (under "creds" (lits "creds", ?v)) with (Some v).
  change (under "to_list" (lits "to_list", ?v)) with (Some v).
  change (under "subject" (lits "subject", ?v)) with (Some v).
  change (under "body" (lits "body", ?v)) with (Some v).
  change (under "html" (lits "html", ?v)) with (Some v).
  change (under "from_name" (lits "from_name", ?v)) with (Some v).
  cbv iota beta. unfold literalOf at 3 4 5. cbv iota beta.
  change (under "email" (lits "email", ?v)) with (Some v).
  change (under "pwd" (lits "pwd", ?v)) with (Some v).
  unfold literalOf at 1 2. cbv iota beta.
  rewrite !unquote_itemsOf.
  destruct tl as [l|]; cbn [sliceOf option_map]; [|reflexivity].
  rewrite stringsOf_literals. reflexivity.
Qed.

Lemma mapStrings_valid (req : EmailReq) :
  forallb utf8.ValidString (reqStrings req) = true ->
  mapStrings toValidUTF8 req = req.
Proof.
  destruct req as [[e p] tl su bo h fn]. unfold reqStrings, mapStrings.
  cbn [Creds_ ToList Subject Body Html FromName Email Pwd forallb app].
  intros H.
  apply andb_true_iff in H. destruct H as [He H].
  apply andb_true_iff in H. destruct H as [Hp H].
  rewrite forallb_app in H. apply andb_true_iff in H. destruct H as [Htl H].
  cbn [forallb] in H.
  apply andb_true_iff in H. destruct H as [Hsu H].
  apply andb_true_iff in H. destruct H as [Hbo H].
  apply andb_true_iff in H. destruct H as [Hfn _].
  rewrite !toValidUTF8_valid by assumption.
  destruct tl as [l|]; cbn [option_map]; [|reflexivity].
  rewrite map_toValidUTF8_valid by assumption. reflexivity.
Qed.

(** C7, as the code has it.  The document [Send] posts for a request is
    the text of the wire shape: an object with the keys ["creds"] (an
    object with the keys ["email"] and ["pwd"]), ["to_list"], ["subject"],
    ["body"], ["html"] and ["from_name"], in this order and none left out,
    whatever the request - an empty [FromName] is written as the empty
    JSON string, a nil [ToList] as [null].  Read back, the document
    carries under each key the value of its field, with every byte of a
    string that begins no well-formed rune replaced by U+FFFD: it carries
    the request itself when the strings of the request are valid UTF-8. *)
Theorem Marshal_wire_shape (req : EmailReq) :
  exists (text : string) (v : jsondec.JSON),
    Marshal req = Ok text
    /\ text = wireShape req
    /\ (forall (net : Network) (c : Client) (tr : list event),
           posts (snd (Send net c req tr)) = (posts tr ++ [postCall c text])%list)
    /\ jsondec.readValue text = Ok v
    /\ keysOf v = ["creds"; "to_list"; "subject"; "body"; "html"; "from_name"]
    /\ requestOf v = Some (mapStrings toValidUTF8 req)
    /\ (forallb utf8.ValidString (reqStrings req) = true -> requestOf v = Some req)
    /\ (FromName req = "" ->
        exists members, text = objectOf (members ++ [member "from_name" (quoted "")])).
Proof.
  exists (wireShape req), (wireTree req).
  split; [apply Marshal_wireShape|]. split; [reflexivity|]. split.
  { intros net c tr.
    rewrite (Send_run net c req tr (wireShape req) (Marshal_wireShape req)).
    destruct (net tr (postCall c (wireShape req))) as [res|msg]; cbn [snd].
    - rewrite !posts_app. cbn [posts]. rewrite app_nil_r. reflexivity.
    - rewrite posts_app. reflexivity. }
  split; [apply readValue_Marshal|]. split; [reflexivity|].
  split; [apply requestOf_wireTree|]. split.
  { intros Hvalid. rewrite requestOf_wireTree, (mapStrings_valid req Hvalid).
    reflexivity. }
  intros Hfn. unfold wireShape. rewrite Hfn.
  eexists [_; _; _; _; _]. reflexivity.
Qed.

(** The request of the package documentation, and the same request with
    no display name and no recipients. *)
Lemma Marshal_wire_shape_witness :
  (exists v : jsondec.JSON,
      jsondec.readValue (wireShape docReq) = Ok v /\ requestOf v = Some docReq)
  /\ Marshal (mkEmailReq (Creds_ docReq) None (Subject docReq) (Body docReq) true "")
     = Ok (js "{'creds':{'email':'noreply@bakiverse.com','pwd':'your-password'},'to_list':null,'subject':'Welcome to Bakiverse!','body':'\u003ch1\u003eHello world\u003c/h1\u003e\u003cp\u003eThis is a test.\u003c/p\u003e','html':true,'from_name':''}").
Proof.
  split.
  - destruct (Marshal_wire_shape docReq)
      as [text [v [HM [Htext [_ [Hread [_ [_ [Hvalid _]]]]]]]]].
    exists v. subst text. split; [exact Hread|]. apply Hvalid. reflexivity.
  - reflexivity.
Defined.

(** C7, as stated, fails on a request that holds a string which is not
    valid UTF-8.  With the single byte 0xFF as its subject, the document
    carries U+FFFD under ["subject"], not the value of the field; and the
    request with the byte 0xFE there has the same document. *)
Lemma Marshal_wire_shape_counterexample :
  utf8.ValidString (String "255" "") = false
  /\ readBack (mkEmailReq (mkCreds "a" "b") (Some ["c"]) (String "255" "") "d" false "e")
     = Some (mkEmailReq (mkCreds "a" "b") (Some ["c"]) (utf8.EncodeRune 0xFFFD) "d" false "e")
  /\ (utf8.EncodeRune 0xFFFD =? String "255" "")%string = false
  /\ Marshal (mkEmailReq (mkCreds "a" "b") (Some ["c"]) (String "254" "") "d" false "e")
     = Marshal (mkEmailReq (mkCreds "a" "b") (Some ["c"]) (String "255" "") "d" false "e")
  /\ (String "254" "" =? String "255" "")%string = false.
Proof. repeat split. Qed.
